(** * A shallow embedding of the host integrity checker [src/lab1/hids.py]

    The database is a Python dict from path to a small dict of attributes
    (["type"], ["uid"], ["gid"], ["mode"], ["size"], ["hash"]).  The actions
    [add], [cksum], [update] and [verify] mutate it in place, print messages,
    read the file system through [os.stat] and read file contents through
    [open]/[read]/[close].  We model them in a state and exception monad over
    an explicit state: the database, the lines printed so far, and the table
    of open file handles; the file system is a read-only environment. *)

From Stdlib Require Import ZArith List Lia Ascii.
From stdpp Require Import base gmap sets list strings.
Import ListNotations.
Open Scope string_scope.

(** ** Values and attribute dicts *)

(** A value stored in an attribute dict: a Python [str] or [int]. *)
Inductive value :=
| VStr (s : string)
| VInt (z : Z).

Definition value_eqb (v w : value) : bool :=
  match v, w with
  | VStr s, VStr t => String.eqb s t
  | VInt a, VInt b => Z.eqb a b
  | _, _ => false
  end.

(** An attribute dict ([filedata]'s or [dirdata]'s result), as a list of
    key/value pairs in insertion order, which is Python's iteration order. *)
Definition entry := list (string * value).

(** [d.get(k)] *)
Fixpoint dget (d : entry) (k : string) : option value :=
  match d with
  | [] => None
  | (k', v) :: d' => if String.eqb k k' then Some v else dget d' k
  end.

(** [k in d] *)
Definition dmem (k : string) (d : entry) : bool :=
  match dget d k with Some _ => true | None => false end.

(** [d[k] = v]: overwrite in place, or append a new key at the end. *)
Fixpoint dset (d : entry) (k : string) (v : value) : entry :=
  match d with
  | [] => [(k, v)]
  | (k', v') :: d' => if String.eqb k k' then (k, v) :: d' else (k', v') :: dset d' k v
  end.

(** [del d[k]] (only called on a key that is present). *)
Fixpoint ddel (d : entry) (k : string) : entry :=
  match d with
  | [] => []
  | (k', v') :: d' => if String.eqb k k' then d' else (k', v') :: ddel d' k
  end.

(** [d.update(other)] *)
Definition dupdate (d other : entry) : entry :=
  fold_left (fun acc kv => dset acc kv.1 kv.2) other d.

(** ** Python's [str] and [oct] on integers *)

Fixpoint uint_digits (u : Decimal.uint) : string :=
  match u with
  | Decimal.Nil => ""
  | Decimal.D0 u => "0" ++ uint_digits u
  | Decimal.D1 u => "1" ++ uint_digits u
  | Decimal.D2 u => "2" ++ uint_digits u
  | Decimal.D3 u => "3" ++ uint_digits u
  | Decimal.D4 u => "4" ++ uint_digits u
  | Decimal.D5 u => "5" ++ uint_digits u
  | Decimal.D6 u => "6" ++ uint_digits u
  | Decimal.D7 u => "7" ++ uint_digits u
  | Decimal.D8 u => "8" ++ uint_digits u
  | Decimal.D9 u => "9" ++ uint_digits u
  end.

(** [str(z)] for an [int] *)
Definition str_Z (z : Z) : string :=
  match Z.to_int z with
  | Decimal.Pos u => uint_digits u
  | Decimal.Neg u => "-" ++ uint_digits u
  end.

Definition str_nat (n : nat) : string := str_Z (Z.of_nat n).

(** The base-8 digits of a positive number, most significant first: the
    three lowest bits are peeled off as the last digit. *)
Fixpoint oct_digits (p : positive) : string :=
  match p with
  | xH => "1"
  | xO xH => "2"
  | xI xH => "3"
  | xO (xO xH) => "4"
  | xI (xO xH) => "5"
  | xO (xI xH) => "6"
  | xI (xI xH) => "7"
  | xO (xO (xO q)) => oct_digits q ++ "0"
  | xI (xO (xO q)) => oct_digits q ++ "1"
  | xO (xI (xO q)) => oct_digits q ++ "2"
  | xI (xI (xO q)) => oct_digits q ++ "3"
  | xO (xO (xI q)) => oct_digits q ++ "4"
  | xI (xO (xI q)) => oct_digits q ++ "5"
  | xO (xI (xI q)) => oct_digits q ++ "6"
  | xI (xI (xI q)) => oct_digits q ++ "7"
  end.

(** [oct(z)]: e.g. [oct(420) = '0o644'], [oct(0) = '0o0']. *)
Definition oct (z : Z) : string :=
  match z with
  | Z0 => "0o0"
  | Zpos p => "0o" ++ oct_digits p
  | Zneg p => "-0o" ++ oct_digits p
  end.

(** [str(v)] as used in the f-strings of [verify]. *)
Definition str_value (v : value) : string :=
  match v with VStr s => s | VInt z => str_Z z end.

(** ** The [stat] module *)

Record stat_result := mk_stat {
  st_mode : Z;
  st_uid : Z;
  st_gid : Z;
  st_size : Z
}.

(** [stat.S_IFMT] is [0o170000], [stat.S_IFREG] is [0o100000],
    [stat.S_IFDIR] is [0o040000]; [stat.S_IMODE] masks with [0o7777]. *)
Definition S_IFMT (m : Z) : Z := Z.land m 61440.
Definition S_ISREG (m : Z) : bool := Z.eqb (S_IFMT m) 32768.
Definition S_ISDIR (m : Z) : bool := Z.eqb (S_IFMT m) 16384.
Definition S_IMODE (m : Z) : Z := Z.land m 4095.

(** ** The file system (read-only environment) *)

(** [fs_stat p] is what [os.stat(p)] returns ([None]: it raises);
    [fs_bytes p] is the content of [p]; [fs_fault p = Some k] says that
    reading the byte at offset [k] of [p] fails with an I/O error;
    [fs_can_open p] says whether [open(p, 'rb')] succeeds. *)
Record fsys := mk_fsys {
  fs_stat : string -> option stat_result;
  fs_bytes : string -> list Byte.byte;
  fs_fault : string -> option nat;
  fs_can_open : string -> bool
}.

(** [os.path.isfile] and [os.path.isdir] *)
Definition isfile (fs : fsys) (p : string) : bool :=
  match fs_stat fs p with Some s => S_ISREG (st_mode s) | None => false end.
Definition isdir (fs : fsys) (p : string) : bool :=
  match fs_stat fs p with Some s => S_ISDIR (st_mode s) | None => false end.

(** ** Program state and the monad *)

(** The database is a [gmap] from path to attribute dict.  Python iterates
    a dict in insertion order; here [for entry in data] follows the map's
    own (deterministic) key order.  The only effect of that order is the
    order of the "missing" warnings of [verify]. *)
Record state := mk_state {
  st_data : gmap string entry;
  st_out : list string;                    (** lines printed so far *)
  st_fds : gmap nat (string * nat);        (** open handles: path, position *)
  st_next_fd : nat
}.

Inductive exn :=
| AssertionError
| KeyError
| OSError
| ValueError.

Inductive outcome (A : Type) :=
| Ok (a : A) (s : state)
| Exc (e : exn) (s : state).
Arguments Ok {A} a s.
Arguments Exc {A} e s.

Definition M (A : Type) : Type := fsys -> state -> outcome A.

Definition ret {A} (a : A) : M A := fun _ s => Ok a s.
Definition bind {A B} (m : M A) (k : A -> M B) : M B :=
  fun fs s => match m fs s with
              | Ok a s' => k a fs s'
              | Exc e s' => Exc e s'
              end.
Definition raise {A} (e : exn) : M A := fun _ s => Exc e s.

Notation "'let!' x ':=' m 'in' k" := (bind m (fun x => k))
  (at level 200, x name, m at level 100, k at level 200).
Notation "'let!' ' p ':=' m 'in' k" := (bind m (fun x => match x with p => k end))
  (at level 200, p pattern, m at level 100, k at level 200).
Notation "m ;; k" := (bind m (fun _ => k)) (at level 100, right associativity).

Definition outcome_state {A} (o : outcome A) : state :=
  match o with Ok _ s => s | Exc _ s => s end.

(** [assert b] *)
Definition assert (b : bool) : M unit :=
  if b then ret tt else raise AssertionError.

(** [print(line)] *)
Definition print (line : string) : M unit :=
  fun _ s => Ok tt (mk_state (st_data s) (st_out s ++ [line]) (st_fds s) (st_next_fd s)).

(** the database object [data] *)
Definition get_data : M (gmap string entry) := fun _ s => Ok (st_data s) s.
Definition put_data (d : gmap string entry) : M unit :=
  fun _ s => Ok tt (mk_state d (st_out s) (st_fds s) (st_next_fd s)).

(** [data[p] = e] *)
Definition set_item (p : string) (e : entry) : M unit :=
  let! d := get_data in put_data (<[p := e]> d).

(** [e[k]] on an attribute dict *)
Definition getitem (e : entry) (k : string) : M value :=
  match dget e k with Some v => ret v | None => raise KeyError end.

(** [x in l] on a list of paths *)
Definition py_in (x : string) (l : list string) : bool := existsb (String.eqb x) l.

(** [os.stat(p)] *)
Definition os_stat (p : string) : M stat_result :=
  fun fs s => match fs_stat fs p with Some st => Ok st s | None => Exc OSError s end.

(** [os.path.isfile(p)] and [os.path.isdir(p)] *)
Definition os_path_isfile (p : string) : M bool := fun fs s => Ok (isfile fs p) s.
Definition os_path_isdir (p : string) : M bool := fun fs s => Ok (isdir fs p) s.

(** ** Entry modeler: [dirdata] and [filedata] *)

Definition dir_properties (stats : stat_result) : entry :=
  dset (dset (dset (dset []
    "type" (VStr "d"))
    "uid" (VInt (st_uid stats)))
    "gid" (VInt (st_gid stats)))
    "mode" (VStr (oct (S_IMODE (st_mode stats)))).

(** [dirdata(dpath)] *)
Definition dirdata (dpath : string) : M entry :=
  let! b := os_path_isdir dpath in
  assert b ;;
  let! stats := os_stat dpath in
  ret (dir_properties stats).

Definition file_properties (stats : stat_result) : entry :=
  dset (dset (dset (dset (dset []
    "type" (VStr "f"))
    "uid" (VInt (st_uid stats)))
    "gid" (VInt (st_gid stats)))
    "mode" (VStr (oct (S_IMODE (st_mode stats)))))
    "size" (VInt (st_size stats)).

(** [filedata(fpath)] *)
Definition filedata (fpath : string) : M entry :=
  let! b := os_path_isfile fpath in
  assert b ;;
  let! stats := os_stat fpath in
  ret (file_properties stats).

(** ** File objects *)

Definition with_fds (s : state) (fds : gmap nat (string * nat)) (next : nat) : state :=
  mk_state (st_data s) (st_out s) fds next.

(** [open(p, 'rb')]: a fresh handle at position 0. *)
Definition open_rb (p : string) : M nat :=
  fun fs s =>
    if fs_can_open fs p
    then Ok (st_next_fd s) (with_fds s (<[st_next_fd s := (p, 0)]> (st_fds s)) (S (st_next_fd s)))
    else Exc OSError s.

(** Does reading [len] bytes from offset [pos] touch the faulty byte? *)
Definition read_faults (fault : option nat) (pos len : nat) : bool :=
  match fault with
  | Some k => Nat.leb pos k && Nat.ltb k (pos + len)
  | None => false
  end.

(** [f.read(n)]: up to [n] bytes from the current position. *)
Definition f_read (f : nat) (n : nat) : M (list Byte.byte) :=
  fun fs s =>
    match st_fds s !! f with
    | None => Exc ValueError s
    | Some (p, pos) =>
        let chunk := firstn n (skipn pos (fs_bytes fs p)) in
        if read_faults (fs_fault fs p) pos (length chunk) then Exc OSError s
        else Ok chunk (with_fds s (<[f := (p, pos + length chunk)]> (st_fds s)) (st_next_fd s))
    end.

(** [f.close()] *)
Definition f_close (f : nat) : M unit :=
  fun _ s => Ok tt (with_fds s (delete f (st_fds s)) (st_next_fd s)).

Section Program.

(** [hashlib.sha256]: the hash object accumulates the bytes passed to
    [update]; [hexdigest()] is [sha256_hex] of them. *)
Variable sha256_hex : list Byte.byte -> string.

Definition BUFSIZE : nat := 16384.

(** [while len(buffer) > 0: s256.update(buffer); buffer = f.read(BUFSIZE)];
    [msg] is what has been fed to [s256].  Every iteration consumes at least
    one byte, so [sha256file] runs it with the file length plus one as
    bound. *)
Fixpoint read_loop (fuel : nat) (f : nat) (buffer msg : list Byte.byte) : M (list Byte.byte) :=
  match fuel with
  | O => ret msg
  | S fuel' =>
      if Nat.ltb 0 (length buffer) then
        let msg' := (msg ++ buffer)%list in
        let! buffer' := f_read f BUFSIZE in
        read_loop fuel' f buffer' msg'
      else ret msg
  end.

Definition file_length (p : string) : M nat := fun fs s => Ok (length (fs_bytes fs p)) s.

(** [sha256file(fpath)] *)
Definition sha256file (fpath : string) : M string :=
  let! b := os_path_isfile fpath in
  assert b ;;
  let! f := open_rb fpath in
  let! buffer := f_read f BUFSIZE in
  let! n := file_length fpath in
  let! msg := read_loop (S n) f buffer [] in
  f_close f ;;
  ret (sha256_hex msg).


(** ** Action 1: [count] *)

(** [for entry in data: if data[entry]['type'] == 'f': ... elif ... == 'd': ...] *)
Fixpoint count_loop (entries : list (string * entry)) (f d : nat) : M (nat * nat) :=
  match entries with
  | [] => ret (f, d)
  | (_, e) :: rest =>
      let! t := getitem e "type" in
      if value_eqb t (VStr "f") then count_loop rest (S f) d
      else if value_eqb t (VStr "d") then count_loop rest f (S d)
      else count_loop rest f d
  end.

(** [count(data, files, directories)] with a database present; a [None]
    list argument is passed as [[]] (both are false in [if files or
    directories]). *)
Definition count (files directories : list string) : M bool :=
  let! data := get_data in
  let! '(f, d) := count_loop (map_to_list data) 0 0 in
  print ("database contains " ++ str_nat f ++ " files and " ++ str_nat d ++ " directories") ;;
  (if negb (Nat.eqb (length files) 0) || negb (Nat.eqb (length directories) 0)
   then print ("path contains " ++ str_nat (length files) ++ " files and "
               ++ str_nat (length directories) ++ " directories")
   else ret tt) ;;
  ret true.

(** ** Action 2: [add] *)

(** The two loops of [add] differ only in [filedata]/[dirdata] and in the
    word of the message. *)
Inductive kind := KFile | KDir.

Definition kind_data (k : kind) : string -> M entry :=
  match k with KFile => filedata | KDir => dirdata end.

Definition kind_word (k : kind) : string :=
  match k with KFile => "file" | KDir => "directory" end.

(** [for fpath in files: if not fpath in data: data[fpath] = filedata(fpath)
    else: print(...); return False] (and the same for directories);
    [false] is the early [return False]. *)
Fixpoint add_loop (k : kind) (paths : list string) : M bool :=
  match paths with
  | [] => ret true
  | p :: rest =>
      let! data := get_data in
      match data !! p with
      | None =>
          let! e := kind_data k p in
          set_item p e ;;
          add_loop k rest
      | Some _ =>
          print (kind_word k ++ " already in database: " ++ p) ;;
          print "use check or update action" ;;
          ret false
      end
  end.

(** [add(data, files, directories)] *)
Definition add (files directories : list string) : M bool :=
  let! ok := add_loop KFile files in
  if ok then
    let! ok := add_loop KDir directories in
    if ok then
      print "add: success" ;;
      count [] [] ;;
      ret true
    else ret false
  else ret false.

(** ** Action 3: [hash] ([cksum]) *)

(** [data[p]] on the database *)
Definition getitem_data (p : string) : M entry :=
  let! data := get_data in
  match data !! p with Some e => ret e | None => raise KeyError end.

(** The loop of [cksum]: [None] is an early [return False], [Some n] the
    final [hash_count]. *)
Fixpoint cksum_loop (files : list string) (hash_count : nat) : M (option nat) :=
  match files with
  | [] => ret (Some hash_count)
  | fpath :: rest =>
      let! data := get_data in
      match data !! fpath with
      | None =>
          print ("Error: File not in database: " ++ fpath) ;;
          print "Use add action to add files first" ;;
          ret None
      | Some e =>
          if dmem "hash" e then
            print ("Error: Hash already exists for: " ++ fpath) ;;
            print "Use update action to reset hash" ;;
            ret None
          else
            let! h := sha256file fpath in
            let! e' := getitem_data fpath in
            set_item fpath (dset e' "hash" (VStr h)) ;;
            cksum_loop rest (S hash_count)
      end
  end.

(** [cksum(data, files, directories)] *)
Definition cksum (files directories : list string) : M bool :=
  let! r := cksum_loop files 0 in
  match r with
  | None => ret false
  | Some hash_count =>
      print ("Added hashes for " ++ str_nat hash_count ++ " files") ;;
      ret true
  end.

(** ** Action 4: [update] *)

(** [for entry in to_remove: del data[entry]; removed_entry_count += 1] *)
Fixpoint remove_loop (to_remove : list string) (removed_entry_count : nat) : M nat :=
  match to_remove with
  | [] => ret removed_entry_count
  | entry :: rest =>
      let! data := get_data in
      match data !! entry with
      | Some _ => put_data (delete entry data) ;; remove_loop rest (S removed_entry_count)
      | None => raise KeyError
      end
  end.

(** [any(key not in old or old[key] != new_data[key] for key in new_data)] *)
Definition attrs_changed (old new_data : entry) : bool :=
  existsb (fun kv => match dget old kv.1 with
                     | None => true
                     | Some v => negb (value_eqb v kv.2)
                     end) new_data.

(** The files pass of [update]; it threads [new_count], [changed_count]
    and [removed_hash_count]. *)
Fixpoint update_files (files : list string) (new_count changed_count removed_hash_count : nat)
  : M (nat * nat * nat) :=
  match files with
  | [] => ret (new_count, changed_count, removed_hash_count)
  | fpath :: rest =>
      let! data := get_data in
      match data !! fpath with
      | None =>
          let! e := filedata fpath in
          set_item fpath e ;;
          update_files rest (S new_count) changed_count removed_hash_count
      | Some old =>
          let! new_data := filedata fpath in
          let changed := attrs_changed old new_data in
          let e := dupdate old new_data in
          let! removed_hash_count :=
            (if dmem "hash" e
             then set_item fpath (ddel e "hash") ;; ret (S removed_hash_count)
             else set_item fpath e ;; ret removed_hash_count) in
          update_files rest new_count
            (if changed then S changed_count else changed_count) removed_hash_count
      end
  end.

(** The directories pass of [update]: no hash handling. *)
Fixpoint update_dirs (directories : list string) (new_count changed_count : nat)
  : M (nat * nat) :=
  match directories with
  | [] => ret (new_count, changed_count)
  | dpath :: rest =>
      let! data := get_data in
      match data !! dpath with
      | None =>
          let! e := dirdata dpath in
          set_item dpath e ;;
          update_dirs rest (S new_count) changed_count
      | Some old =>
          let! new_data := dirdata dpath in
          let changed := attrs_changed old new_data in
          set_item dpath (dupdate old new_data) ;;
          update_dirs rest new_count (if changed then S changed_count else changed_count)
      end
  end.

(** The four counters of [update]. *)
Record ucounts := mk_ucounts {
  u_new : nat;
  u_changed : nat;
  u_removed_hash : nat;
  u_removed_entry : nat
}.

(** The body of [update] up to the summary [print]s. *)
Definition update_counts (files directories : list string) : M ucounts :=
  let! data := get_data in
  let to_remove :=
    filter (fun entry => negb (py_in entry files) && negb (py_in entry directories))
           (map fst (map_to_list data)) in
  let! removed_entry_count := remove_loop to_remove 0 in
  let! '(new_count, changed_count, removed_hash_count) := update_files files 0 0 0 in
  let! '(new_count, changed_count) := update_dirs directories new_count changed_count in
  ret (mk_ucounts new_count changed_count removed_hash_count removed_entry_count).

(** [update(data, files, directories)] *)
Definition update (files directories : list string) : M bool :=
  let! c := update_counts files directories in
  print ("Added " ++ str_nat (u_new c) ++ " new entries") ;;
  print ("Updated " ++ str_nat (u_changed c) ++ " entries") ;;
  print ("Removed " ++ str_nat (u_removed_hash c) ++ " hashes") ;;
  print ("Removed " ++ str_nat (u_removed_entry c) ++ " deleted entries") ;;
  ret true.

(** ** Action 5: [verify] *)

(** [for entry in data: if entry not in files and entry not in directories:
    print(...); missing_count += 1] *)
Fixpoint missing_loop (entries files directories : list string) (missing_count : nat) : M nat :=
  match entries with
  | [] => ret missing_count
  | entry :: rest =>
      if negb (py_in entry files) && negb (py_in entry directories) then
        print ("Warning: missing " ++ entry) ;;
        missing_loop rest files directories (S missing_count)
      else missing_loop rest files directories missing_count
  end.

(** [for key in current: if key in recorded and current[key] != recorded[key]: ...]
    threading [has_mismatch] and [mismatch_count]. *)
Fixpoint attr_loop (path : string) (recorded current : entry) (has_mismatch : bool)
  (mismatch_count : nat) : M (bool * nat) :=
  match current with
  | [] => ret (has_mismatch, mismatch_count)
  | (key, cur) :: rest =>
      match dget recorded key with
      | Some old =>
          if negb (value_eqb cur old) then
            let! '(has_mismatch, mismatch_count) :=
              (if has_mismatch then ret (true, mismatch_count)
               else print ("Warning: mismatch " ++ path) ;; ret (true, S mismatch_count)) in
            print ("  " ++ key ++ " changed from " ++ str_value old ++ " to " ++ str_value cur) ;;
            attr_loop path recorded rest has_mismatch mismatch_count
          else attr_loop path recorded rest has_mismatch mismatch_count
      | None => attr_loop path recorded rest has_mismatch mismatch_count
      end
  end.

(** The files loop of [verify], threading [new_count], [mismatch_count]
    and [hash_changed_count]. *)
Fixpoint verify_files (files : list string) (new_count mismatch_count hash_changed_count : nat)
  : M (nat * nat * nat) :=
  match files with
  | [] => ret (new_count, mismatch_count, hash_changed_count)
  | fpath :: rest =>
      let! data := get_data in
      match data !! fpath with
      | None =>
          print ("Warning: new file " ++ fpath) ;;
          verify_files rest (S new_count) mismatch_count hash_changed_count
      | Some recorded =>
          let! t := getitem recorded "type" in
          if negb (value_eqb t (VStr "f")) then
            print ("Warning: mismatch " ++ fpath) ;;
            print ("  type changed from " ++ str_value t ++ " to f") ;;
            verify_files rest new_count (S mismatch_count) hash_changed_count
          else
            let! current := filedata fpath in
            let! '(_, mismatch_count) := attr_loop fpath recorded current false mismatch_count in
            let! hash_changed_count :=
              (if dmem "hash" recorded then
                 let! current_hash := sha256file fpath in
                 let! h := getitem recorded "hash" in
                 if negb (value_eqb (VStr current_hash) h) then
                   print ("Warning: hash changed " ++ fpath) ;;
                   print ("  hash changed from " ++ str_value h ++ " to " ++ current_hash) ;;
                   ret (S hash_changed_count)
                 else ret hash_changed_count
               else ret hash_changed_count) in
            verify_files rest new_count mismatch_count hash_changed_count
      end
  end.

(** The directories loop of [verify]: no hashing. *)
Fixpoint verify_dirs (directories : list string) (new_count mismatch_count : nat)
  : M (nat * nat) :=
  match directories with
  | [] => ret (new_count, mismatch_count)
  | dpath :: rest =>
      let! data := get_data in
      match data !! dpath with
      | None =>
          print ("Warning: new directory " ++ dpath) ;;
          verify_dirs rest (S new_count) mismatch_count
      | Some recorded =>
          let! t := getitem recorded "type" in
          if negb (value_eqb t (VStr "d")) then
            print ("Warning: mismatch " ++ dpath) ;;
            print ("  type changed from " ++ str_value t ++ " to d") ;;
            verify_dirs rest new_count (S mismatch_count)
          else
            let! current := dirdata dpath in
            let! '(_, mismatch_count) := attr_loop dpath recorded current false mismatch_count in
            verify_dirs rest new_count mismatch_count
      end
  end.

(** The four counters of [verify]. *)
Record vcounts := mk_vcounts {
  v_missing : nat;
  v_new : nat;
  v_mismatch : nat;
  v_hash_changed : nat
}.

(** The body of [verify] up to the summary. *)
Definition verify_counts (files directories : list string) : M vcounts :=
  let! data := get_data in
  let! missing_count := missing_loop (map fst (map_to_list data)) files directories 0 in
  let! '(new_count, mismatch_count, hash_changed_count) := verify_files files 0 0 0 in
  let! '(new_count, mismatch_count) := verify_dirs directories new_count mismatch_count in
  ret (mk_vcounts missing_count new_count mismatch_count hash_changed_count).

(** [verify(data, files, directories)]; [print(f"\nSummary of issues:")]
    prints an empty line and then the text. *)
Definition verify (files directories : list string) : M bool :=
  let! c := verify_counts files directories in
  let total_issues := v_missing c + v_new c + v_mismatch c + v_hash_changed c in
  if Nat.ltb 0 total_issues then
    print "" ;; print "Summary of issues:" ;;
    (if Nat.ltb 0 (v_missing c) then print ("  " ++ str_nat (v_missing c) ++ " entries missing") else ret tt) ;;
    (if Nat.ltb 0 (v_new c) then print ("  " ++ str_nat (v_new c) ++ " new entries") else ret tt) ;;
    (if Nat.ltb 0 (v_mismatch c)
     then print ("  " ++ str_nat (v_mismatch c) ++ " entries with attribute mismatches") else ret tt) ;;
    (if Nat.ltb 0 (v_hash_changed c)
     then print ("  " ++ str_nat (v_hash_changed c) ++ " entries with hash changes") else ret tt) ;;
    ret false
  else
    print "No issues found" ;;
    ret true.

End Program.

(** ** The database file and [main] *)

(** What [main] needs beyond the file system: [h_abspath] is
    [os.path.abspath]; [h_walk p] is the list of [(root, dirs, files)]
    triples [os.walk(p)] yields; [h_loads text] is [json.loads] of the
    database file's text ([None]: it raises [ValueError], which includes a
    text that is not UTF-8; [Some None]: the document [null]; [Some (Some d)]:
    an object of the database layout; other JSON documents are not
    modeled); [h_can_open_w p] says whether [open(p, "w")] succeeds (it
    truncates [p] when it does); [h_can_write p] says whether the
    [f.write(jsondata)] and [f.close()] that follow succeed. *)
Record host := mk_host {
  h_abspath : string -> string;
  h_walk : string -> list (string * list string * list string);
  h_loads : list Byte.byte -> option (option (gmap string entry));
  h_can_open_w : string -> bool;
  h_can_write : string -> bool
}.

(** [json.loads(text)] *)
Definition json_loads (h : host) (text : list Byte.byte) : M (option (gmap string entry)) :=
  fun _ s => match h_loads h text with Some v => Ok v s | None => Exc ValueError s end.

(** [read_db(dbfile)]: [f = open(dbfile,"r")], [json.loads(f.read())],
    [f.close()]; [f.read()] reads the whole file. *)
Definition read_db (h : host) (dbfile : string) : M (option (gmap string entry)) :=
  let! f := open_rb dbfile in
  let! n := file_length dbfile in
  let! text := f_read f n in
  let! dict := json_loads h text in
  f_close f ;;
  ret dict.

(** The [Actions] of the command line. *)
Inductive action := ACount | AAdd | AHash | ACheck | AVerify | AUpdate.

Definition action_name (a : action) : string :=
  match a with
  | ACount => "count" | AAdd => "add" | AHash => "hash"
  | ACheck => "check" | AVerify => "verify" | AUpdate => "update"
  end.

(** [args] as [parser.parse_args()] returns it. *)
Record args := mk_args {
  a_database : option string;
  a_path : option string;
  a_action : action
}.

(** [data = None]; [if args.database != None and os.path.isfile(args.database):
    data = read_db(args.database)]; [if data == None and args.database != None:
    data = {}] *)
Definition load_data (h : host) (database : option string) : M (option (gmap string entry)) :=
  let! data :=
    match database with
    | Some db => let! b := os_path_isfile db in if b then read_db h db else ret None
    | None => ret None
    end in
  match data, database with
  | None, Some _ => ret (Some ∅)
  | _, _ => ret data
  end.

(** [os.path.join(root, item)] (posixpath) *)
Definition path_join (a b : string) : string :=
  match b with
  | String "/" _ => b
  | _ =>
      match a with
      | EmptyString => b
      | _ => match String.get (String.length a - 1) a with
             | Some "/"%char => a ++ b
             | _ => a ++ "/" ++ b
             end
      end
  end.

(** [for root,dirs,files in os.walk(path)]: every joined [dirs] item goes to
    [directory_list], every joined [files] item that [os.path.isfile]
    accepts to [file_list]. *)
Fixpoint walk_lists (fs : fsys) (w : list (string * list string * list string))
    (file_list directory_list : list string) : list string * list string :=
  match w with
  | [] => (file_list, directory_list)
  | (root, dirs, files) :: rest =>
      walk_lists fs rest
        (file_list ++ List.filter (isfile fs) (map (path_join root) files))
        (directory_list ++ map (path_join root) dirs)
  end.

(** How the file and directories list setup ends. *)
Inductive setup :=
| Lists (file_list directory_list : list string)
| NeedsPath          (** [print(...needs path argument)]; [return 1] *)
| BadPath.           (** [raise argparse.ArgumentTypeError(...)] *)

(** The [--- file and directories list setup ---] block; [needs] is
    [args.action in ['add','hash','check','verify','update']]. *)
Definition setup_lists (h : host) (fs : fsys) (needs : bool) (p : option string) : setup :=
  match p with
  | None => if needs then NeedsPath else Lists [] []
  | Some p =>
      if negb (isdir fs p) && negb (isfile fs p) then BadPath
      else
        let path := h_abspath h p in
        if isfile fs path then Lists [path] []
        else let '(fl, dl) := walk_lists fs (h_walk h path) [] [path] in Lists fl dl
  end.

(** [count(None, files, directories)]: the database part is skipped. *)
Definition count_without_db (files directories : list string) : M bool :=
  (if negb (Nat.eqb (length files) 0) || negb (Nat.eqb (length directories) 0)
   then print ("path contains " ++ str_nat (length files) ++ " files and "
               ++ str_nat (length directories) ++ " directories")
   else ret tt) ;;
  ret true.

(** An exception that leaves [main]. *)
Inductive main_exn :=
| PyError (e : exn)
| ArgumentTypeError.

Inductive main_result :=
| Returned (code : Z)
| Raised (e : main_exn).

(** What a run did to the database file. *)
Inductive db_write :=
| NoWrite                                         (** not opened for writing *)
| Clobbered (db : string)                         (** truncated by [open(db, "w")], then the write failed *)
| Written (db : string) (d : gmap string entry).  (** [json.dumps(d)] written to [db] *)

(** [save_db(dbfile, dict)]: [json.dumps] (which succeeds on a database),
    [open(dbfile, "w")], [f.write], [f.close()]; the exception it raises,
    if any, and what it did to the file. *)
Definition save_db (h : host) (dbfile : string) (dict : gmap string entry) : option exn * db_write :=
  if h_can_open_w h dbfile then
    if h_can_write h dbfile then (None, Written dbfile dict) else (Some OSError, Clobbered dbfile)
  else (Some OSError, NoWrite).

(** The end of a run of [main]: its result, the lines it printed, and what
    it did to the database file. *)
Record main_run := mk_main_run {
  mr_result : main_result;
  mr_out : list string;
  mr_write : db_write
}.

Section Main.

Variable sha256_hex : list Byte.byte -> string.

(** The [--- run desired action ---] block: [data] is the state's database
    when [has_data] holds, and [None] otherwise; only [count] is reached
    without a database ([main] returns 1 before for the other actions). *)
Definition run_action (a : action) (has_data : bool) (file_list directory_list : list string) : M bool :=
  match a with
  | ACount => if has_data then count file_list directory_list
              else count_without_db file_list directory_list
  | AAdd => add file_list directory_list
  | AHash => cksum sha256_hex file_list directory_list
  | ACheck | AVerify => verify sha256_hex file_list directory_list
  | AUpdate => update file_list directory_list
  end.

(** [main()] after [parser.parse_args()]; the actions update [data] in
    place, so [save_db] writes the database as the action leaves it. *)
Definition main (h : host) (fs : fsys) (a : args) : main_run :=
  let name := action_name (a_action a) in
  let needs := py_in name ["add"; "hash"; "check"; "verify"; "update"] in
  if needs && match a_database a with None => true | Some _ => false end then
    mk_main_run (Returned 1) ["action " ++ name ++ " needs database argument"] NoWrite
  else
    match load_data h (a_database a) fs (mk_state ∅ [] ∅ 3) with
    | Exc e s1 => mk_main_run (Raised (PyError e)) (st_out s1) NoWrite
    | Ok data s1 =>
        match setup_lists h fs needs (a_path a) with
        | NeedsPath =>
            mk_main_run (Returned 1) (st_out s1 ++ ["action " ++ name ++ " needs path argument"]) NoWrite
        | BadPath => mk_main_run (Raised ArgumentTypeError) (st_out s1) NoWrite
        | Lists file_list directory_list =>
            let s2 := mk_state (match data with Some d => d | None => ∅ end)
                               (st_out s1) (st_fds s1) (st_next_fd s1) in
            match run_action (a_action a) (match data with Some _ => true | None => false end)
                    file_list directory_list fs s2 with
            | Exc e s3 => mk_main_run (Raised (PyError e)) (st_out s3) NoWrite
            | Ok r s3 =>
                if negb r then
                  mk_main_run (Returned 1)
                    (st_out s3 ++ ["there was a problem running action " ++ name]) NoWrite
                else
                  match data, a_database a with
                  | Some _, Some db =>
                      match save_db h db (st_data s3) with
                      | (None, w) => mk_main_run (Returned 0) (st_out s3) w
                      | (Some e, w) => mk_main_run (Raised (PyError e)) (st_out s3) w
                      end
                  | _, _ => mk_main_run (Returned 0) (st_out s3) NoWrite
                  end
            end
        end
    end.

End Main.

(** ** Reading a Python octal literal back *)

Definition octal_digit (c : Ascii.ascii) : Z := Z.of_nat (Ascii.nat_of_ascii c) - 48.

(** The value of a string of base-8 digits, most significant first. *)
Fixpoint octal_value_from (acc : Z) (s : string) : Z :=
  match s with
  | EmptyString => acc
  | String c s' => octal_value_from (8 * acc + octal_digit c) s'
  end.

Definition octal_value (s : string) : Z := octal_value_from 0 s.

(** ** Sample inputs *)

(** A stand-in for [sha256_hex] on concrete runs. *)
Definition sample_hex (l : list Byte.byte) : string := "h" ++ str_nat (length l).

(** [/a] is a regular file of mode [0o100644] with five bytes, [/d] a
    directory of mode [0o040755]. *)
Definition sample_stat (p : string) : option stat_result :=
  if String.eqb p "/a" then Some (mk_stat 33188 1000 1000 5)
  else if String.eqb p "/d" then Some (mk_stat 16877 0 0 4096)
  else None.

Definition sample_bytes (p : string) : list Byte.byte :=
  if String.eqb p "/a" then [Byte.x41; Byte.x42; Byte.x43; Byte.x44; Byte.x45] else [].

Definition sample_fs : fsys := mk_fsys sample_stat sample_bytes (fun _ => None) (fun _ => true).

(** The same tree, but reading byte 2 of [/a] fails. *)
Definition faulty_fs : fsys :=
  mk_fsys sample_stat sample_bytes (fun p => if String.eqb p "/a" then Some 2 else None)
    (fun _ => true).

Definition empty_state : state := mk_state ∅ [] ∅ 0.

Definition state_with (d : gmap string entry) : state := mk_state d [] ∅ 0.

(** A file entry as [add] records it for [/a]. *)
Definition a_file_entry : entry :=
  [("type", VStr "f"); ("uid", VInt 1000); ("gid", VInt 1000); ("mode", VStr "0o644");
   ("size", VInt 5)].

(** The entry of [/a] with a different owner, group and hash. *)
Definition a_drifted_entry : entry :=
  [("type", VStr "f"); ("uid", VInt 0); ("gid", VInt 0); ("mode", VStr "0o644");
   ("size", VInt 5); ("hash", VStr "bad")].

(** A directory entry for [/a]. *)
Definition a_dir_entry : entry :=
  [("type", VStr "d"); ("uid", VInt 1000); ("gid", VInt 1000); ("mode", VStr "0o755")].

(** The same path [/a] seen as a directory now. *)
Definition dir_stat (p : string) : option stat_result :=
  if String.eqb p "/a" then Some (mk_stat 16877 1000 1000 4096) else None.

Definition a_is_dir_fs : fsys := mk_fsys dir_stat (fun _ => []) (fun _ => None) (fun _ => true).

(** The file entry of [/a] after [hash]. *)
Definition a_hashed_entry : entry := dset a_file_entry "hash" (VStr "h5").

(** A tree for runs of [main]: the directory [/d] holds the regular file
    [/d/a] and the named pipe [/d/p] (mode [0o010644]); the database file
    [/db] holds the text [{}]. *)
Definition main_stat (p : string) : option stat_result :=
  if String.eqb p "/d" then Some (mk_stat 16877 0 0 4096)
  else if String.eqb p "/d/a" then Some (mk_stat 33188 1000 1000 5)
  else if String.eqb p "/d/p" then Some (mk_stat 4516 0 0 0)
  else if String.eqb p "/db" then Some (mk_stat 33188 0 0 2)
  else None.

Definition main_bytes (p : string) : list Byte.byte :=
  if String.eqb p "/d/a" then [Byte.x41; Byte.x42; Byte.x43; Byte.x44; Byte.x45]
  else if String.eqb p "/db" then [Byte.x7b; Byte.x7d] else [].

Definition main_fs : fsys := mk_fsys main_stat main_bytes (fun _ => None) (fun _ => true).

(** Paths are already absolute; [os.walk("/d")] yields the one triple
    [("/d", [], ["a", "p"])]; [json.loads("{}")] is an empty object and any
    other text raises. *)
Definition main_host : host :=
  mk_host (fun p => p)
    (fun p => if String.eqb p "/d" then [("/d", [], ["a"; "p"])] else [])
    (fun text => match text with [Byte.x7b; Byte.x7d] => Some (Some ∅) | _ => None end)
    (fun _ => true) (fun _ => true).

(** The same host, but writing the database file fails once [open(p, "w")]
    has truncated it (a full disk, say). *)
Definition full_disk_host : host :=
  mk_host (h_abspath main_host) (h_walk main_host) (h_loads main_host) (h_can_open_w main_host)
    (fun _ => false).

(** No directory entry of the database has a ["hash"] or a ["size"] key. *)
Definition dir_clean (d : gmap string entry) : bool :=
  forallb (fun pe : string * entry =>
             match dget pe.2 "type" with
             | Some t => negb (value_eqb t (VStr "d")) || negb (dmem "hash" pe.2 || dmem "size" pe.2)
             | None => true
             end)
          (map_to_list d).

(** The recorded value of key [kv.1] differs from the current one [kv.2]. *)
Definition attr_differs (recorded : entry) (kv : string * value) : bool :=
  match dget recorded kv.1 with Some old => negb (value_eqb kv.2 old) | None => false end.

Definition attrs_differ (recorded current : entry) : bool :=
  existsb (attr_differs recorded) current.

(** One ["  key changed from ..."] line per differing attribute. *)
Definition diff_lines (recorded current : entry) : list string :=
  flat_map (fun kv : string * value =>
              match dget recorded kv.1 with
              | Some old =>
                  if negb (value_eqb kv.2 old)
                  then ["  " ++ kv.1 ++ " changed from " ++ str_value old ++ " to " ++ str_value kv.2]
                  else []
              | None => []
              end) current.

Definition hash_differs (recorded : entry) (current_hash : string) : bool :=
  match dget recorded "hash" with Some h => negb (value_eqb (VStr current_hash) h) | None => false end.

Definition hash_lines (path : string) (recorded : entry) (current_hash : string) : list string :=
  match dget recorded "hash" with
  | Some h =>
      if negb (value_eqb (VStr current_hash) h)
      then ["Warning: hash changed " ++ path; "  hash changed from " ++ str_value h ++ " to " ++ current_hash]
      else []
  | None => []
  end.

(** Python dict keys are distinct. *)
Definition dict_ok (e : entry) : Prop := NoDup (map fst e).

Definition store_ok (d : gmap string entry) : Prop :=
  forall p e, d !! p = Some e -> dict_ok e.

(** The recorded entry of [p] has a ["hash"] key. *)
Definition hashed (d : gmap string entry) (p : string) : bool :=
  match d !! p with Some e => dmem "hash" e | None => false end.

(** [p] is a regular file whose entry agrees with [filedata] and has no hash. *)
Definition file_settled (fs : fsys) (d : gmap string entry) (p : string) : Prop :=
  exists stats e, fs_stat fs p = Some stats /\ S_ISREG (st_mode stats) = true /\
    d !! p = Some e /\ attrs_changed e (file_properties stats) = false /\ dmem "hash" e = false.

(** [p] is a directory whose entry agrees with [dirdata]. *)
Definition dir_settled (fs : fsys) (d : gmap string entry) (p : string) : Prop :=
  exists stats e, fs_stat fs p = Some stats /\ S_ISDIR (st_mode stats) = true /\
    d !! p = Some e /\ attrs_changed e (dir_properties stats) = false.

(** ** Predicates used by the proofs *)

(** [m] leaves the database untouched, also when it raises. *)
Definition keeps_data {A} (m : M A) : Prop :=
  forall fs s, st_data (outcome_state (m fs s)) = st_data s.

(** The handle table is [m] with one more handle [f], and [nfd] is the
    next descriptor. *)
Definition handle_at (f : nat) (m : gmap nat (string * nat)) (nfd : nat) (s : state) : Prop :=
  (exists v, st_fds s = <[f := v]> m) /\ st_next_fd s = nfd.

(** [sha256file] can read [p] to the end. *)
Definition hashable (fs : fsys) (p : string) : Prop :=
  isfile fs p = true /\ fs_can_open fs p = true /\ fs_fault fs p = None.

(** [p] is of the kind the list it came in says. *)
Definition kind_ok (fs : fsys) (k : kind) (p : string) : Prop :=
  match k with KFile => isfile fs p = true | KDir => isdir fs p = true end.

Definition kind_properties (k : kind) : stat_result -> entry :=
  match k with KFile => file_properties | KDir => dir_properties end.

(** The entry [filedata]/[dirdata] computes for [p] from [os.stat]. *)
Definition computed_entry (fs : fsys) (k : kind) (p : string) : option entry :=
  option_map (kind_properties k) (fs_stat fs p).

(** Every recorded entry has a ["type"] key (the database layout). *)
Definition typed_store (d : gmap string entry) : Prop :=
  forall p e, d !! p = Some e -> is_Some (dget e "type").

(** The next descriptor number and all later ones are unused. *)
Definition fds_fresh (s : state) : Prop :=
  forall n, st_next_fd s <= n -> st_fds s !! n = None.

(** The ['type'] of a database item [pe] is [t]: what the two tests of
    [count] compare. *)
Definition type_is (t : string) (pe : string * entry) : bool :=
  match dget pe.2 "type" with Some v => value_eqb v (VStr t) | None => false end.

(** [p] has no entry in the database [d]. *)
Definition untracked (d : gmap string entry) (p : string) : bool :=
  match d !! p with Some _ => false | None => true end.

(** [d'] keeps every entry of [d], and its other keys are in [l]. *)
Definition grows_within (l : list string) (d d' : gmap string entry) : Prop :=
  (forall p e, d !! p = Some e -> d' !! p = Some e) /\
  (forall p e, d' !! p = Some e -> d !! p = None -> p ∈ l).

(** * Proofs *)

(** ** Monad laws used by the proofs *)

Lemma bind_Ok {A B} (m : M A) (k : A -> M B) fs s a s' :
  m fs s = Ok a s' -> bind m k fs s = k a fs s'.
Proof. unfold bind. intros ->. reflexivity. Qed.

Lemma bind_Exc {A B} (m : M A) (k : A -> M B) fs s e s' :
  m fs s = Exc e s' -> bind m k fs s = Exc e s'.
Proof. unfold bind. intros ->. reflexivity. Qed.

(** ** Frame: the computations that leave the database untouched *)

Lemma keeps_ret {A} (a : A) : keeps_data (ret a).
Proof. intros fs s. reflexivity. Qed.

Lemma keeps_raise {A} e : keeps_data (A:=A) (raise e).
Proof. intros fs s. reflexivity. Qed.

Lemma keeps_bind {A B} (m : M A) (k : A -> M B) :
  keeps_data m -> (forall a, keeps_data (k a)) -> keeps_data (bind m k).
Proof.
  intros Hm Hk fs s. unfold bind. specialize (Hm fs s).
  destruct (m fs s) as [a s'|e s']; simpl in *; [rewrite Hk|]; exact Hm.
Qed.

Lemma keeps_print l : keeps_data (print l).
Proof. intros fs s. reflexivity. Qed.

Lemma keeps_get_data : keeps_data get_data.
Proof. intros fs s. reflexivity. Qed.

Lemma keeps_assert b : keeps_data (assert b).
Proof. intros fs s. destruct b; reflexivity. Qed.

Lemma keeps_os_stat p : keeps_data (os_stat p).
Proof. intros fs s. unfold os_stat. destruct (fs_stat fs p); reflexivity. Qed.

Lemma keeps_isfile p : keeps_data (os_path_isfile p).
Proof. intros fs s. reflexivity. Qed.

Lemma keeps_isdir p : keeps_data (os_path_isdir p).
Proof. intros fs s. reflexivity. Qed.

Lemma keeps_open_rb p : keeps_data (open_rb p).
Proof. intros fs s. unfold open_rb. destruct (fs_can_open fs p); reflexivity. Qed.

Lemma keeps_f_read f n : keeps_data (f_read f n).
Proof.
  intros fs s. unfold f_read. destruct (st_fds s !! f) as [[p pos]|]; [|reflexivity].
  destruct (read_faults _ _ _); reflexivity.
Qed.

Lemma keeps_f_close f : keeps_data (f_close f).
Proof. intros fs s. reflexivity. Qed.

Lemma keeps_file_length p : keeps_data (file_length p).
Proof. intros fs s. reflexivity. Qed.

Lemma keeps_getitem e k : keeps_data (getitem e k).
Proof. intros fs s. unfold getitem. destruct (dget e k); reflexivity. Qed.

Create HintDb keeps.
#[local] Hint Resolve keeps_ret keeps_raise keeps_print keeps_get_data keeps_assert
  keeps_os_stat keeps_isfile keeps_isdir keeps_open_rb keeps_f_read keeps_f_close
  keeps_file_length keeps_getitem : keeps.

(** Split a computation into its primitive steps. *)
Ltac keeps_steps :=
  repeat first
    [ progress (intros; simpl)
    | apply keeps_bind
    | match goal with
      | |- keeps_data (match ?x with _ => _ end) => destruct x
      | |- keeps_data (if ?b then _ else _) => destruct b
      end
    | solve [eauto with keeps] ].

(** ** The Entry Modeler on a path of the right kind *)

Lemma filedata_run fs s p stats :
  fs_stat fs p = Some stats -> S_ISREG (st_mode stats) = true ->
  filedata p fs s = Ok (file_properties stats) s.
Proof.
  intros Hs Hr. unfold filedata, bind, os_path_isfile, isfile, assert, os_stat.
  rewrite Hs, Hr. reflexivity.
Qed.

Lemma dirdata_run fs s p stats :
  fs_stat fs p = Some stats -> S_ISDIR (st_mode stats) = true ->
  dirdata p fs s = Ok (dir_properties stats) s.
Proof.
  intros Hs Hr. unfold dirdata, bind, os_path_isdir, isdir, assert, os_stat.
  rewrite Hs, Hr. reflexivity.
Qed.

(** Whenever [filedata] or [dirdata] returns, [os.stat] answered and the
    entry is built from that answer, in the same state. *)
Lemma kind_data_inv k fs s p e s' :
  kind_data k p fs s = Ok e s' ->
  exists stats, fs_stat fs p = Some stats /\ s' = s /\
    e = match k with KFile => file_properties stats | KDir => dir_properties stats end.
Proof.
  destruct k; simpl;
    unfold filedata, dirdata, bind, os_path_isfile, os_path_isdir, isfile, isdir, assert, os_stat;
    destruct (fs_stat fs p) as [stats|] eqn:Hs; simpl; try discriminate;
    [destruct (S_ISREG (st_mode stats)) | destruct (S_ISDIR (st_mode stats))];
    simpl; try discriminate; intros H; inversion H; subst; eauto.
Qed.

(** ** Octal notation *)

Lemma octal_value_from_app acc s1 s2 :
  octal_value_from acc (s1 ++ s2) = octal_value_from (octal_value_from acc s1) s2.
Proof. revert acc. induction s1 as [|c s1 IH]; intros acc; simpl; auto. Qed.

Lemma octal_value_digit acc c :
  octal_value_from acc (String c EmptyString) = (8 * acc + octal_digit c)%Z.
Proof. reflexivity. Qed.

Lemma octal_digits_small :
  octal_digit "0"%char = 0%Z /\ octal_digit "1"%char = 1%Z /\ octal_digit "2"%char = 2%Z /\
  octal_digit "3"%char = 3%Z /\ octal_digit "4"%char = 4%Z /\ octal_digit "5"%char = 5%Z /\
  octal_digit "6"%char = 6%Z /\ octal_digit "7"%char = 7%Z.
Proof. repeat split; reflexivity. Qed.

(** The digits of [oct_digits p], read in base 8, give back [p]. *)
Lemma octal_value_oct_digits (p : positive) : octal_value (oct_digits p) = Zpos p.
Proof.
  unfold octal_value. pose proof octal_digits_small as Hd.
  revert p. fix IH 1. intros p.
  destruct p as [[[q|q|]|[q|q|]|]|[[q|q|]|[q|q|]|]|]; simpl oct_digits;
    first [ rewrite octal_value_from_app, IH, octal_value_digit; lia
          | rewrite octal_value_digit; lia ].
Qed.

Lemma S_IMODE_nonneg m : (0 <= S_IMODE m)%Z.
Proof. unfold S_IMODE. apply Z.land_nonneg. right. lia. Qed.

(** [oct(n)] of a non-negative [n] is ["0o"] followed by base-8 digits
    whose value is [n]. *)
Lemma oct_reads_back (n : Z) : (0 <= n)%Z ->
  exists digits, oct n = "0o" ++ digits /\ octal_value digits = n.
Proof.
  intros Hn. destruct n as [|p|p]; simpl.
  - exists "0". split; reflexivity.
  - exists (oct_digits p). split; [reflexivity | apply octal_value_oct_digits].
  - lia.
Qed.

(** ** File handles *)

Lemma f_read_handle f n m nfd fs s :
  handle_at f m nfd s -> handle_at f m nfd (outcome_state (f_read f n fs s)).
Proof.
  intros [[v Hv] Hn]. unfold f_read. rewrite Hv, lookup_insert_eq. destruct v as [p pos].
  destruct (read_faults _ _ _); simpl; [split; eauto|].
  split; [|exact Hn]. eexists. rewrite insert_insert_eq. reflexivity.
Qed.

Lemma read_loop_handle f m nfd fs fuel buf msg s :
  handle_at f m nfd s -> handle_at f m nfd (outcome_state (read_loop fuel f buf msg fs s)).
Proof.
  revert buf msg s. induction fuel as [|fuel IH]; intros buf msg s H; simpl; [exact H|].
  destruct (Nat.ltb 0 (length buf)); [|exact H].
  unfold bind. pose proof (f_read_handle f BUFSIZE m nfd fs s H) as H'.
  destruct (f_read f BUFSIZE fs s); simpl in *; auto.
Qed.

(** ** Attribute dicts *)

Lemma value_eqb_refl v : value_eqb v v = true.
Proof. destruct v; simpl; [apply String.eqb_refl | apply Z.eqb_refl]. Qed.

Lemma value_eqb_eq v w : value_eqb v w = true -> v = w.
Proof.
  destruct v, w; simpl; intros H; try discriminate.
  - apply String.eqb_eq in H. congruence.
  - apply Z.eqb_eq in H. congruence.
Qed.

Lemma dmem_in k d : dmem k d = true <-> k ∈ map fst d.
Proof.
  unfold dmem. induction d as [|[k' v'] d IH]; simpl.
  - split; [discriminate|intros H; inversion H].
  - rewrite elem_of_cons. destruct (String.eqb k k') eqn:E.
    + apply String.eqb_eq in E. split; auto.
    + apply String.eqb_neq in E. rewrite IH. split; [auto|intros [H|H]; [contradiction|exact H]].
Qed.

Lemma dget_dset d k v k' :
  dget (dset d k v) k' = if String.eqb k' k then Some v else dget d k'.
Proof.
  induction d as [|[k1 v1] d IH]; simpl.
  - reflexivity.
  - destruct (String.eqb k k1) eqn:E; simpl.
    + apply String.eqb_eq in E. subst k1. destruct (String.eqb k' k); reflexivity.
    + rewrite IH. destruct (String.eqb k' k1) eqn:E1, (String.eqb k' k) eqn:E2; auto.
      apply String.eqb_eq in E1, E2. subst. rewrite String.eqb_refl in E. discriminate.
Qed.

Lemma dmem_dset d k v k' : dmem k' (dset d k v) = String.eqb k' k || dmem k' d.
Proof. unfold dmem. rewrite dget_dset. destruct (String.eqb k' k); reflexivity. Qed.

Lemma keys_dset d k v :
  map fst (dset d k v) = if dmem k d then map fst d else (map fst d ++ [k])%list.
Proof.
  unfold dmem. induction d as [|[k1 v1] d IH]; simpl; [reflexivity|].
  destruct (String.eqb k k1) eqn:E; simpl.
  - apply String.eqb_eq in E. subst. reflexivity.
  - rewrite IH. destruct (dget d k); reflexivity.
Qed.

Lemma dset_ok d k v : dict_ok d -> dict_ok (dset d k v).
Proof.
  unfold dict_ok. intros H. rewrite keys_dset. destruct (dmem k d) eqn:E; [exact H|].
  apply NoDup_app. split; [exact H|split; [|apply NoDup_singleton]].
  intros x Hx Hx'. apply list_elem_of_singleton in Hx'. subst x.
  apply dmem_in in Hx. congruence.
Qed.

Lemma dupdate_cons d k v o : dupdate d ((k, v) :: o) = dupdate (dset d k v) o.
Proof. reflexivity. Qed.

Lemma dupdate_ok d o : dict_ok d -> dict_ok (dupdate d o).
Proof.
  revert d. induction o as [|[k v] o IH]; intros d H; [exact H|].
  rewrite dupdate_cons. apply IH, dset_ok, H.
Qed.

Lemma dmem_dupdate k d o : dmem k (dupdate d o) = dmem k d || dmem k o.
Proof.
  revert d. induction o as [|[k1 v1] o IH]; intros d.
  - simpl. rewrite orb_false_r. reflexivity.
  - rewrite dupdate_cons, IH, dmem_dset. unfold dmem. simpl.
    destruct (String.eqb k k1), (dget d k); reflexivity.
Qed.

Lemma dget_fold_notin o d k :
  k ∉ map fst o -> dget (dupdate d o) k = dget d k.
Proof.
  revert d. induction o as [|[k1 v1] o IH]; intros d Hk; [reflexivity|].
  rewrite dupdate_cons, IH.
  - rewrite dget_dset. destruct (String.eqb k k1) eqn:E; [|reflexivity].
    apply String.eqb_eq in E. subst. exfalso. apply Hk. left.
  - intros H. apply Hk. right. exact H.
Qed.

(** After [d.update(o)], every key of [o] has its value in [o]. *)
Lemma dget_dupdate d o k v :
  dict_ok o -> (k, v) ∈ o -> dget (dupdate d o) k = Some v.
Proof.
  unfold dict_ok. revert d. induction o as [|[k1 v1] o IH]; intros d Hnd Hin.
  - inversion Hin.
  - simpl in Hnd. apply NoDup_cons in Hnd as [Hk1 Hnd].
    rewrite dupdate_cons. apply elem_of_cons in Hin as [Heq|Hin].
    + inversion Heq. subst. rewrite dget_fold_notin by exact Hk1.
      rewrite dget_dset, String.eqb_refl. reflexivity.
    + apply IH; assumption.
Qed.

Lemma dget_in d k v : dict_ok d -> (k, v) ∈ d -> dget d k = Some v.
Proof.
  unfold dict_ok. induction d as [|[k1 v1] d IH]; intros Hnd Hin; [inversion Hin|].
  simpl in Hnd. apply NoDup_cons in Hnd as [Hk1 Hnd]. simpl.
  apply elem_of_cons in Hin as [Heq|Hin].
  - inversion Heq. subst. rewrite String.eqb_refl. reflexivity.
  - destruct (String.eqb k k1) eqn:E.
    + apply String.eqb_eq in E. subst. exfalso. apply Hk1.
      apply list_elem_of_In, in_map_iff. exists (k1, v). split; [reflexivity|].
      apply list_elem_of_In, Hin.
    + apply IH; assumption.
Qed.

Lemma attrs_changed_false e n :
  attrs_changed e n = false <-> forall k v, (k, v) ∈ n -> dget e k = Some v.
Proof.
  unfold attrs_changed. induction n as [|[k1 v1] n IH]; simpl.
  - split; [intros _ k v H; inversion H|reflexivity].
  - rewrite orb_false_iff, IH. split.
    + intros [H1 H2] k v Hin. apply elem_of_cons in Hin as [Heq|Hin]; [|apply H2, Hin].
      injection Heq as <- <-. destruct (dget e k) as [w|]; [|discriminate].
      apply negb_false_iff, value_eqb_eq in H1. subst. reflexivity.
    + intros H. split; [|intros k v Hin; apply H; right; exact Hin].
      rewrite (H k1 v1 (list_elem_of_here _ _)). simpl. rewrite value_eqb_refl. reflexivity.
Qed.

Lemma attrs_changed_dupdate e n : dict_ok n -> attrs_changed (dupdate e n) n = false.
Proof. intros Hn. apply attrs_changed_false. intros k v Hin. apply dget_dupdate; assumption. Qed.

Lemma attrs_changed_self n : dict_ok n -> attrs_changed n n = false.
Proof. intros Hn. apply attrs_changed_false. intros k v Hin. apply dget_in; assumption. Qed.

Lemma dset_same d k v : dget d k = Some v -> dset d k v = d.
Proof.
  induction d as [|[k1 v1] d IH]; simpl; [discriminate|].
  destruct (String.eqb k k1) eqn:E.
  - intros H. inversion H. apply String.eqb_eq in E. subst. reflexivity.
  - intros H. rewrite IH by exact H. reflexivity.
Qed.

(** [d.update(n)] changes nothing when [d] already agrees with [n]. *)
Lemma dupdate_agree d n : attrs_changed d n = false -> dupdate d n = d.
Proof.
  rewrite attrs_changed_false. revert d. induction n as [|[k v] n IH]; intros d H; [reflexivity|].
  rewrite dupdate_cons, dset_same by (apply H; left). apply IH.
  intros k' v' Hin. apply H. right. exact Hin.
Qed.

Lemma dget_ddel_ne d k k' : k' <> k -> dget (ddel d k) k' = dget d k'.
Proof.
  intros Hne. induction d as [|[k1 v1] d IH]; simpl; [reflexivity|].
  destruct (String.eqb k k1) eqn:E; simpl.
  - apply String.eqb_eq in E. subst. apply String.eqb_neq in Hne. rewrite Hne. reflexivity.
  - rewrite IH. reflexivity.
Qed.

Lemma keys_ddel_sub d k x : x ∈ map fst (ddel d k) -> x ∈ map fst d.
Proof.
  induction d as [|[k1 v1] d IH]; simpl; [auto|].
  destruct (String.eqb k k1); simpl; intros H; [right; exact H|].
  apply elem_of_cons in H as [->|H]; [left|right; apply IH, H].
Qed.

Lemma ddel_ok d k : dict_ok d -> dict_ok (ddel d k).
Proof.
  unfold dict_ok. induction d as [|[k1 v1] d IH]; simpl; intros Hnd; [exact Hnd|].
  apply NoDup_cons in Hnd as [Hk1 Hnd].
  destruct (String.eqb k k1); [exact Hnd|]. simpl. apply NoDup_cons. split; [|apply IH, Hnd].
  intros H. apply Hk1, (keys_ddel_sub d k), H.
Qed.

Lemma dmem_ddel d k : dict_ok d -> dmem k (ddel d k) = false.
Proof.
  unfold dict_ok. intros Hnd. apply not_true_iff_false. rewrite dmem_in.
  induction d as [|[k1 v1] d IH]; simpl in *; [intros H; inversion H|].
  apply NoDup_cons in Hnd as [Hk1 Hnd].
  destruct (String.eqb k k1) eqn:E.
  - apply String.eqb_eq in E. subst. exact Hk1.
  - apply String.eqb_neq in E. simpl. rewrite elem_of_cons.
    intros [H|H]; [congruence|exact (IH Hnd H)].
Qed.

Lemma file_properties_ok stats : dict_ok (file_properties stats).
Proof. unfold dict_ok. cbn. apply (bool_decide_unpack _). vm_compute. reflexivity. Qed.

Lemma dir_properties_ok stats : dict_ok (dir_properties stats).
Proof. unfold dict_ok. cbn. apply (bool_decide_unpack _). vm_compute. reflexivity. Qed.

Lemma file_properties_no_hash stats : dmem "hash" (file_properties stats) = false.
Proof. reflexivity. Qed.

Lemma regular_not_dir m : S_ISREG m = true -> S_ISDIR m = false.
Proof.
  unfold S_ISREG, S_ISDIR. intros H. apply Z.eqb_eq in H. rewrite H. reflexivity.
Qed.

Lemma filedata_inv fs s p e s' :
  filedata p fs s = Ok e s' ->
  exists stats, fs_stat fs p = Some stats /\ S_ISREG (st_mode stats) = true /\
    s' = s /\ e = file_properties stats.
Proof.
  unfold filedata, bind, os_path_isfile, isfile, assert, os_stat.
  destruct (fs_stat fs p) as [stats|]; simpl; [|discriminate].
  destruct (S_ISREG (st_mode stats)) eqn:E; simpl; [|discriminate].
  intros H. inversion H. subst. exists stats. auto.
Qed.

Lemma dirdata_inv fs s p e s' :
  dirdata p fs s = Ok e s' ->
  exists stats, fs_stat fs p = Some stats /\ S_ISDIR (st_mode stats) = true /\
    s' = s /\ e = dir_properties stats.
Proof.
  unfold dirdata, bind, os_path_isdir, isdir, assert, os_stat.
  destruct (fs_stat fs p) as [stats|]; simpl; [|discriminate].
  destruct (S_ISDIR (st_mode stats)) eqn:E; simpl; [|discriminate].
  intros H. inversion H. subst. exists stats. auto.
Qed.

(** ** The passes of [update] *)

Lemma py_in_spec x l : py_in x l = true <-> x ∈ l.
Proof.
  unfold py_in. rewrite existsb_exists, list_elem_of_In. split.
  - intros (y & Hy & E). apply String.eqb_eq in E. subst. exact Hy.
  - intros H. exists x. split; [exact H|apply String.eqb_refl].
Qed.

Lemma remove_loop_post l n fs s k s' :
  remove_loop l n fs s = Ok k s' ->
  (forall p, p ∉ l -> st_data s' !! p = st_data s !! p) /\
  (forall p, p ∈ l -> st_data s' !! p = None) /\
  (forall p e, st_data s' !! p = Some e -> st_data s !! p = Some e) /\
  k = n + length l.
Proof.
  revert n s. induction l as [|q l IH]; intros n s H.
  - simpl in H. inversion H. subst.
    split; [reflexivity|split; [intros p Hp; inversion Hp|split; [auto|simpl; lia]]].
  - simpl in H. unfold bind at 1, get_data in H.
    destruct (st_data s !! q) as [e0|] eqn:Hq; [|discriminate].
    unfold bind, put_data in H.
    destruct (IH _ _ H) as (Hout & Hin & Hsub & Hk). simpl in *.
    split; [|split; [|split]].
    + intros p Hp. rewrite Hout by (intros H'; apply Hp; right; exact H').
      apply lookup_delete_ne. intros ->. apply Hp. left.
    + intros p Hp. destruct (decide (p ∈ l)) as [Hl|Hl]; [apply Hin, Hl|].
      apply elem_of_cons in Hp as [->|Hp]; [|contradiction].
      rewrite Hout by exact Hl. apply lookup_delete_eq.
    + intros p e He. apply Hsub in He. apply lookup_delete_Some in He as [_ He]. exact He.
    + lia.
Qed.

Lemma update_files_new p rest n c rh fs s e :
  st_data s !! p = None -> filedata p fs s = Ok e s ->
  update_files (p :: rest) n c rh fs s =
  update_files rest (S n) c rh fs
    (mk_state (<[p := e]> (st_data s)) (st_out s) (st_fds s) (st_next_fd s)).
Proof.
  intros Hp Hf. cbn [update_files]. unfold bind at 1, get_data. rewrite Hp.
  unfold bind at 1. rewrite Hf. reflexivity.
Qed.

Lemma update_files_old p rest n c rh fs s old nd :
  st_data s !! p = Some old -> filedata p fs s = Ok nd s ->
  update_files (p :: rest) n c rh fs s =
  update_files rest n (if attrs_changed old nd then S c else c)
    (if dmem "hash" (dupdate old nd) then S rh else rh) fs
    (mk_state (<[p := if dmem "hash" (dupdate old nd) then ddel (dupdate old nd) "hash"
                      else dupdate old nd]> (st_data s))
       (st_out s) (st_fds s) (st_next_fd s)).
Proof.
  intros Hp Hf. cbn [update_files]. unfold bind at 1, get_data. rewrite Hp.
  unfold bind at 1. rewrite Hf. cbv beta iota zeta.
  destruct (dmem "hash" (dupdate old nd)); reflexivity.
Qed.

Lemma update_files_exc p rest n c rh fs s ex s1 :
  filedata p fs s = Exc ex s1 -> exists s2, update_files (p :: rest) n c rh fs s = Exc ex s2.
Proof.
  intros Hf. cbn [update_files]. unfold bind at 1, get_data.
  destruct (st_data s !! p); unfold bind at 1; rewrite Hf; eexists; reflexivity.
Qed.

Lemma update_dirs_new p rest n c fs s e :
  st_data s !! p = None -> dirdata p fs s = Ok e s ->
  update_dirs (p :: rest) n c fs s =
  update_dirs rest (S n) c fs
    (mk_state (<[p := e]> (st_data s)) (st_out s) (st_fds s) (st_next_fd s)).
Proof.
  intros Hp Hf. cbn [update_dirs]. unfold bind at 1, get_data. rewrite Hp.
  unfold bind at 1. rewrite Hf. reflexivity.
Qed.

Lemma update_dirs_old p rest n c fs s old nd :
  st_data s !! p = Some old -> dirdata p fs s = Ok nd s ->
  update_dirs (p :: rest) n c fs s =
  update_dirs rest n (if attrs_changed old nd then S c else c) fs
    (mk_state (<[p := dupdate old nd]> (st_data s)) (st_out s) (st_fds s) (st_next_fd s)).
Proof.
  intros Hp Hf. cbn [update_dirs]. unfold bind at 1, get_data. rewrite Hp.
  unfold bind at 1. rewrite Hf. reflexivity.
Qed.

Lemma update_dirs_exc p rest n c fs s ex s1 :
  dirdata p fs s = Exc ex s1 -> exists s2, update_dirs (p :: rest) n c fs s = Exc ex s2.
Proof.
  intros Hf. cbn [update_dirs]. unfold bind at 1, get_data.
  destruct (st_data s !! p); unfold bind at 1; rewrite Hf; eexists; reflexivity.
Qed.

Lemma hash_not_attribute stats k v : (k, v) ∈ file_properties stats -> k <> "hash".
Proof.
  intros Hin ->. pose proof (file_properties_no_hash stats) as H.
  apply not_true_iff_false in H. apply H, dmem_in.
  apply list_elem_of_In, in_map_iff. exists ("hash", v). split; [reflexivity|].
  apply list_elem_of_In, Hin.
Qed.

Lemma filter_hashed_insert d p e l :
  p ∉ l -> List.filter (hashed (<[p := e]> d)) l = List.filter (hashed d) l.
Proof.
  intros Hp. apply filter_ext_in. intros q Hq. unfold hashed.
  rewrite lookup_insert_ne; [reflexivity|]. intros ->. apply Hp, list_elem_of_In, Hq.
Qed.

(** The files pass: afterwards every listed path is a regular file whose
    entry agrees with [filedata] and has no hash; [removed_hash_count]
    grew by the number of listed paths that were hashed. *)
Lemma update_files_post files n c rh fs s r s' :
  store_ok (st_data s) -> update_files files n c rh fs s = Ok r s' ->
  store_ok (st_data s') /\
  (forall p, p ∈ files -> file_settled fs (st_data s') p) /\
  (forall p, p ∉ files -> st_data s' !! p = st_data s !! p) /\
  (NoDup files -> r.2 = rh + length (List.filter (hashed (st_data s)) files)).
Proof.
  revert n c rh s. induction files as [|p rest IH]; intros n c rh s Hok H.
  - simpl in H. inversion H. subst. split; [exact Hok|]. split; [intros p Hp; inversion Hp|].
    split; [reflexivity|]. intros _. simpl. lia.
  - destruct (filedata p fs s) as [nd s1|ex s1] eqn:Hf;
      [|destruct (update_files_exc p rest n c rh fs s ex s1 Hf) as [s2 Hs2]; congruence].
    destruct (filedata_inv fs s p nd s1 Hf) as (stats & Hs & Hreg & -> & ->).
    destruct (st_data s !! p) as [old|] eqn:Hp.
    + rewrite (update_files_old p rest n c rh fs s old _ Hp Hf) in H.
      rewrite dmem_dupdate, file_properties_no_hash, orb_false_r in H.
      set (e1 := if dmem "hash" old then ddel (dupdate old (file_properties stats)) "hash"
                 else dupdate old (file_properties stats)) in H.
      assert (He1ok : dict_ok e1).
      { pose proof (dupdate_ok old (file_properties stats) (Hok p old Hp)).
        unfold e1. destruct (dmem "hash" old); [apply ddel_ok|]; assumption. }
      assert (He1 : attrs_changed e1 (file_properties stats) = false /\ dmem "hash" e1 = false).
      { unfold e1. destruct (dmem "hash" old) eqn:Eh.
        - split.
          + apply attrs_changed_false. intros k v Hin. rewrite dget_ddel_ne.
            * apply dget_dupdate; [apply file_properties_ok|exact Hin].
            * exact (hash_not_attribute stats k v Hin).
          + apply dmem_ddel, dupdate_ok, (Hok p old Hp).
        - split; [apply attrs_changed_dupdate, file_properties_ok|].
          rewrite dmem_dupdate, Eh. reflexivity. }
      assert (Hok1 : store_ok (<[p := e1]> (st_data s))).
      { intros q e Hq. destruct (decide (q = p)) as [->|Hne].
        - rewrite lookup_insert_eq in Hq. inversion Hq. subst. exact He1ok.
        - rewrite lookup_insert_ne in Hq by congruence. exact (Hok q e Hq). }
      destruct (IH _ _ _ _ (Hok1 : store_ok (st_data (mk_state _ (st_out s) (st_fds s) (st_next_fd s)))) H)
        as (Hok' & Hset & Hout & Hcnt).
      split; [exact Hok'|]. split; [|split].
      * intros q Hq. destruct (decide (q ∈ rest)) as [Hr|Hr]; [apply Hset, Hr|].
        apply elem_of_cons in Hq as [->|Hq]; [|contradiction].
        exists stats, e1. rewrite Hout by exact Hr. simpl. rewrite lookup_insert_eq.
        destruct He1. repeat split; auto.
      * intros q Hq. rewrite Hout by (intros H'; apply Hq; right; exact H').
        simpl. apply lookup_insert_ne. intros ->. apply Hq. left.
      * intros Hnd. apply NoDup_cons in Hnd as [Hpr Hnd]. rewrite (Hcnt Hnd).
        simpl. rewrite filter_hashed_insert by exact Hpr.
        unfold hashed at 2. rewrite Hp. destruct (dmem "hash" old); simpl; lia.
    + rewrite (update_files_new p rest n c rh fs s _ Hp Hf) in H.
      assert (Hok1 : store_ok (<[p := file_properties stats]> (st_data s))).
      { intros q e Hq. destruct (decide (q = p)) as [->|Hne].
        - rewrite lookup_insert_eq in Hq. inversion Hq. subst. apply file_properties_ok.
        - rewrite lookup_insert_ne in Hq by congruence. exact (Hok q e Hq). }
      destruct (IH _ _ _ _ (Hok1 : store_ok (st_data (mk_state _ (st_out s) (st_fds s) (st_next_fd s)))) H)
        as (Hok' & Hset & Hout & Hcnt).
      split; [exact Hok'|]. split; [|split].
      * intros q Hq. destruct (decide (q ∈ rest)) as [Hr|Hr]; [apply Hset, Hr|].
        apply elem_of_cons in Hq as [->|Hq]; [|contradiction].
        exists stats, (file_properties stats). rewrite Hout by exact Hr. cbn [st_data].
        rewrite lookup_insert_eq.
        split; [exact Hs|split; [exact Hreg|split; [reflexivity|split]]].
        -- apply attrs_changed_self, file_properties_ok.
        -- apply file_properties_no_hash.
      * intros q Hq. rewrite Hout by (intros H'; apply Hq; right; exact H').
        simpl. apply lookup_insert_ne. intros ->. apply Hq. left.
      * intros Hnd. apply NoDup_cons in Hnd as [Hpr Hnd]. rewrite (Hcnt Hnd).
        simpl. rewrite filter_hashed_insert by exact Hpr.
        unfold hashed at 2. rewrite Hp. simpl. lia.
Qed.

(** The directories pass: afterwards every listed path is a directory whose
    entry agrees with [dirdata]. *)
Lemma update_dirs_post dirs n c fs s r s' :
  update_dirs dirs n c fs s = Ok r s' ->
  (forall p, p ∈ dirs -> dir_settled fs (st_data s') p) /\
  (forall p, p ∉ dirs -> st_data s' !! p = st_data s !! p).
Proof.
  revert n c s. induction dirs as [|p rest IH]; intros n c s H.
  - simpl in H. inversion H. subst. split; [intros p Hp; inversion Hp|reflexivity].
  - destruct (dirdata p fs s) as [nd s1|ex s1] eqn:Hf;
      [|destruct (update_dirs_exc p rest n c fs s ex s1 Hf) as [s2 Hs2]; congruence].
    destruct (dirdata_inv fs s p nd s1 Hf) as (stats & Hs & Hdir & -> & ->).
    assert (Hstep : exists e1 n1 c1, attrs_changed e1 (dir_properties stats) = false /\
              update_dirs rest n1 c1 fs
                (mk_state (<[p := e1]> (st_data s)) (st_out s) (st_fds s) (st_next_fd s)) = Ok r s').
    { destruct (st_data s !! p) as [old|] eqn:Hp.
      - rewrite (update_dirs_old p rest n c fs s old _ Hp Hf) in H.
        eexists _, _, _. split; [apply attrs_changed_dupdate, dir_properties_ok|exact H].
      - rewrite (update_dirs_new p rest n c fs s _ Hp Hf) in H.
        eexists _, _, _. split; [apply attrs_changed_self, dir_properties_ok|exact H]. }
    destruct Hstep as (e1 & n1 & c1 & He1 & H1).
    destruct (IH _ _ _ H1) as (Hset & Hout). split.
    + intros q Hq. destruct (decide (q ∈ rest)) as [Hr|Hr]; [apply Hset, Hr|].
      apply elem_of_cons in Hq as [->|Hq]; [|contradiction].
      exists stats, e1. rewrite Hout by exact Hr. simpl. rewrite lookup_insert_eq.
      repeat split; auto.
    + intros q Hq. rewrite Hout by (intros H'; apply Hq; right; exact H').
      simpl. apply lookup_insert_ne. intros ->. apply Hq. left.
Qed.

Lemma to_remove_spec (d : gmap string entry) files dirs p :
  (p ∈ filter (fun entry => negb (py_in entry files) && negb (py_in entry dirs))
          (map fst (map_to_list d))) <->
  (is_Some (d !! p) /\ (p ∉ files) /\ (p ∉ dirs)).
Proof.
  rewrite list_elem_of_filter. split.
  - intros [Hb Hk]. apply Is_true_eq_true, andb_true_iff in Hb as [H1 H2].
    apply negb_true_iff in H1, H2.
    apply list_elem_of_In, in_map_iff in Hk as ([k e] & <- & Hin).
    apply list_elem_of_In, elem_of_map_to_list in Hin. simpl in *.
    split; [eexists; exact Hin|].
    split; intros H; apply py_in_spec in H; congruence.
  - intros ([e He] & H1 & H2). split.
    + apply Is_true_eq_left, andb_true_iff. split; apply negb_true_iff, not_true_iff_false;
        rewrite py_in_spec; assumption.
    + apply list_elem_of_In, in_map_iff. exists (p, e). split; [reflexivity|].
      apply list_elem_of_In, elem_of_map_to_list, He.
Qed.

Lemma update_counts_inv files dirs fs s c s' :
  update_counts files dirs fs s = Ok c s' ->
  exists rc s0 n1 c1 rh s1 n2 c2,
    remove_loop (filter (fun entry => negb (py_in entry files) && negb (py_in entry dirs))
                        (map fst (map_to_list (st_data s)))) 0 fs s = Ok rc s0 /\
    update_files files 0 0 0 fs s0 = Ok (n1, c1, rh) s1 /\
    update_dirs dirs n1 c1 fs s1 = Ok (n2, c2) s' /\
    c = mk_ucounts n2 c2 rh rc.
Proof.
  unfold update_counts, bind at 1, get_data. cbv zeta.
  unfold bind at 1. destruct (remove_loop _ 0 fs s) as [rc s0|] eqn:E1; [|discriminate].
  unfold bind at 1. destruct (update_files files 0 0 0 fs s0) as [[[n1 c1] rh] s1|] eqn:E2;
    [|discriminate].
  unfold bind at 1. destruct (update_dirs dirs n1 c1 fs s1) as [[n2 c2] s2|] eqn:E3;
    [|discriminate].
  intros H. inversion H. subst. eexists _, _, _, _, _, _, _, _. eauto.
Qed.

Lemma settled_disjoint fs d1 d2 p :
  file_settled fs d1 p -> dir_settled fs d2 p -> False.
Proof.
  intros (st1 & e1 & Hs1 & Hr & _) (st2 & e2 & Hs2 & Hd & _).
  rewrite Hs1 in Hs2. inversion Hs2. subst. rewrite regular_not_dir in Hd by exact Hr.
  discriminate.
Qed.

(** After a successful [update], the database is settled: its keys are the
    listed paths, the files agree with [filedata] and have no hash, the
    directories agree with [dirdata]. The hash counter counts the listed
    files that were hashed before. *)
Lemma update_counts_post files dirs fs s c s' :
  store_ok (st_data s) -> update_counts files dirs fs s = Ok c s' ->
  (forall p, p ∈ files -> file_settled fs (st_data s') p) /\
  (forall p, p ∈ dirs -> dir_settled fs (st_data s') p) /\
  (forall p, p ∉ files -> p ∉ dirs -> st_data s' !! p = None) /\
  (NoDup files -> u_removed_hash c = length (List.filter (hashed (st_data s)) files)).
Proof.
  intros Hok H.
  destruct (update_counts_inv files dirs fs s c s' H)
    as (rc & s0 & n1 & c1 & rh & s1 & n2 & c2 & H0 & H1 & H2 & ->).
  destruct (remove_loop_post _ _ _ _ _ _ H0) as (Rout & Rin & Rsub & _).
  assert (Hok0 : store_ok (st_data s0)) by (intros q e Hq; exact (Hok q e (Rsub q e Hq))).
  destruct (update_files_post _ _ _ _ _ _ _ _ Hok0 H1) as (_ & Fset & Fout & Fcnt).
  destruct (update_dirs_post _ _ _ _ _ _ _ H2) as (Dset & Dout).
  assert (Hnotdir : forall p, p ∈ files -> p ∉ dirs).
  { intros p Hp Hd. exact (settled_disjoint fs _ _ p (Fset p Hp) (Dset p Hd)). }
  assert (Hkeep : forall p, p ∈ files \/ p ∈ dirs -> st_data s0 !! p = st_data s !! p).
  { intros p Hp. apply Rout. rewrite to_remove_spec. intros (_ & H3 & H4).
    destruct Hp; contradiction. }
  split; [|split; [exact Dset|split]].
  - intros p Hp. unfold file_settled. rewrite Dout by exact (Hnotdir p Hp). exact (Fset p Hp).
  - intros p Hf Hd. rewrite Dout, Fout by assumption.
    destruct (st_data s !! p) eqn:Hs.
    + apply Rin, to_remove_spec. split; [eexists; exact Hs|auto].
    + rewrite Rout; [exact Hs|]. rewrite to_remove_spec. intros ([e He] & _). congruence.
  - intros Hnd. pose proof (Fcnt Hnd) as Hc. simpl in Hc |- *. rewrite Hc. f_equal.
    apply filter_ext_in.
    intros q Hq. unfold hashed. rewrite Hkeep; [reflexivity|]. left. apply list_elem_of_In, Hq.
Qed.

(** On a settled database a second [update] changes nothing and counts
    nothing. *)
Lemma update_files_settled files n c rh fs s :
  (forall p, p ∈ files -> file_settled fs (st_data s) p) ->
  update_files files n c rh fs s = Ok (n, c, rh) s.
Proof.
  revert n c rh. induction files as [|p rest IH]; intros n c rh Hset; [reflexivity|].
  destruct (Hset p (list_elem_of_here _ _)) as (stats & e & Hs & Hreg & Hp & Hch & Hh).
  rewrite (update_files_old p rest n c rh fs s e _ Hp (filedata_run fs s p stats Hs Hreg)).
  rewrite Hch, (dupdate_agree e _ Hch), Hh, (insert_id _ _ _ Hp).
  destruct s. apply IH. intros q Hq. apply Hset. right. exact Hq.
Qed.

Lemma update_dirs_settled dirs n c fs s :
  (forall p, p ∈ dirs -> dir_settled fs (st_data s) p) ->
  update_dirs dirs n c fs s = Ok (n, c) s.
Proof.
  revert n c. induction dirs as [|p rest IH]; intros n c Hset; [reflexivity|].
  destruct (Hset p (list_elem_of_here _ _)) as (stats & e & Hs & Hdir & Hp & Hch).
  rewrite (update_dirs_old p rest n c fs s e _ Hp (dirdata_run fs s p stats Hs Hdir)).
  rewrite Hch, (dupdate_agree e _ Hch), (insert_id _ _ _ Hp).
  destruct s. apply IH. intros q Hq. apply Hset. right. exact Hq.
Qed.

Lemma update_counts_settled files dirs fs s :
  (forall p, p ∈ files -> file_settled fs (st_data s) p) ->
  (forall p, p ∈ dirs -> dir_settled fs (st_data s) p) ->
  (forall p, p ∉ files -> p ∉ dirs -> st_data s !! p = None) ->
  update_counts files dirs fs s = Ok (mk_ucounts 0 0 0 0) s.
Proof.
  intros Hf Hd Hk. unfold update_counts, bind at 1, get_data. cbv zeta.
  match goal with |- context [remove_loop ?tr 0] => destruct tr as [|q l] eqn:E end.
  - cbn [remove_loop]. unfold bind at 1, ret at 1.
    unfold bind at 1. rewrite update_files_settled by exact Hf.
    unfold bind at 1. rewrite update_dirs_settled by exact Hd. reflexivity.
  - exfalso. assert (Hq : q ∈ q :: l) by left. rewrite <- E, to_remove_spec in Hq.
    destruct Hq as ([e He] & H1 & H2). rewrite Hk in He by assumption. discriminate.
Qed.

Lemma update_inv files dirs fs s b s' :
  update files dirs fs s = Ok b s' ->
  exists c s1, update_counts files dirs fs s = Ok c s1 /\ b = true /\
    s' = mk_state (st_data s1)
           (st_out s1 ++ [("Added " ++ str_nat (u_new c) ++ " new entries")%string;
                          ("Updated " ++ str_nat (u_changed c) ++ " entries")%string;
                          ("Removed " ++ str_nat (u_removed_hash c) ++ " hashes")%string;
                          ("Removed " ++ str_nat (u_removed_entry c) ++ " deleted entries")%string])%list
           (st_fds s1) (st_next_fd s1).
Proof.
  unfold update, bind at 1. destruct (update_counts files dirs fs s) as [c s1|]; [|discriminate].
  intros H. inversion H. subst. exists c, s1. split; [reflexivity|split; [reflexivity|]].
  simpl. rewrite <- !app_assoc. reflexivity.
Qed.

Lemma store_ok_check (d : gmap string entry) :
  forallb (fun pe : string * entry => bool_decide (NoDup (map fst pe.2))) (map_to_list d) = true ->
  store_ok d.
Proof.
  intros H p e Hp. apply elem_of_map_to_list, list_elem_of_In in Hp.
  rewrite forallb_forall in H. apply H, bool_decide_eq_true in Hp. exact Hp.
Qed.

Section Proofs.

Variable sha256_hex : list Byte.byte -> string.

Lemma keeps_filedata p : keeps_data (filedata p).
Proof. unfold filedata. keeps_steps. Qed.

Lemma keeps_dirdata p : keeps_data (dirdata p).
Proof. unfold dirdata. keeps_steps. Qed.

Lemma keeps_read_loop fuel f buf msg : keeps_data (read_loop fuel f buf msg).
Proof.
  revert buf msg. induction fuel as [|fuel IH]; intros buf msg; simpl; keeps_steps.
Qed.

Lemma keeps_sha256file p : keeps_data (sha256file sha256_hex p).
Proof.
  unfold sha256file. keeps_steps. apply keeps_read_loop.
Qed.

#[local] Hint Resolve keeps_filedata keeps_dirdata keeps_read_loop keeps_sha256file : keeps.

Lemma keeps_missing_loop es files dirs n : keeps_data (missing_loop es files dirs n).
Proof. revert n. induction es; intros n; simpl; keeps_steps. Qed.

Lemma keeps_attr_loop path recorded current hm n :
  keeps_data (attr_loop path recorded current hm n).
Proof. revert hm n. induction current as [|[k v] current IH]; intros hm n; simpl; keeps_steps. Qed.

#[local] Hint Resolve keeps_missing_loop keeps_attr_loop : keeps.

Lemma keeps_verify_files files n1 n2 n3 : keeps_data (verify_files sha256_hex files n1 n2 n3).
Proof. revert n1 n2 n3. induction files; intros n1 n2 n3; simpl; keeps_steps. Qed.

Lemma keeps_verify_dirs dirs n1 n2 : keeps_data (verify_dirs dirs n1 n2).
Proof. revert n1 n2. induction dirs; intros n1 n2; simpl; keeps_steps. Qed.

#[local] Hint Resolve keeps_verify_files keeps_verify_dirs : keeps.

(** C2: [verify] is read-only on the database: whatever it returns, and
    also when it raises, the database afterwards is the one it was given. *)
Theorem verify_never_mutates_store (files directories : list string) (fs : fsys) (s : state) :
  st_data (outcome_state (verify sha256_hex files directories fs s)) = st_data s.
Proof.
  revert fs s. change (keeps_data (verify sha256_hex files directories)).
  unfold verify, verify_counts. keeps_steps.
Qed.

(** C10: [cksum] never reads its [directories] argument: for any two
    directory lists it returns the same result from the same final state,
    and raises the same way. *)
Theorem cksum_ignores_directories (files dirs1 dirs2 : list string) (fs : fsys) (s : state) :
  cksum sha256_hex files dirs1 fs s = cksum sha256_hex files dirs2 fs s.
Proof. reflexivity. Qed.

(** How [sha256file] leaves the handle table: on return the table is
    the one it started from; on an exception raised after [open]
    succeeded, the handle it opened is still in the table. *)
Lemma sha256file_fds fs s p :
  st_fds s !! st_next_fd s = None ->
  match sha256file sha256_hex p fs s with
  | Ok _ s' => st_fds s' = st_fds s
  | Exc _ s' => isfile fs p = true -> fs_can_open fs p = true ->
                is_Some (st_fds s' !! st_next_fd s)
  end.
Proof.
  intros Hfresh. unfold sha256file, bind, os_path_isfile, assert.
  destruct (isfile fs p) eqn:Hf; cbn -[read_loop BUFSIZE]; [|discriminate].
  unfold open_rb. destruct (fs_can_open fs p) eqn:Ho; cbn -[read_loop BUFSIZE]; [|discriminate].
  set (s1 := with_fds s _ _).
  assert (H1 : handle_at (st_next_fd s) (st_fds s) (S (st_next_fd s)) s1)
    by (split; [eexists; reflexivity | reflexivity]).
  pose proof (f_read_handle _ BUFSIZE _ _ fs _ H1) as H2.
  destruct (f_read _ _ fs s1) as [buf s2|e s2]; simpl in H2.
  - unfold file_length. cbv beta iota. pose proof (read_loop_handle _ _ _ fs (S (length (fs_bytes fs p))) buf [] _ H2) as H3.
    destruct (read_loop _ _ _ _ fs s2) as [msg s3|e s3]; simpl in H3.
    + destruct H3 as [[v Hv] _]. unfold f_close, ret. simpl. rewrite Hv.
      rewrite delete_insert_eq. apply delete_id. exact Hfresh.
    + intros _ _. destruct H3 as [[v Hv] _]. rewrite Hv, lookup_insert_eq. eauto.
  - intros _ _. destruct H2 as [[v Hv] _]. rewrite Hv, lookup_insert_eq. eauto.
Qed.

(** ** Reading a whole file *)

Lemma firstn_skipn_length {X} (n : nat) (l : list X) :
  (firstn n l ++ skipn (length (firstn n l)) l)%list = l.
Proof.
  revert l. induction n as [|n IH]; intros [|x l]; simpl; try reflexivity.
  f_equal. apply IH.
Qed.

Lemma BUFSIZE_pos : 0 < BUFSIZE.
Proof. apply Nat.ltb_lt. reflexivity. Qed.

Lemma f_read_ok f n fs s p pos m :
  st_fds s = <[f := (p, pos)]> m -> fs_fault fs p = None ->
  f_read f n fs s =
    Ok (firstn n (skipn pos (fs_bytes fs p)))
       (with_fds s (<[f := (p, pos + length (firstn n (skipn pos (fs_bytes fs p))))]> m)
          (st_next_fd s)).
Proof.
  intros Hf Hnf. unfold f_read. rewrite Hf, lookup_insert_eq, Hnf. simpl.
  rewrite insert_insert_eq. reflexivity.
Qed.

(** The loop of [sha256file] feeds the rest of the file to the hash
    object: [buf] was read at offset [pp] and [msg] is everything before. *)
Lemma read_loop_reads_all fs f p m fuel buf msg pp s :
  fs_fault fs p = None ->
  st_fds s = <[f := (p, pp + length buf)]> m ->
  buf = firstn BUFSIZE (skipn pp (fs_bytes fs p)) ->
  (msg ++ skipn pp (fs_bytes fs p))%list = fs_bytes fs p ->
  length (skipn pp (fs_bytes fs p)) < fuel ->
  exists q, read_loop fuel f buf msg fs s =
            Ok (fs_bytes fs p) (with_fds s (<[f := (p, q)]> m) (st_next_fd s)).
Proof.
  revert buf msg pp s. induction fuel as [|fuel IH]; intros buf msg pp s Hnf Hf Hbuf Hmsg Hlen;
    [lia|].
  cbn -[BUFSIZE f_read]. destruct (length buf) as [|nb] eqn:Hb.
  - apply length_zero_iff_nil in Hb. subst buf.
    destruct (skipn pp (fs_bytes fs p)) as [|x r] eqn:Hr.
    + exists pp. unfold ret. rewrite app_nil_r in Hmsg. rewrite Hmsg.
      destruct s; unfold with_fds; simpl in *. rewrite Hf, Nat.add_0_r. reflexivity.
    + pose proof BUFSIZE_pos. destruct BUFSIZE; [lia|]. discriminate Hbuf.
  - rewrite <- Hb in Hf. unfold bind. rewrite (f_read_ok f BUFSIZE fs s p _ m Hf Hnf).
    assert (E : (buf ++ skipn (pp + length buf) (fs_bytes fs p))%list = skipn pp (fs_bytes fs p)).
    { rewrite Nat.add_comm, <- skipn_skipn, Hbuf. apply firstn_skipn_length. }
    set (buf' := firstn BUFSIZE (skipn (pp + length buf) (fs_bytes fs p))).
    edestruct (IH buf' (msg ++ buf)%list (pp + length buf)
                  (with_fds s (<[f := (p, pp + length buf + length buf')]> m) (st_next_fd s)))
      as [q Hq]; [exact Hnf | reflexivity | reflexivity | | | ].
    + rewrite <- app_assoc, E. exact Hmsg.
    + rewrite <- E, length_app in Hlen. lia.
    + exists q. rewrite Hq. reflexivity.
Qed.

(** When the file can be opened and read, [sha256file] returns the digest
    of its whole content; it only consumes a descriptor number. *)
Lemma sha256file_ok fs s p :
  isfile fs p = true -> fs_can_open fs p = true -> fs_fault fs p = None ->
  st_fds s !! st_next_fd s = None ->
  sha256file sha256_hex p fs s =
    Ok (sha256_hex (fs_bytes fs p)) (mk_state (st_data s) (st_out s) (st_fds s) (S (st_next_fd s))).
Proof.
  intros Hf Ho Hnf Hfresh. unfold sha256file, bind, os_path_isfile, assert.
  rewrite Hf. cbn -[read_loop BUFSIZE f_read]. unfold open_rb. rewrite Ho.
  cbn -[read_loop BUFSIZE f_read].
  rewrite (f_read_ok (st_next_fd s) BUFSIZE fs _ p 0 (st_fds s)); [|reflexivity|exact Hnf].
  unfold file_length.
  match goal with
  | |- context [read_loop ?fuel ?f ?buf ?msg fs ?st] =>
      destruct (read_loop_reads_all fs f p (st_fds s) fuel buf msg 0 st) as [q Hq];
      [exact Hnf | reflexivity | reflexivity | reflexivity | rewrite drop_0; lia | ]
  end.
  rewrite Hq. unfold f_close, ret, with_fds. simpl.
  rewrite delete_insert_eq, delete_id by exact Hfresh. reflexivity.
Qed.

(** ** The attribute loop of [verify] *)

Lemma attr_loop_run path recorded current b m fs s :
  attr_loop path recorded current b m fs s =
  Ok (b || attrs_differ recorded current,
      if b then m else if attrs_differ recorded current then S m else m)
     (mk_state (st_data s)
        (st_out s ++ (if negb b && attrs_differ recorded current
                      then [("Warning: mismatch " ++ path)%string] else []) ++ diff_lines recorded current)%list
        (st_fds s) (st_next_fd s)).
Proof.
  revert b m s. induction current as [|[k cur] rest IH]; intros b m s.
  - simpl. rewrite andb_false_r, app_nil_r, orb_false_r. destruct s, b; reflexivity.
  - cbn [attr_loop attrs_differ diff_lines existsb flat_map]. unfold attr_differs. cbn [fst snd].
    destruct (dget recorded k) as [old|]; [destruct (value_eqb cur old); destruct b|];
      cbn [negb orb andb app]; unfold bind, print, ret; cbn -[attr_loop];
      rewrite ?IH; cbn [st_data st_out st_fds st_next_fd negb orb andb];
      rewrite <- ?app_assoc; try reflexivity.
Qed.

(** ** The loops of [add] *)

Lemma kind_data_ok k fs s p :
  kind_ok fs k p -> exists stats, fs_stat fs p = Some stats /\
    kind_data k p fs s = Ok (kind_properties k stats) s.
Proof.
  destruct k; simpl; unfold isfile, isdir;
    destruct (fs_stat fs p) as [stats|] eqn:Hs; try discriminate; intros H; exists stats;
    split; auto; [apply filedata_run | apply dirdata_run]; auto.
Qed.

Lemma add_loop_new k p rest fs s stats :
  st_data s !! p = None -> fs_stat fs p = Some stats ->
  kind_data k p fs s = Ok (kind_properties k stats) s ->
  add_loop k (p :: rest) fs s =
  add_loop k rest fs (mk_state (<[p := kind_properties k stats]> (st_data s))
                               (st_out s) (st_fds s) (st_next_fd s)).
Proof.
  intros He _ Hk. cbn [add_loop]. unfold bind at 1, get_data. rewrite He.
  unfold bind at 1. rewrite Hk. reflexivity.
Qed.

Lemma add_loop_conflict k p rest fs s e :
  st_data s !! p = Some e ->
  add_loop k (p :: rest) fs s =
  Ok false (mk_state (st_data s)
              (st_out s ++ [kind_word k ++ " already in database: " ++ p; "use check or update action"])
              (st_fds s) (st_next_fd s)).
Proof.
  intros He. cbn [add_loop]. unfold bind, get_data. rewrite He.
  simpl. rewrite <- app_assoc. reflexivity.
Qed.

(** Inserting a prefix of new paths of the right kind. *)
Lemma add_loop_prefix k pre rest fs s :
  NoDup pre -> (forall q, q ∈ pre -> st_data s !! q = None /\ kind_ok fs k q) ->
  exists s'',
    add_loop k (pre ++ rest) fs s = add_loop k rest fs s'' /\
    (forall q, q ∈ pre -> st_data s'' !! q = computed_entry fs k q) /\
    (forall q, q ∉ pre -> st_data s'' !! q = st_data s !! q) /\
    st_out s'' = st_out s /\ st_fds s'' = st_fds s /\ st_next_fd s'' = st_next_fd s.
Proof.
  revert s. induction pre as [|q pre IH]; intros s Hnd Hpre.
  - exists s. repeat split; auto. intros q Hq. inversion Hq.
  - apply NoDup_cons in Hnd as [Hq Hnd].
    destruct (Hpre q (list_elem_of_here _ _)) as [Hnone Hok].
    destruct (kind_data_ok k fs s q Hok) as (stats & Hs & Hk).
    set (s1 := mk_state (<[q := kind_properties k stats]> (st_data s)) (st_out s) (st_fds s)
                        (st_next_fd s)).
    destruct (IH s1) as (s'' & Hrun & Hin & Hout & Ho & Hf & Hn).
    + exact Hnd.
    + intros q' Hq'. destruct (Hpre q' (list_elem_of_further _ _ _ Hq')) as [He' Hk'].
      split; [|exact Hk']. simpl. rewrite lookup_insert_ne; [exact He'|].
      intros ->. contradiction.
    + exists s''. split.
      { change ((q :: pre) ++ rest)%list with (q :: (pre ++ rest))%list.
        rewrite (add_loop_new k q (pre ++ rest) fs s stats Hnone Hs Hk). fold s1. exact Hrun. }
      split; [|split; [|split; [|split]]]; auto.
      * intros q' Hq'. apply elem_of_cons in Hq' as [->|Hq'].
        -- rewrite Hout by exact Hq. simpl. rewrite lookup_insert_eq.
           unfold computed_entry. rewrite Hs. reflexivity.
        -- apply Hin. exact Hq'.
      * intros q' Hq'. rewrite Hout by (intros H; apply Hq'; right; exact H).
        simpl. apply lookup_insert_ne. intros ->. apply Hq'. left.
Qed.

Lemma count_loop_ok es f d fs s :
  (forall p e, (p, e) ∈ es -> is_Some (dget e "type")) ->
  exists fd, count_loop es f d fs s = Ok fd s.
Proof.
  revert f d. induction es as [|[p e] es IH]; intros f d Hty; simpl.
  - eexists. reflexivity.
  - destruct (Hty p e (list_elem_of_here _ _)) as [t Ht].
    unfold bind, getitem. rewrite Ht. cbn [ret].
    assert (Hty' : forall p' e', (p', e') ∈ es -> is_Some (dget e' "type"))
      by (intros p' e' H; apply (Hty p' e'); right; exact H).
    destruct (value_eqb t (VStr "f")); [apply IH; exact Hty'|].
    destruct (value_eqb t (VStr "d")); apply IH; exact Hty'.
Qed.

Lemma count_ok fs s :
  typed_store (st_data s) ->
  exists line, count [] [] fs s =
    Ok true (mk_state (st_data s) (st_out s ++ [line]) (st_fds s) (st_next_fd s)).
Proof.
  intros Hty. destruct (count_loop_ok (map_to_list (st_data s)) 0 0 fs s) as [[f d] Hc].
  { intros p e H. apply elem_of_map_to_list in H. exact (Hty p e H). }
  unfold count, bind, get_data. rewrite Hc. eexists. reflexivity.
Qed.

Lemma kind_properties_typed k stats : is_Some (dget (kind_properties k stats) "type").
Proof. destruct k; eexists; reflexivity. Qed.

Lemma kind_ok_computed fs k q : kind_ok fs k q -> is_Some (computed_entry fs k q).
Proof.
  unfold kind_ok, computed_entry, isfile, isdir.
  destruct k, (fs_stat fs q); simpl; intros H; try discriminate; eexists; reflexivity.
Qed.

(** The files pass succeeding, then a prefix of the directories pass. *)
Lemma add_two_passes fs s files pre rest :
  NoDup (files ++ pre) ->
  (forall q, q ∈ files -> st_data s !! q = None /\ kind_ok fs KFile q) ->
  (forall q, q ∈ pre -> st_data s !! q = None /\ kind_ok fs KDir q) ->
  exists s1 s2,
    add_loop KFile files fs s = Ok true s1 /\
    add_loop KDir (pre ++ rest) fs s1 = add_loop KDir rest fs s2 /\
    (forall q, q ∈ files -> st_data s2 !! q = computed_entry fs KFile q) /\
    (forall q, q ∈ pre -> st_data s2 !! q = computed_entry fs KDir q) /\
    (forall q, q ∉ files -> q ∉ pre -> st_data s2 !! q = st_data s !! q) /\
    st_out s2 = st_out s /\ st_fds s2 = st_fds s /\ st_next_fd s2 = st_next_fd s.
Proof.
  intros Hnd Hf Hd. apply NoDup_app in Hnd as (Hndf & Hdisj & Hndd).
  destruct (add_loop_prefix KFile files [] fs s Hndf Hf)
    as (s1 & Hr1 & Hin1 & Hout1 & Ho1 & Hfd1 & Hn1).
  rewrite app_nil_r in Hr1. simpl in Hr1.
  destruct (add_loop_prefix KDir pre rest fs s1 Hndd) as (s2 & Hr2 & Hin2 & Hout2 & Ho2 & Hfd2 & Hn2).
  { intros q Hq. destruct (Hd q Hq) as [Hn Hk]. split; [|exact Hk].
    rewrite Hout1; [exact Hn|]. intros Hq'. exact (Hdisj q Hq' Hq). }
  exists s1, s2. split; [exact Hr1|]. split; [exact Hr2|].
  split; [|split; [exact Hin2|split; [|split; [congruence|split; congruence]]]].
  - intros q Hq. rewrite Hout2 by exact (Hdisj q Hq). apply Hin1, Hq.
  - intros q Hq1 Hq2. rewrite Hout2 by exact Hq2. apply Hout1, Hq1.
Qed.

(** ** The loop of [cksum] *)

Lemma cksum_loop_hash_step q rest n fs s e :
  st_data s !! q = Some e -> dmem "hash" e = false -> hashable fs q ->
  st_fds s !! st_next_fd s = None ->
  cksum_loop sha256_hex (q :: rest) n fs s =
  cksum_loop sha256_hex rest (S n) fs
    (mk_state (<[q := dset e "hash" (VStr (sha256_hex (fs_bytes fs q)))]> (st_data s))
              (st_out s) (st_fds s) (S (st_next_fd s))).
Proof.
  intros He Hh (Hf & Ho & Hnf) Hfresh.
  cbn [cksum_loop]. unfold bind at 1, get_data. rewrite He, Hh.
  unfold bind at 1. rewrite (sha256file_ok fs s q Hf Ho Hnf Hfresh).
  unfold getitem_data, bind, get_data. simpl. rewrite He. reflexivity.
Qed.

Lemma cksum_loop_not_tracked p rest n fs s :
  st_data s !! p = None ->
  cksum_loop sha256_hex (p :: rest) n fs s =
  Ok None (mk_state (st_data s)
             (st_out s ++ ["Error: File not in database: " ++ p; "Use add action to add files first"])
             (st_fds s) (st_next_fd s)).
Proof.
  intros He. cbn [cksum_loop]. unfold bind, get_data. rewrite He.
  simpl. rewrite <- app_assoc. reflexivity.
Qed.

Lemma cksum_loop_already_hashed p rest n fs s e :
  st_data s !! p = Some e -> dmem "hash" e = true ->
  cksum_loop sha256_hex (p :: rest) n fs s =
  Ok None (mk_state (st_data s)
             (st_out s ++ ["Error: Hash already exists for: " ++ p; "Use update action to reset hash"])
             (st_fds s) (st_next_fd s)).
Proof.
  intros He Hh. cbn [cksum_loop]. unfold bind, get_data. rewrite He, Hh.
  simpl. rewrite <- app_assoc. reflexivity.
Qed.

(** Hashing a prefix of tracked, unhashed, readable files: each gets the
    digest of its content, nothing else changes, nothing is printed. *)
Lemma cksum_loop_prefix pre rest n fs s :
  NoDup pre ->
  (forall q, q ∈ pre -> (exists e, st_data s !! q = Some e /\ dmem "hash" e = false) /\ hashable fs q) ->
  fds_fresh s ->
  exists s'',
    cksum_loop sha256_hex (pre ++ rest) n fs s = cksum_loop sha256_hex rest (n + length pre) fs s'' /\
    (forall q, q ∈ pre -> exists e, st_data s !! q = Some e /\
         st_data s'' !! q = Some (dset e "hash" (VStr (sha256_hex (fs_bytes fs q))))) /\
    (forall q, q ∉ pre -> st_data s'' !! q = st_data s !! q) /\
    st_out s'' = st_out s /\ fds_fresh s''.
Proof.
  revert n s. induction pre as [|q pre IH]; intros n s Hnd Hpre Hfresh.
  - exists s. rewrite Nat.add_0_r. split; [reflexivity|].
    split; [intros q Hq; inversion Hq|]. split; [reflexivity|]. split; [reflexivity|exact Hfresh].
  - apply NoDup_cons in Hnd as [Hq Hnd].
    destruct (Hpre q (list_elem_of_here _ _)) as [(e & He & Hh) Hhash].
    set (s1 := mk_state (<[q := dset e "hash" (VStr (sha256_hex (fs_bytes fs q)))]> (st_data s))
                        (st_out s) (st_fds s) (S (st_next_fd s))).
    destruct (IH (S n) s1) as (s'' & Hrun & Hin & Hout & Hso & Hf'').
    + exact Hnd.
    + intros q' Hq'. destruct (Hpre q' (list_elem_of_further _ _ _ Hq')) as [He' Hh'].
      split; [|exact Hh']. simpl. rewrite lookup_insert_ne; [exact He'|].
      intros ->. contradiction.
    + intros k Hk. apply Hfresh. simpl in Hk. lia.
    + exists s''. split.
      { change ((q :: pre) ++ rest)%list with (q :: (pre ++ rest))%list.
        rewrite (cksum_loop_hash_step q (pre ++ rest) n fs s e He Hh Hhash (Hfresh _ (le_n _))).
        fold s1. rewrite Hrun. f_equal. simpl. lia. }
      split; [|split; [|split]].
      * intros q' Hq'. apply elem_of_cons in Hq' as [->|Hq'].
        -- exists e. split; [exact He|]. rewrite Hout by exact Hq. simpl. apply lookup_insert_eq.
        -- destruct (Hin q' Hq') as (e' & He' & Hs'). exists e'. split; [|exact Hs'].
           simpl in He'. rewrite lookup_insert_ne in He'; [exact He'|]. intros ->. contradiction.
      * intros q' Hq'. rewrite Hout by (intros H; apply Hq'; right; exact H).
        simpl. apply lookup_insert_ne. intros ->. apply Hq'. left.
      * rewrite Hso. reflexivity.
      * exact Hf''.
Qed.

Lemma dmem_dset_eq e k v : dmem k (dset e k v) = true.
Proof.
  unfold dmem. induction e as [|[k' v'] e IH]; simpl.
  - rewrite String.eqb_refl. reflexivity.
  - destruct (String.eqb k k') eqn:E; simpl; [rewrite String.eqb_refl; reflexivity|].
    rewrite E. exact IH.
Qed.

(** C9 (amended): [sha256file] closes its handle when it returns: the
    handle table is then the one it started from.  It has no [try/finally]
    or [with] block, so when an exception is raised after [open] succeeded
    (a failing [f.read]), it leaves [sha256file] with the handle it opened
    still in the table. *)
Theorem sha256file_closes_on_return_only (fs : fsys) (s : state) (p : string) :
  st_fds s !! st_next_fd s = None ->
  (forall h s', sha256file sha256_hex p fs s = Ok h s' -> st_fds s' = st_fds s) /\
  (forall e s', isfile fs p = true -> fs_can_open fs p = true ->
     sha256file sha256_hex p fs s = Exc e s' -> is_Some (st_fds s' !! st_next_fd s)).
Proof.
  intros Hfresh. pose proof (sha256file_fds fs s p Hfresh) as H.
  split.
  - intros h s' E. rewrite E in H. exact H.
  - intros e s' Hf Ho E. rewrite E in H. exact (H Hf Ho).
Qed.

(** C4: [cksum] walks its file list in order.  At the first path that is
    not in the database, or whose entry already has a ["hash"], it prints
    the error for that path and returns [False]: the entry of that path is
    unchanged, the files before it keep the hash they were just given, and
    no later path is touched.  In particular a second [cksum] of the same
    single path fails with the already-hashed error and leaves the stored
    hash as the first call set it. *)
Theorem cksum_fails_at_first_untracked_or_hashed :
  (forall (fs : fsys) (s : state) (pre : list string) (p : string) (post directories : list string),
     NoDup pre -> p ∉ pre ->
     (forall q, q ∈ pre ->
        (exists e, st_data s !! q = Some e /\ dmem "hash" e = false) /\ hashable fs q) ->
     (st_data s !! p = None \/ exists e, st_data s !! p = Some e /\ dmem "hash" e = true) ->
     fds_fresh s ->
     exists s',
       cksum sha256_hex (pre ++ p :: post) directories fs s = Ok false s' /\
       (forall q, q ∈ pre -> exists e, st_data s !! q = Some e /\
            st_data s' !! q = Some (dset e "hash" (VStr (sha256_hex (fs_bytes fs q))))) /\
       (forall q, q ∉ pre -> st_data s' !! q = st_data s !! q) /\
       (st_data s !! p = None ->
          st_out s' = (st_out s ++ [("Error: File not in database: " ++ p)%string;
                                   "Use add action to add files first"])%list) /\
       (is_Some (st_data s !! p) ->
          st_out s' = (st_out s ++ [("Error: Hash already exists for: " ++ p)%string;
                                   "Use update action to reset hash"])%list)) /\
  (forall (fs : fsys) (s : state) (p : string) (directories : list string) (e : entry),
     st_data s !! p = Some e -> dmem "hash" e = false -> hashable fs p -> fds_fresh s ->
     exists s1 s2,
       cksum sha256_hex [p] directories fs s = Ok true s1 /\
       st_data s1 !! p = Some (dset e "hash" (VStr (sha256_hex (fs_bytes fs p)))) /\
       cksum sha256_hex [p] directories fs s1 = Ok false s2 /\
       st_data s2 = st_data s1 /\
       st_out s2 = (st_out s1 ++ [("Error: Hash already exists for: " ++ p)%string;
                                 "Use update action to reset hash"])%list).
Proof.
  split.
  - intros fs s pre p post directories Hnd Hp Hpre Hfail Hfresh.
    destruct (cksum_loop_prefix pre (p :: post) 0 fs s Hnd Hpre Hfresh)
      as (s'' & Hrun & Hin & Hout & Hso & _).
    pose proof (Hout p Hp) as Hsp.
    destruct Hfail as [Hnone | (e & He & Hh)].
    + rewrite <- Hsp in Hnone.
      eexists. split; [unfold cksum, bind; rewrite Hrun, (cksum_loop_not_tracked p post _ fs s'' Hnone);
                       reflexivity|].
      simpl. split; [exact Hin|]. split; [exact Hout|]. split.
      * intros _. rewrite Hso. reflexivity.
      * rewrite <- Hsp, Hnone. intros [x Hx]. discriminate Hx.
    + rewrite <- Hsp in He.
      eexists. split; [unfold cksum, bind; rewrite Hrun, (cksum_loop_already_hashed p post _ fs s'' e He Hh);
                       reflexivity|].
      simpl. split; [exact Hin|]. split; [exact Hout|]. split.
      * rewrite <- Hsp, He. intros H. discriminate H.
      * intros _. rewrite Hso. reflexivity.
  - intros fs s p directories e He Hh Hhash Hfresh.
    set (d1 := <[p := dset e "hash" (VStr (sha256_hex (fs_bytes fs p)))]> (st_data s)).
    set (s1 := mk_state d1 (st_out s ++ ["Added hashes for 1 files"]) (st_fds s) (S (st_next_fd s))).
    assert (H1 : cksum sha256_hex [p] directories fs s = Ok true s1).
    { unfold cksum, bind.
      rewrite (cksum_loop_hash_step p [] 0 fs s e He Hh Hhash (Hfresh _ (le_n _))). reflexivity. }
    assert (Hd1 : st_data s1 !! p = Some (dset e "hash" (VStr (sha256_hex (fs_bytes fs p)))))
      by apply lookup_insert_eq.
    exists s1, (mk_state d1 (st_out s1 ++ ["Error: Hash already exists for: " ++ p;
                                          "Use update action to reset hash"])
                    (st_fds s1) (st_next_fd s1)).
    split; [exact H1|]. split; [exact Hd1|]. split; [|split; reflexivity].
    unfold cksum, bind.
    rewrite (cksum_loop_already_hashed p [] 0 fs s1 _ Hd1 (dmem_dset_eq _ _ _)). reflexivity.
Qed.

(** C3: [add] handles the files, then the directories, in the order given.
    At the first path that is already a key of the store (initially or
    inserted earlier in the same call) it prints that path and returns
    [False]. Nothing is inserted for that path or any later one. Every
    earlier path keeps its freshly computed entry (no rollback). With no
    conflict, every path gets its computed entry and [add] returns [True].
    Paths are of the kind of their list, and the store entries have a
    ["type"] key (the final [count] reads it). *)
Theorem add_stops_at_first_conflict :
  (forall fs s pre p post directories,
     NoDup pre ->
     (forall q, q ∈ pre -> st_data s !! q = None /\ kind_ok fs KFile q) ->
     (is_Some (st_data s !! p) \/ p ∈ pre) ->
     exists s', add (pre ++ p :: post) directories fs s = Ok false s' /\
       (forall q, q ∈ pre -> st_data s' !! q = computed_entry fs KFile q) /\
       (forall q, q ∉ pre -> st_data s' !! q = st_data s !! q) /\
       st_out s' = (st_out s ++ [("file already in database: " ++ p)%string;
                                 "use check or update action"])%list) /\
  (forall fs s files pre p post,
     NoDup (files ++ pre) ->
     (forall q, q ∈ files -> st_data s !! q = None /\ kind_ok fs KFile q) ->
     (forall q, q ∈ pre -> st_data s !! q = None /\ kind_ok fs KDir q) ->
     (is_Some (st_data s !! p) \/ p ∈ files \/ p ∈ pre) ->
     exists s', add files (pre ++ p :: post) fs s = Ok false s' /\
       (forall q, q ∈ files -> st_data s' !! q = computed_entry fs KFile q) /\
       (forall q, q ∈ pre -> st_data s' !! q = computed_entry fs KDir q) /\
       (forall q, q ∉ files -> q ∉ pre -> st_data s' !! q = st_data s !! q) /\
       st_out s' = (st_out s ++ [("directory already in database: " ++ p)%string;
                                 "use check or update action"])%list) /\
  (forall fs s files directories,
     NoDup (files ++ directories) ->
     (forall q, q ∈ files -> st_data s !! q = None /\ kind_ok fs KFile q) ->
     (forall q, q ∈ directories -> st_data s !! q = None /\ kind_ok fs KDir q) ->
     typed_store (st_data s) ->
     exists s' line, add files directories fs s = Ok true s' /\
       (forall q, q ∈ files -> st_data s' !! q = computed_entry fs KFile q) /\
       (forall q, q ∈ directories -> st_data s' !! q = computed_entry fs KDir q) /\
       (forall q, q ∉ files -> q ∉ directories -> st_data s' !! q = st_data s !! q) /\
       st_out s' = (st_out s ++ ["add: success"; line])%list).
Proof.
  split; [|split].
  - intros fs s pre p post dirs Hnd Hpre Hp.
    destruct (add_loop_prefix KFile pre (p :: post) fs s Hnd Hpre)
      as (s1 & Hr & Hin & Hout & Ho & Hfd & Hn).
    assert (Hs1 : is_Some (st_data s1 !! p)).
    { destruct (decide (p ∈ pre)) as [Hq|Hq].
      - rewrite Hin by exact Hq. apply kind_ok_computed, (Hpre p Hq).
      - rewrite Hout by exact Hq. destruct Hp as [Hp|Hp]; [exact Hp|contradiction]. }
    destruct Hs1 as [e He].
    eexists. split; [|split; [|split]].
    + unfold add, bind at 1. rewrite Hr, (add_loop_conflict _ _ _ _ _ _ He). reflexivity.
    + exact Hin.
    + exact Hout.
    + simpl. rewrite Ho. reflexivity.
  - intros fs s files pre p post Hnd Hf Hd Hp.
    destruct (add_two_passes fs s files pre (p :: post) Hnd Hf Hd)
      as (s1 & s2 & Hr1 & Hr2 & Hin1 & Hin2 & Hout & Ho & Hfd & Hn).
    assert (Hs2 : is_Some (st_data s2 !! p)).
    { destruct (decide (p ∈ files)) as [Hq|Hq];
        [rewrite Hin1 by exact Hq; apply kind_ok_computed, (Hf p Hq)|].
      destruct (decide (p ∈ pre)) as [Hq'|Hq'];
        [rewrite Hin2 by exact Hq'; apply kind_ok_computed, (Hd p Hq')|].
      rewrite Hout by assumption. destruct Hp as [Hp|[Hp|Hp]]; [exact Hp|contradiction..]. }
    destruct Hs2 as [e He].
    eexists. split; [|split; [|split; [|split]]].
    + unfold add, bind at 1. rewrite Hr1. cbv beta iota. unfold bind at 1.
      rewrite Hr2, (add_loop_conflict _ _ _ _ _ _ He). reflexivity.
    + exact Hin1.
    + exact Hin2.
    + exact Hout.
    + simpl. rewrite Ho. reflexivity.
  - intros fs s files dirs Hnd Hf Hd Hty.
    destruct (add_two_passes fs s files dirs [] (ltac:(exact Hnd)) Hf Hd)
      as (s1 & s2 & Hr1 & Hr2 & Hin1 & Hin2 & Hout & Ho & Hfd & Hn).
    rewrite app_nil_r in Hr2. simpl in Hr2.
    set (s3 := mk_state (st_data s2) (st_out s2 ++ ["add: success"]) (st_fds s2) (st_next_fd s2)).
    destruct (count_ok fs s3) as [line Hc].
    { intros q e He. simpl in He.
      destruct (decide (q ∈ files)) as [Hq|Hq].
      { rewrite Hin1 in He by exact Hq. unfold computed_entry in He.
        destruct (fs_stat fs q); inversion He; subst;
          first [apply (kind_properties_typed KFile) | apply (kind_properties_typed KDir)]. }
      destruct (decide (q ∈ dirs)) as [Hq'|Hq'].
      { rewrite Hin2 in He by exact Hq'. unfold computed_entry in He.
        destruct (fs_stat fs q); inversion He; subst;
          first [apply (kind_properties_typed KFile) | apply (kind_properties_typed KDir)]. }
      rewrite Hout in He by assumption. exact (Hty q e He). }
    eexists _, line. split; [|split; [|split; [|split]]].
    + unfold add, bind at 1. rewrite Hr1. cbv beta iota. unfold bind at 1.
      rewrite Hr2. cbn [ret]. cbv beta iota.
      unfold bind at 1. unfold print at 1. cbv beta iota. fold s3.
      unfold bind. rewrite Hc. reflexivity.
    + exact Hin1.
    + exact Hin2.
    + exact Hout.
    + simpl. rewrite Ho, <- app_assoc. reflexivity.
Qed.

(** C7: in [verify], a recorded file [p] of type ['f'] adds one to the
    mismatch count when any of its attributes differs from [filedata], and
    nothing otherwise, however many attributes differ. Each differing
    attribute gets its own line. A different hash adds one to the separate
    hash count only: [filedata] has no ["hash"] key, so the attribute loop
    never compares hashes. The two increments are independent. *)
Theorem verify_flags_path_once fs s p rest recorded stats n m h :
  st_data s !! p = Some recorded ->
  dget recorded "type" = Some (VStr "f") ->
  fs_stat fs p = Some stats ->
  hashable fs p ->
  st_fds s !! st_next_fd s = None ->
  dmem "hash" (file_properties stats) = false /\
  exists s',
    verify_files sha256_hex (p :: rest) n m h fs s =
      verify_files sha256_hex rest n
        (m + (if attrs_differ recorded (file_properties stats) then 1 else 0))
        (h + (if hash_differs recorded (sha256_hex (fs_bytes fs p)) then 1 else 0)) fs s' /\
    st_data s' = st_data s /\
    st_out s' =
      (st_out s ++ (if attrs_differ recorded (file_properties stats)
                    then [("Warning: mismatch " ++ p)%string] else [])
                ++ diff_lines recorded (file_properties stats)
                ++ hash_lines p recorded (sha256_hex (fs_bytes fs p)))%list.
Proof.
  intros Hd Ht Hs (Hf & Ho & Hnf) Hfresh. split; [reflexivity|].
  assert (Hreg : S_ISREG (st_mode stats) = true)
    by (unfold isfile in Hf; rewrite Hs in Hf; exact Hf).
  cbn [verify_files]. unfold bind at 1, get_data. rewrite Hd.
  unfold bind at 1, getitem at 1. rewrite Ht. cbn [ret].
  change (negb (value_eqb (VStr "f") (VStr "f"))) with false. cbv iota.
  unfold bind at 1. rewrite (filedata_run fs s p stats Hs Hreg).
  unfold bind at 1. rewrite attr_loop_run. cbv beta iota.
  unfold hash_differs, hash_lines, dmem.
  destruct (attrs_differ recorded (file_properties stats));
    destruct (dget recorded "hash") as [hv|] eqn:Hh;
    rewrite ?Nat.add_0_r, ?Nat.add_1_r;
    try (unfold bind at 1;
            match goal with
            | |- context [bind (sha256file sha256_hex p) ?k fs ?st] =>
                rewrite (bind_Ok (sha256file sha256_hex p) k fs st _ _
                           (sha256file_ok fs st p Hf Ho Hnf Hfresh))
            end;
            unfold getitem; rewrite Hh; cbn [bind ret];
            destruct (value_eqb (VStr (sha256_hex (fs_bytes fs p))) hv));
    unfold print; cbn [bind ret negb andb orb st_data st_out st_fds st_next_fd];
    rewrite ?Nat.add_0_r, ?Nat.add_1_r;
    eexists; (split; [reflexivity|split; [reflexivity|]]);
    cbn [st_data st_out st_fds st_next_fd app]; rewrite ?app_nil_r, <- ?app_assoc; reflexivity.
Qed.

(** C5: [update] deletes the hash of every listed file that is already in
    the database, whether or not an attribute changed. Afterwards no listed
    file has a ["hash"] key. The removed-hash counter it prints is the
    number of listed files that had a hash before the call. The database
    is well formed: its dicts have distinct keys. *)
Theorem update_clears_every_file_hash fs s files directories b s' :
  store_ok (st_data s) -> NoDup files ->
  update files directories fs s = Ok b s' ->
  (forall p, p ∈ files -> exists e, st_data s' !! p = Some e /\ dmem "hash" e = false) /\
  exists c s1,
    update_counts files directories fs s = Ok c s1 /\
    u_removed_hash c = length (List.filter (hashed (st_data s)) files) /\
    st_data s' = st_data s1 /\
    st_out s' = (st_out s1 ++ [("Added " ++ str_nat (u_new c) ++ " new entries")%string;
                               ("Updated " ++ str_nat (u_changed c) ++ " entries")%string;
                               ("Removed " ++ str_nat (u_removed_hash c) ++ " hashes")%string;
                               ("Removed " ++ str_nat (u_removed_entry c) ++ " deleted entries")%string])%list.
Proof.
  intros Hok Hnd H. destruct (update_inv _ _ _ _ _ _ H) as (c & s1 & Hc & _ & ->).
  destruct (update_counts_post _ _ _ _ _ _ Hok Hc) as (Fset & _ & _ & Hcnt).
  split.
  - intros p Hp. destruct (Fset p Hp) as (stats & e & _ & _ & He & _ & Hh).
    exists e. split; [exact He|exact Hh].
  - exists c, s1. split; [exact Hc|]. split; [exact (Hcnt Hnd)|]. split; reflexivity.
Qed.

(** C6: after a successful [update], a second [update] with the same paths
    on the same file system finds nothing to do. All four counters are
    zero and the database is unchanged. The database is well formed: its
    dicts have distinct keys. *)
Theorem update_twice_counts_nothing fs s files directories b s1 :
  store_ok (st_data s) ->
  update files directories fs s = Ok b s1 ->
  update_counts files directories fs s1 = Ok (mk_ucounts 0 0 0 0) s1 /\
  update files directories fs s1 =
    Ok true (mk_state (st_data s1)
               (st_out s1 ++ ["Added 0 new entries"; "Updated 0 entries"; "Removed 0 hashes";
                              "Removed 0 deleted entries"])%list
               (st_fds s1) (st_next_fd s1)).
Proof.
  intros Hok H. destruct (update_inv _ _ _ _ _ _ H) as (c & s2 & Hc & _ & ->).
  destruct (update_counts_post _ _ _ _ _ _ Hok Hc) as (Fset & Dset & Keys & _).
  assert (H2 : update_counts files directories fs
                 (mk_state (st_data s2)
                    (st_out s2 ++ [("Added " ++ str_nat (u_new c) ++ " new entries")%string;
                                   ("Updated " ++ str_nat (u_changed c) ++ " entries")%string;
                                   ("Removed " ++ str_nat (u_removed_hash c) ++ " hashes")%string;
                                   ("Removed " ++ str_nat (u_removed_entry c)
                                     ++ " deleted entries")%string])%list
                    (st_fds s2) (st_next_fd s2)) =
               Ok (mk_ucounts 0 0 0 0) _)
    by (apply update_counts_settled; assumption).
  split; [exact H2|].
  unfold update, bind at 1. rewrite H2. unfold print, bind, ret.
  cbn [st_data st_out st_fds st_next_fd]. rewrite <- !app_assoc. reflexivity.
Qed.

End Proofs.

(** C8 (amended): the ["mode"] field computed by [filedata] or [dirdata]
    is the string [oct(S_IMODE(st_mode))]: ["0o"] followed by base-8 digits
    whose value is the permission bits ([st_mode & 0o7777]). *)
Theorem entry_mode_is_octal_string (k : kind) (fs : fsys) (s s' : state) (p : string) (e : entry) :
  kind_data k p fs s = Ok e s' ->
  exists stats, fs_stat fs p = Some stats /\
    dget e "mode" = Some (VStr (oct (S_IMODE (st_mode stats)))) /\
    exists digits, oct (S_IMODE (st_mode stats)) = "0o" ++ digits /\
                   octal_value digits = S_IMODE (st_mode stats).
Proof.
  intros H. destruct (kind_data_inv k fs s p e s' H) as (stats & Hs & _ & He).
  exists stats. split; [exact Hs|]. split.
  - subst e. destruct k; reflexivity.
  - apply oct_reads_back, S_IMODE_nonneg.
Qed.


(** ** Concrete runs *)

(** A hypothesis [forall q, q ∈ [x1; ...; xn] -> P q], case by case. *)
Tactic Notation "by_elem" tactic3(tac) :=
  let q := fresh "q" in let H := fresh "Hq" in
  intros q H;
  repeat (apply elem_of_cons in H as [->|H]; [tac|]);
  apply elem_of_nil in H; contradiction.

Ltac decide_true := apply (bool_decide_unpack _); vm_compute; reflexivity.

(** C1 (code bug): two of the actions leave a directory entry with a file's
    keys. Both start from a database with no directory entry carrying
    ["hash"] or ["size"], and both take well-formed path lists.
    [update] with [/a] now a directory merges [dirdata] into the old file
    entry with [dict.update]. Its dirs pass never removes ["size"] or
    ["hash"], so the entry becomes type ['d'] with the old size and hash.
    [hash] on a file path whose recorded entry is a directory adds a
    ["hash"] to the ['d'] entry, because it never reads the recorded type. *)
Theorem directory_entry_gets_file_keys :
  dir_clean {["/a" := a_hashed_entry]} = true /\
  isdir a_is_dir_fs "/a" = true /\
  update [] ["/a"] a_is_dir_fs (state_with {["/a" := a_hashed_entry]}) =
    Ok true (mk_state {["/a" := [("type", VStr "d"); ("uid", VInt 1000); ("gid", VInt 1000);
                                 ("mode", VStr "0o755"); ("size", VInt 5); ("hash", VStr "h5")]]}
               ["Added 0 new entries"; "Updated 1 entries"; "Removed 0 hashes";
                "Removed 0 deleted entries"] ∅ 0) /\
  dir_clean {["/a" := [("type", VStr "d"); ("uid", VInt 1000); ("gid", VInt 1000);
                       ("mode", VStr "0o755"); ("size", VInt 5); ("hash", VStr "h5")]]} = false /\
  dir_clean {["/a" := a_dir_entry]} = true /\
  isfile sample_fs "/a" = true /\
  cksum sample_hex ["/a"] [] sample_fs (state_with {["/a" := a_dir_entry]}) =
    Ok true (mk_state {["/a" := (a_dir_entry ++ [("hash", VStr "h5")])%list]}
               ["Added hashes for 1 files"] ∅ 1) /\
  dir_clean {["/a" := (a_dir_entry ++ [("hash", VStr "h5")])%list]} = false.
Proof. repeat split; vm_compute; reflexivity. Qed.

Lemma add_stops_at_first_conflict_witness :
  (exists s', add ["/a"; "/a"] [] sample_fs empty_state = Ok false s') /\
  (exists s', add ["/a"] ["/d"; "/d"] sample_fs empty_state = Ok false s') /\
  (exists s', add ["/a"] ["/d"] sample_fs empty_state = Ok true s').
Proof.
  split; [|split].
  - destruct (proj1 add_stops_at_first_conflict sample_fs empty_state ["/a"] "/a" [] [])
      as (s' & H & _).
    + decide_true.
    + by_elem (split; reflexivity).
    + right. apply list_elem_of_here.
    + exists s'. exact H.
  - destruct (proj1 (proj2 add_stops_at_first_conflict) sample_fs empty_state ["/a"] ["/d"]
                "/d" []) as (s' & H & _).
    + decide_true.
    + by_elem (split; reflexivity).
    + by_elem (split; reflexivity).
    + right. right. apply list_elem_of_here.
    + exists s'. exact H.
  - destruct (proj2 (proj2 add_stops_at_first_conflict) sample_fs empty_state ["/a"] ["/d"])
      as (s' & line & H & _).
    + decide_true.
    + by_elem (split; reflexivity).
    + by_elem (split; reflexivity).
    + intros q e He. cbn [empty_state st_data] in He. rewrite lookup_empty in He. discriminate.
    + exists s'. exact H.
Defined.

Lemma verify_flags_path_once_witness :
  exists s',
    verify_files sample_hex ["/a"] 0 0 0 sample_fs (state_with {["/a" := a_drifted_entry]}) =
    verify_files sample_hex [] 0 1 1 sample_fs s' /\
    st_out s' = ["Warning: mismatch /a"; "  uid changed from 0 to 1000";
                 "  gid changed from 0 to 1000"; "Warning: hash changed /a";
                 "  hash changed from bad to h5"].
Proof.
  destruct (verify_flags_path_once sample_hex sample_fs (state_with {["/a" := a_drifted_entry]})
              "/a" [] a_drifted_entry (mk_stat 33188 1000 1000 5) 0 0 0) as [_ (s' & H & _ & Ho)].
  - reflexivity.
  - reflexivity.
  - reflexivity.
  - repeat split; reflexivity.
  - reflexivity.
  - exists s'. split; [exact H|]. rewrite Ho. vm_compute. reflexivity.
Defined.

Lemma update_clears_every_file_hash_witness :
  exists b s' c,
    update ["/a"] [] sample_fs (state_with {["/a" := a_hashed_entry]}) = Ok b s' /\
    (exists s1, update_counts ["/a"] [] sample_fs (state_with {["/a" := a_hashed_entry]}) = Ok c s1) /\
    u_changed c = 0 /\ u_removed_hash c = 1 /\
    exists e, st_data s' !! "/a" = Some e /\ dmem "hash" e = false.
Proof.
  destruct (update ["/a"] [] sample_fs (state_with {["/a" := a_hashed_entry]})) as [b s'|ex s'] eqn:E;
    [|vm_compute in E; discriminate].
  destruct (update_clears_every_file_hash sample_fs (state_with {["/a" := a_hashed_entry]})
              ["/a"] [] b s') as [Hall (c & s1 & Hc & Hrh & _)].
  - apply store_ok_check. vm_compute. reflexivity.
  - decide_true.
  - exact E.
  - exists b, s', c. split; [reflexivity|]. split; [exists s1; exact Hc|].
    split; [|split; [rewrite Hrh; vm_compute; reflexivity|apply Hall; left]].
    vm_compute in Hc. injection Hc as <- _. reflexivity.
Defined.

Lemma update_twice_counts_nothing_witness :
  exists b s1,
    update ["/a"] ["/d"] sample_fs
      (state_with (<["/old" := a_dir_entry]> {["/a" := a_drifted_entry]})) = Ok b s1 /\
    update_counts ["/a"] ["/d"] sample_fs s1 = Ok (mk_ucounts 0 0 0 0) s1.
Proof.
  destruct (update ["/a"] ["/d"] sample_fs
              (state_with (<["/old" := a_dir_entry]> {["/a" := a_drifted_entry]})))
    as [b s1|ex s1] eqn:E; [|vm_compute in E; discriminate].
  destruct (update_twice_counts_nothing sample_fs
              (state_with (<["/old" := a_dir_entry]> {["/a" := a_drifted_entry]}))
              ["/a"] ["/d"] b s1) as [H _].
  - apply store_ok_check. vm_compute. reflexivity.
  - exact E.
  - exists b, s1. split; [reflexivity|exact H].
Defined.

Lemma cksum_fails_at_first_untracked_or_hashed_witness :
  (exists s', cksum sample_hex ["/a"; "/x"] [] sample_fs (state_with {["/a" := a_file_entry]})
                = Ok false s') /\
  (exists s1 s2,
     cksum sample_hex ["/a"] [] sample_fs (state_with {["/a" := a_file_entry]}) = Ok true s1 /\
     cksum sample_hex ["/a"] [] sample_fs s1 = Ok false s2 /\ st_data s2 = st_data s1).
Proof.
  split.
  - destruct (proj1 (cksum_fails_at_first_untracked_or_hashed sample_hex) sample_fs
                (state_with {["/a" := a_file_entry]}) ["/a"] "/x" [] []) as (s' & H & _).
    + decide_true.
    + decide_true.
    + by_elem (split; [exists a_file_entry; split; reflexivity | repeat split; reflexivity]).
    + left. reflexivity.
    + intros n _. apply lookup_empty.
    + exists s'. exact H.
  - destruct (proj2 (cksum_fails_at_first_untracked_or_hashed sample_hex) sample_fs
                (state_with {["/a" := a_file_entry]}) "/a" [] a_file_entry)
      as (s1 & s2 & H1 & _ & H2 & H3 & _).
    + reflexivity.
    + reflexivity.
    + repeat split; reflexivity.
    + intros n _. apply lookup_empty.
    + exists s1, s2. split; [exact H1|split; [exact H2|exact H3]].
Defined.

Lemma entry_mode_is_octal_string_witness :
  filedata "/a" sample_fs empty_state = Ok a_file_entry empty_state /\
  exists stats, fs_stat sample_fs "/a" = Some stats /\
    dget a_file_entry "mode" = Some (VStr (oct (S_IMODE (st_mode stats)))) /\
    exists digits, oct (S_IMODE (st_mode stats)) = "0o" ++ digits /\
                   octal_value digits = S_IMODE (st_mode stats).
Proof.
  split; [vm_compute; reflexivity|].
  apply (entry_mode_is_octal_string KFile sample_fs empty_state empty_state "/a" a_file_entry).
  vm_compute. reflexivity.
Defined.

(** C8 fails: the mode of [/a] ([st_mode = 0o100644]) is stored as the
    string ["0o644"], not as the integer [420]. *)
Lemma mode_not_stored_as_integer :
  filedata "/a" sample_fs empty_state = Ok a_file_entry empty_state /\
  dget a_file_entry "mode" = Some (VStr "0o644") /\
  dget a_file_entry "mode" <> Some (VInt (S_IMODE 33188)).
Proof.
  split; [vm_compute; reflexivity|]. split; [reflexivity|].
  vm_compute. intros H. discriminate H.
Qed.

Lemma sha256file_closes_on_return_only_witness :
  st_fds empty_state !! st_next_fd empty_state = None /\
  (forall h s', sha256file sample_hex "/a" sample_fs empty_state = Ok h s' ->
     st_fds s' = st_fds empty_state) /\
  (forall e s', isfile sample_fs "/a" = true -> fs_can_open sample_fs "/a" = true ->
     sha256file sample_hex "/a" sample_fs empty_state = Exc e s' ->
     is_Some (st_fds s' !! st_next_fd empty_state)).
Proof.
  split; [reflexivity|].
  apply (sha256file_closes_on_return_only sample_hex sample_fs empty_state "/a").
  reflexivity.
Defined.

(** C9 fails: reading [/a] in [faulty_fs] raises [OSError] on the first
    block, and [sha256file] propagates it with handle [0] still open. *)
Lemma sha256file_read_error_leaves_handle_open :
  sha256file sample_hex "/a" faulty_fs empty_state
    = Exc OSError (mk_state ∅ [] {[0 := ("/a", 0)]} 1) /\
  st_fds (mk_state ∅ [] {[0 := ("/a", 0)]} 1) !! 0 = Some ("/a", 0).
Proof. split; vm_compute; reflexivity. Qed.


(** * Further properties of the program *)

(** ** [count] *)

Lemma count_loop_counts es f d fs s :
  (forall p e, (p, e) ∈ es -> is_Some (dget e "type")) ->
  count_loop es f d fs s =
    Ok (f + length (List.filter (type_is "f") es), d + length (List.filter (type_is "d") es)) s.
Proof.
  revert f d. induction es as [|[p e] es IH]; intros f d Hty.
  - simpl. rewrite !Nat.add_0_r. reflexivity.
  - destruct (Hty p e (list_elem_of_here _ _)) as [t Ht].
    assert (Hty' : forall p' e', (p', e') ∈ es -> is_Some (dget e' "type"))
      by (intros p' e' H; apply (Hty p' e'); right; exact H).
    assert (Hti : forall t', type_is t' (p, e) = value_eqb t (VStr t'))
      by (intros t'; unfold type_is; cbn [snd]; rewrite Ht; reflexivity).
    cbn [count_loop List.filter]. rewrite !Hti. unfold bind at 1, getitem. rewrite Ht. cbn [ret].
    destruct (value_eqb t (VStr "f")) eqn:Ef.
    + apply value_eqb_eq in Ef. subst t. cbn [value_eqb].
      change (String.eqb "f" "d") with false. cbv iota.
      rewrite IH by exact Hty'. cbn [length]. f_equal. f_equal; lia.
    + destruct (value_eqb t (VStr "d")); rewrite IH by exact Hty'; cbn [length];
        f_equal; f_equal; lia.
Qed.

Lemma count_loop_untyped es f d fs s p e :
  (p, e) ∈ es -> dget e "type" = None -> count_loop es f d fs s = Exc KeyError s.
Proof.
  revert f d. induction es as [|[p' e'] es IH]; intros f d Hin Hnone.
  - apply elem_of_nil in Hin. contradiction.
  - cbn [count_loop]. unfold bind at 1, getitem.
    destruct (dget e' "type") as [t|] eqn:Ht; [|reflexivity].
    cbn [ret]. apply elem_of_cons in Hin as [Heq|Hin].
    + injection Heq as -> ->. congruence.
    + destruct (value_eqb t (VStr "f")); [|destruct (value_eqb t (VStr "d"))];
        apply IH; assumption.
Qed.

(** ** [sha256file] *)

Section Further.

Variable sha256_hex : list Byte.byte -> string.

(** X: [sha256file] checks its path before opening it. On a path that is
    not a regular file (a directory, a missing path) the [assert] raises
    [AssertionError]; when [open] fails it raises [OSError]. In both cases
    no handle is opened and the state is the one it started from. *)
Theorem sha256file_fails_before_opening (fs : fsys) (s : state) (p : string) :
  (isfile fs p = false -> sha256file sha256_hex p fs s = Exc AssertionError s) /\
  (isfile fs p = true -> fs_can_open fs p = false -> sha256file sha256_hex p fs s = Exc OSError s).
Proof.
  split; intros Hf; unfold sha256file, bind at 1, os_path_isfile; cbv beta; rewrite Hf.
  - reflexivity.
  - intros Ho. cbn -[read_loop f_read BUFSIZE f_close file_length open_rb].
    unfold bind at 1, open_rb. rewrite Ho. reflexivity.
Qed.

(** X: [sha256file] returns [sha256_hex] of the whole content of a
    readable regular file, whatever its size (an empty file included):
    its loop feeds every 16384-byte block to the hash object. It leaves
    the database, the output and the handle table as they were and only
    uses up one descriptor number. *)
Theorem sha256file_digests_whole_content (fs : fsys) (s : state) (p : string) :
  isfile fs p = true -> fs_can_open fs p = true -> fs_fault fs p = None ->
  st_fds s !! st_next_fd s = None ->
  sha256file sha256_hex p fs s =
    Ok (sha256_hex (fs_bytes fs p)) (mk_state (st_data s) (st_out s) (st_fds s) (S (st_next_fd s))).
Proof. intros Hf Ho Hnf Hfresh. exact (sha256file_ok sha256_hex fs s p Hf Ho Hnf Hfresh). Qed.

End Further.

(** ** [filedata] and [dirdata] *)

(** X: [filedata] raises [AssertionError] on any path that is not a
    regular file, before calling [os.stat]. On a regular file it returns,
    in an unchanged state, the dict with the keys ['type'], ['uid'],
    ['gid'], ['mode'], ['size'] in this order: type ['f'], the owner, the
    group and the size from [os.stat], and the mode as an octal string.
    It never records a hash. *)
Theorem filedata_entry_layout (fs : fsys) (s : state) (p : string) :
  (isfile fs p = false -> filedata p fs s = Exc AssertionError s) /\
  (forall stats, fs_stat fs p = Some stats -> S_ISREG (st_mode stats) = true ->
     exists e, filedata p fs s = Ok e s /\
       map fst e = ["type"; "uid"; "gid"; "mode"; "size"] /\
       dget e "type" = Some (VStr "f") /\
       dget e "uid" = Some (VInt (st_uid stats)) /\
       dget e "gid" = Some (VInt (st_gid stats)) /\
       dget e "mode" = Some (VStr (oct (S_IMODE (st_mode stats)))) /\
       dget e "size" = Some (VInt (st_size stats)) /\
       dmem "hash" e = false).
Proof.
  split.
  - intros Hf. unfold filedata, bind at 1, os_path_isfile. cbv beta. rewrite Hf. reflexivity.
  - intros stats Hs Hr. exists (file_properties stats).
    split; [exact (filedata_run fs s p stats Hs Hr)|]. repeat split.
Qed.

(** X: [dirdata] raises [AssertionError] on any path that is not a
    directory. On a directory it returns, in an unchanged state, the dict
    with the keys ['type'], ['uid'], ['gid'], ['mode'] in this order:
    type ['d'], owner and group from [os.stat], the mode as an octal
    string; it has no ['size'] and no ['hash'] key. *)
Theorem dirdata_entry_layout (fs : fsys) (s : state) (p : string) :
  (isdir fs p = false -> dirdata p fs s = Exc AssertionError s) /\
  (forall stats, fs_stat fs p = Some stats -> S_ISDIR (st_mode stats) = true ->
     exists e, dirdata p fs s = Ok e s /\
       map fst e = ["type"; "uid"; "gid"; "mode"] /\
       dget e "type" = Some (VStr "d") /\
       dget e "uid" = Some (VInt (st_uid stats)) /\
       dget e "gid" = Some (VInt (st_gid stats)) /\
       dget e "mode" = Some (VStr (oct (S_IMODE (st_mode stats)))) /\
       dmem "size" e = false /\ dmem "hash" e = false).
Proof.
  split.
  - intros Hd. unfold dirdata, bind at 1, os_path_isdir. cbv beta. rewrite Hd. reflexivity.
  - intros stats Hs Hr. exists (dir_properties stats).
    split; [exact (dirdata_run fs s p stats Hs Hr)|]. repeat split.
Qed.

(** X: when every database entry has a ['type'], [count] returns [True],
    leaves the database as it was and prints the number of entries of
    type ['f'] and of type ['d'] (an entry of any other type is in
    neither count). It then prints the lengths of the two lists, unless
    both are empty. *)
Theorem count_reports_database_and_path (fs : fsys) (s : state) (files directories : list string) :
  typed_store (st_data s) ->
  count files directories fs s =
    Ok true (mk_state (st_data s)
      (st_out s ++
       [("database contains " ++ str_nat (length (List.filter (type_is "f") (map_to_list (st_data s))))
         ++ " files and " ++ str_nat (length (List.filter (type_is "d") (map_to_list (st_data s))))
         ++ " directories")%string]
       ++ match files, directories with
          | [], [] => []
          | _, _ => [("path contains " ++ str_nat (length files) ++ " files and "
                      ++ str_nat (length directories) ++ " directories")%string]
          end)%list
      (st_fds s) (st_next_fd s)).
Proof.
  intros Hty. unfold count, bind at 1, get_data. cbv beta iota. unfold bind at 1.
  rewrite count_loop_counts by (intros p e H; apply elem_of_map_to_list in H; exact (Hty p e H)).
  destruct files, directories; unfold bind, print, ret; cbn [st_data st_out st_fds st_next_fd negb
    Nat.eqb length orb]; rewrite <- ?app_assoc; reflexivity.
Qed.

(** X: [count] reads ['type'] from every database entry: when one entry
    has no ['type'] key, [count] raises [KeyError] before printing
    anything, and the state is unchanged. *)
Theorem count_untyped_entry_raises (fs : fsys) (s : state) (files directories : list string)
  (p : string) (e : entry) :
  st_data s !! p = Some e -> dget e "type" = None ->
  count files directories fs s = Exc KeyError s.
Proof.
  intros Hp Hnone. unfold count, bind at 1, get_data. cbv beta iota. unfold bind at 1.
  rewrite (count_loop_untyped _ 0 0 fs s p e); [reflexivity| |exact Hnone].
  apply elem_of_map_to_list, Hp.
Qed.

(** ** [add] *)

Lemma grows_refl l d : grows_within l d d.
Proof. split; [auto|]. intros p e H1 H2. congruence. Qed.

Lemma grows_trans l d0 d1 d2 :
  grows_within l d0 d1 -> grows_within l d1 d2 -> grows_within l d0 d2.
Proof.
  intros [F1 F2] [G1 G2]. split; [auto|]. intros p e H2 H0.
  destruct (d1 !! p) as [e1|] eqn:H1.
  - apply (F2 p e1 H1 H0).
  - apply (G2 p e H2 H1).
Qed.

Lemma grows_weaken l l' d d' :
  (forall p, p ∈ l -> p ∈ l') -> grows_within l d d' -> grows_within l' d d'.
Proof. intros Hl [G1 G2]. split; [exact G1|]. intros p e H1 H2. apply Hl, (G2 p e H1 H2). Qed.

Lemma keeps_grows {A} (m : M A) l fs s :
  keeps_data m -> grows_within l (st_data s) (st_data (outcome_state (m fs s))).
Proof. intros K. rewrite (K fs s). apply grows_refl. Qed.

Lemma keeps_kind_data k p : keeps_data (kind_data k p).
Proof. destruct k; [apply keeps_filedata|apply keeps_dirdata]. Qed.

Lemma keeps_count_loop es f d : keeps_data (count_loop es f d).
Proof.
  revert f d. induction es as [|[p e] es IH]; intros f d; simpl; [apply keeps_ret|].
  apply keeps_bind; [apply keeps_getitem|]. intros t.
  destruct (value_eqb t (VStr "f")); [apply IH|]. destruct (value_eqb t (VStr "d")); apply IH.
Qed.

Lemma keeps_count files dirs : keeps_data (count files dirs).
Proof.
  unfold count. apply keeps_bind; [apply keeps_get_data|]. intros d.
  apply keeps_bind; [apply keeps_count_loop|]. intros [f n]. keeps_steps.
Qed.

Lemma add_loop_grows k paths fs s :
  grows_within paths (st_data s) (st_data (outcome_state (add_loop k paths fs s))).
Proof.
  revert s. induction paths as [|p rest IH]; intros s; [apply grows_refl|].
  cbn [add_loop]. unfold bind at 1, get_data. cbv beta iota.
  destruct (st_data s !! p) as [old|] eqn:Hp.
  - apply keeps_grows. keeps_steps.
  - unfold bind at 1. destruct (kind_data k p fs s) as [e s1|ex s1] eqn:Hk.
    + destruct (kind_data_inv k fs s p e s1 Hk) as (stats & _ & -> & _).
      set (s2 := mk_state (<[p := e]> (st_data s)) (st_out s) (st_fds s) (st_next_fd s)).
      assert (E : (set_item p e ;; add_loop k rest) fs s = add_loop k rest fs s2) by reflexivity.
      rewrite E. apply (grows_trans _ _ (st_data s2)).
      * split.
        -- intros q e' Hq. simpl. rewrite lookup_insert_ne; [exact Hq|]. intros ->. congruence.
        -- intros q e' Hq Hq0. simpl in Hq. destruct (decide (q = p)) as [->|Hne]; [left|].
           rewrite lookup_insert_ne in Hq by congruence. congruence.
      * apply (grows_weaken rest); [intros q Hq; right; exact Hq|apply IH].
    + cbn [outcome_state]. pose proof (keeps_kind_data k p fs s) as K. rewrite Hk in K.
      simpl in K. rewrite K. apply grows_refl.
Qed.

(** X: [add] never changes or deletes an entry that is already in the
    database, whatever its result (also when it returns [False] at a
    conflict or raises), and every key it adds is one of the listed
    paths. *)
Theorem add_never_overwrites_existing_entries (fs : fsys) (s : state) (files directories : list string) :
  (forall p e, st_data s !! p = Some e ->
     st_data (outcome_state (add files directories fs s)) !! p = Some e) /\
  (forall p e, st_data (outcome_state (add files directories fs s)) !! p = Some e ->
     st_data s !! p = None -> p ∈ files \/ p ∈ directories).
Proof.
  assert (G : grows_within (files ++ directories) (st_data s)
                (st_data (outcome_state (add files directories fs s)))).
  { unfold add, bind at 1.
    assert (Wf : forall q, q ∈ files -> q ∈ (files ++ directories)%list)
      by (intros q Hq; apply elem_of_app; left; exact Hq).
    assert (Wd : forall q, q ∈ directories -> q ∈ (files ++ directories)%list)
      by (intros q Hq; apply elem_of_app; right; exact Hq).
    pose proof (grows_weaken _ _ _ _ Wf (add_loop_grows KFile files fs s)) as G1.
    destruct (add_loop KFile files fs s) as [ok s1|ex s1]; cbn [outcome_state] in G1 |- *;
      [|exact G1].
    destruct ok; [|exact G1].
    unfold bind at 1.
    pose proof (grows_weaken _ _ _ _ Wd (add_loop_grows KDir directories fs s1)) as G2.
    destruct (add_loop KDir directories fs s1) as [ok2 s2|ex s2]; cbn [outcome_state] in G2 |- *;
      [|exact (grows_trans _ _ _ _ G1 G2)].
    destruct ok2; [|exact (grows_trans _ _ _ _ G1 G2)].
    apply (grows_trans _ _ _ _ G1), (grows_trans _ _ _ _ G2), keeps_grows.
    apply keeps_bind; [apply keeps_print|]. intros _.
    apply keeps_bind; [apply keeps_count|]. intros _. apply keeps_ret. }
  destruct G as [G1 G2]. split; [exact G1|].
  intros p e H1 H2. apply elem_of_app, (G2 p e H1 H2).
Qed.

(** ** [update]: what the counters count *)

Lemma map_fst_fmap {A B} (l : list (A * B)) : map fst l = l.*1.
Proof. induction l as [|x l IH]; simpl; [reflexivity|]. rewrite IH. reflexivity. Qed.

Lemma to_remove_size (d : gmap string entry) files dirs :
  length (filter (fun entry => negb (py_in entry files) && negb (py_in entry dirs))
            (map fst (map_to_list d)))
  = size (dom d ∖ list_to_set (files ++ dirs) : gset string).
Proof.
  rewrite <- (size_list_to_set (C := gset string)).
  - f_equal. apply set_eq. intros p.
    rewrite elem_of_list_to_set, to_remove_spec, elem_of_difference, elem_of_dom,
      elem_of_list_to_set, elem_of_app. tauto.
  - apply NoDup_filter. rewrite map_fst_fmap. apply NoDup_fst_map_to_list.
Qed.

(** Sizes of the paths not yet in a growing key set. *)
Lemma size_new_split (A B C : gset string) :
  size (A ∖ B) + size (C ∖ (B ∪ A)) = size ((A ∪ C) ∖ B).
Proof.
  rewrite <- size_union.
  - f_equal. apply set_eq. intros x. set_unfold. destruct (decide (x ∈ A)); tauto.
  - set_solver.
Qed.

Lemma size_new_cons (p : string) (R B : gset string) :
  size (({[p]} ∪ R) ∖ B) = (if decide (p ∈ B) then 0 else 1) + size (R ∖ ({[p]} ∪ B)).
Proof.
  destruct (decide (p ∈ B)) as [Hp|Hp].
  - simpl. f_equal. apply set_eq. intros x. set_unfold. destruct (decide (x = p)); subst; tauto.
  - rewrite <- (size_singleton (C := gset string) p), <- size_union.
    + f_equal. apply set_eq. intros x. set_unfold. destruct (decide (x = p)); subst; tauto.
    + set_solver.
Qed.

Lemma update_files_new_keys files n c rh fs s r s' :
  update_files files n c rh fs s = Ok r s' ->
  r.1.1 = n + size (list_to_set files ∖ dom (st_data s) : gset string) /\
  dom (st_data s') = dom (st_data s) ∪ list_to_set files.
Proof.
  revert n c rh s. induction files as [|p rest IH]; intros n c rh s H.
  - simpl in H. inversion H. subst. simpl. split.
    + replace (∅ ∖ dom (st_data s')) with (∅ : gset string) by (apply set_eq; set_solver).
      rewrite size_empty. lia.
    + apply set_eq. set_solver.
  - destruct (filedata p fs s) as [nd s1|ex s1] eqn:Hf;
      [|destruct (update_files_exc p rest n c rh fs s ex s1 Hf) as [s2 Hs2]; congruence].
    destruct (filedata_inv fs s p nd s1 Hf) as (stats & _ & _ & -> & ->).
    destruct (st_data s !! p) as [old|] eqn:Hp.
    + rewrite (update_files_old p rest n c rh fs s old _ Hp Hf) in H.
      destruct (IH _ _ _ _ H) as [Hn Hd]. cbn [st_data] in Hn, Hd.
      assert (Hin : p ∈ dom (st_data s)) by (apply elem_of_dom; eexists; exact Hp).
      rewrite dom_insert_L in Hn, Hd. split.
      * rewrite Hn. cbn [list_to_set]. rewrite size_new_cons, decide_True by exact Hin.
        simpl. reflexivity.
      * rewrite Hd. apply set_eq. set_solver.
    + rewrite (update_files_new p rest n c rh fs s _ Hp Hf) in H.
      destruct (IH _ _ _ _ H) as [Hn Hd]. cbn [st_data] in Hn, Hd.
      assert (Hin : p ∉ dom (st_data s)) by (rewrite elem_of_dom, Hp; intros [? ?]; discriminate).
      rewrite dom_insert_L in Hn, Hd. split.
      * rewrite Hn. cbn [list_to_set]. rewrite size_new_cons, decide_False by exact Hin. lia.
      * rewrite Hd. apply set_eq. set_solver.
Qed.

Lemma update_dirs_new_keys dirs n c fs s r s' :
  update_dirs dirs n c fs s = Ok r s' ->
  r.1 = n + size (list_to_set dirs ∖ dom (st_data s) : gset string) /\
  dom (st_data s') = dom (st_data s) ∪ list_to_set dirs.
Proof.
  revert n c s. induction dirs as [|p rest IH]; intros n c s H.
  - simpl in H. inversion H. subst. simpl. split.
    + replace (∅ ∖ dom (st_data s')) with (∅ : gset string) by (apply set_eq; set_solver).
      rewrite size_empty. lia.
    + apply set_eq. set_solver.
  - destruct (dirdata p fs s) as [nd s1|ex s1] eqn:Hf;
      [|destruct (update_dirs_exc p rest n c fs s ex s1 Hf) as [s2 Hs2]; congruence].
    destruct (dirdata_inv fs s p nd s1 Hf) as (stats & _ & _ & -> & ->).
    destruct (st_data s !! p) as [old|] eqn:Hp.
    + rewrite (update_dirs_old p rest n c fs s old _ Hp Hf) in H.
      destruct (IH _ _ _ H) as [Hn Hd]. cbn [st_data] in Hn, Hd.
      assert (Hin : p ∈ dom (st_data s)) by (apply elem_of_dom; eexists; exact Hp).
      rewrite dom_insert_L in Hn, Hd. split.
      * rewrite Hn. cbn [list_to_set]. rewrite size_new_cons, decide_True by exact Hin.
        simpl. reflexivity.
      * rewrite Hd. apply set_eq. set_solver.
    + rewrite (update_dirs_new p rest n c fs s _ Hp Hf) in H.
      destruct (IH _ _ _ H) as [Hn Hd]. cbn [st_data] in Hn, Hd.
      assert (Hin : p ∉ dom (st_data s)) by (rewrite elem_of_dom, Hp; intros [? ?]; discriminate).
      rewrite dom_insert_L in Hn, Hd. split.
      * rewrite Hn. cbn [list_to_set]. rewrite size_new_cons, decide_False by exact Hin. lia.
      * rewrite Hd. apply set_eq. set_solver.
Qed.

(** X: the ["Removed N deleted entries"] line of [update] counts the
    database keys that are in neither list: [update] deletes exactly
    those entries, each once. *)
Theorem update_reports_removed_entries (fs : fsys) (s s' : state) (files directories : list string)
  (b : bool) :
  update files directories fs s = Ok b s' ->
  exists out, st_out s' =
    (out ++ [("Removed " ++ str_nat (size (dom (st_data s) ∖ list_to_set (files ++ directories)
                                         : gset string)) ++ " deleted entries")%string])%list.
Proof.
  intros H. destruct (update_inv _ _ _ _ _ _ H) as (c & s1 & Hc & _ & ->).
  destruct (update_counts_inv _ _ _ _ _ _ Hc)
    as (rc & s0 & n1 & c1 & rh & s2 & n2 & c2 & H0 & _ & _ & ->).
  destruct (remove_loop_post _ _ _ _ _ _ H0) as (_ & _ & _ & Hk).
  rewrite to_remove_size in Hk. simpl in Hk. subst rc.
  exists (st_out s1 ++ [("Added " ++ str_nat n2 ++ " new entries")%string;
                        ("Updated " ++ str_nat c2 ++ " entries")%string;
                        ("Removed " ++ str_nat rh ++ " hashes")%string])%list.
  cbn [st_out u_removed_entry u_new u_changed u_removed_hash]. rewrite <- app_assoc. reflexivity.
Qed.

(** X: the ["Added N new entries"] line of [update] counts the distinct
    listed paths that were not in the database: a path listed twice, or
    in both lists, is added and counted once. *)
Theorem update_reports_new_entries (fs : fsys) (s s' : state) (files directories : list string)
  (b : bool) :
  update files directories fs s = Ok b s' ->
  exists c s1, update_counts files directories fs s = Ok c s1 /\
    u_new c = size (list_to_set (files ++ directories) ∖ dom (st_data s) : gset string) /\
    st_out s' = (st_out s1 ++ [("Added " ++ str_nat (u_new c) ++ " new entries")%string;
                               ("Updated " ++ str_nat (u_changed c) ++ " entries")%string;
                               ("Removed " ++ str_nat (u_removed_hash c) ++ " hashes")%string;
                               ("Removed " ++ str_nat (u_removed_entry c) ++ " deleted entries")%string])%list.
Proof.
  intros H. destruct (update_inv _ _ _ _ _ _ H) as (c & s1 & Hc & _ & ->).
  exists c, s1. split; [exact Hc|]. split; [|reflexivity].
  destruct (update_counts_inv _ _ _ _ _ _ Hc)
    as (rc & s0 & n1 & c1 & rh & s2 & n2 & c2 & H0 & H1 & H2 & ->).
  destruct (remove_loop_post _ _ _ _ _ _ H0) as (Rout & Rin & _ & _).
  destruct (update_files_new_keys _ _ _ _ _ _ _ _ H1) as [Hn1 Hd1].
  destruct (update_dirs_new_keys _ _ _ _ _ _ _ H2) as [Hn2 _].
  cbn [fst snd u_new] in *. rewrite Hn2, Hn1, Hd1, Nat.add_0_l, size_new_split.
  f_equal. apply set_eq. intros p.
  rewrite !elem_of_difference, elem_of_union, !elem_of_list_to_set, elem_of_app, !elem_of_dom.
  split; intros [Hl Hd]; split; try tauto; intros Hs; apply Hd.
  - rewrite Rout; [exact Hs|]. rewrite to_remove_spec. tauto.
  - rewrite Rout in Hs; [exact Hs|]. rewrite to_remove_spec. tauto.
Qed.

(** X: after a successful [update], the keys of the database are exactly
    the listed paths. *)
Theorem update_leaves_exactly_listed_keys (fs : fsys) (s s' : state) (files directories : list string)
  (b : bool) :
  store_ok (st_data s) -> update files directories fs s = Ok b s' ->
  dom (st_data s') = list_to_set (files ++ directories).
Proof.
  intros Hok H. destruct (update_inv _ _ _ _ _ _ H) as (c & s1 & Hc & _ & ->).
  destruct (update_counts_post _ _ _ _ _ _ Hok Hc) as (Fset & Dset & Keys & _).
  cbn [st_data]. apply set_eq. intros p.
  rewrite elem_of_dom, elem_of_list_to_set, elem_of_app. split.
  - intros [e He]. destruct (decide (p ∈ files)) as [Hf|Hf]; [left; exact Hf|].
    destruct (decide (p ∈ directories)) as [Hd|Hd]; [right; exact Hd|].
    rewrite Keys in He by assumption. discriminate.
  - intros [Hf|Hd].
    + destruct (Fset p Hf) as (_ & e & _ & _ & He & _). eexists. exact He.
    + destruct (Dset p Hd) as (_ & e & _ & _ & He & _). eexists. exact He.
Qed.

(** ** [cksum] and [verify] *)

Lemma bind_Ok_inv {A B} (m : M A) (k : A -> M B) fs s r s' :
  bind m k fs s = Ok r s' -> exists a s1, m fs s = Ok a s1 /\ k a fs s1 = Ok r s'.
Proof.
  unfold bind. destruct (m fs s) as [a s1|e s1]; [|discriminate]. intros H. eauto.
Qed.

Lemma bind_keeps_Ok {A B} (m : M A) (k : A -> M B) fs s r s' :
  keeps_data m -> bind m k fs s = Ok r s' ->
  exists a s1, st_data s1 = st_data s /\ k a fs s1 = Ok r s'.
Proof.
  intros K H. destruct (bind_Ok_inv m k fs s r s' H) as (a & s1 & Hm & Hk).
  exists a, s1. split; [|exact Hk]. pose proof (K fs s) as E. rewrite Hm in E. exact E.
Qed.

Lemma missing_loop_run es files dirs n fs s :
  missing_loop es files dirs n fs s =
  Ok (n + length (filter (fun entry => negb (py_in entry files) && negb (py_in entry dirs)) es))
     (mk_state (st_data s)
        (st_out s ++ map (fun entry => ("Warning: missing " ++ entry)%string)
           (filter (fun entry => negb (py_in entry files) && negb (py_in entry dirs)) es))%list
        (st_fds s) (st_next_fd s)).
Proof.
  revert n s. induction es as [|x es IH]; intros n s.
  - simpl. rewrite Nat.add_0_r, app_nil_r. destruct s. reflexivity.
  - cbn [missing_loop]. destruct (negb (py_in x files) && negb (py_in x dirs)) eqn:E.
    + rewrite filter_cons_True by (cbv beta; rewrite E; exact I).
      unfold bind, print. rewrite IH. cbn [st_data st_out st_fds st_next_fd length map].
      rewrite <- app_assoc. f_equal. lia.
    + rewrite filter_cons_False by (cbv beta; rewrite E; intros []). apply IH.
Qed.

Lemma attrs_agree_no_diff e n :
  attrs_changed e n = false -> attrs_differ e n = false /\ diff_lines e n = [].
Proof.
  rewrite attrs_changed_false. induction n as [|[k v] n IH]; intros H; [split; reflexivity|].
  assert (Hk : dget e k = Some v) by (apply H; left).
  destruct IH as [I1 I2]; [intros k' v' Hin; apply H; right; exact Hin|].
  cbn [attrs_differ diff_lines existsb flat_map] in *. unfold attr_differs. cbn [fst snd].
  rewrite Hk, value_eqb_refl. cbn [negb orb app]. split; assumption.
Qed.

Section Further2.

Variable sha256_hex : list Byte.byte -> string.

#[local] Hint Resolve keeps_filedata keeps_dirdata keeps_read_loop keeps_sha256file
  keeps_attr_loop keeps_missing_loop : keeps.

Lemma verify_files_step p rest n m h fs s r s' :
  verify_files sha256_hex (p :: rest) n m h fs s = Ok r s' ->
  exists m' h' s1, st_data s1 = st_data s /\
    verify_files sha256_hex rest (if untracked (st_data s) p then S n else n) m' h' fs s1 = Ok r s'.
Proof.
  intros H. cbn [verify_files] in H. unfold bind at 1, get_data in H. cbv beta iota in H.
  unfold untracked. destruct (st_data s !! p) as [recorded|] eqn:Hp.
  - apply bind_keeps_Ok in H as (t & s1 & E1 & H); [|apply keeps_getitem].
    destruct (negb (value_eqb t (VStr "f"))).
    + apply bind_keeps_Ok in H as (u1 & s2 & E2 & H); [|apply keeps_print].
      apply bind_keeps_Ok in H as (u2 & s3 & E3 & H); [|apply keeps_print].
      exists (S m), h, s3. split; [congruence|exact H].
    + apply bind_keeps_Ok in H as (cur & s2 & E2 & H); [|apply keeps_filedata].
      apply bind_keeps_Ok in H as ([hm mc] & s3 & E3 & H); [|apply keeps_attr_loop].
      apply bind_keeps_Ok in H as (hc & s4 & E4 & H); [|keeps_steps].
      exists mc, hc, s4. split; [congruence|exact H].
  - apply bind_keeps_Ok in H as (u & s1 & E1 & H); [|apply keeps_print].
    exists m, h, s1. split; [exact E1|exact H].
Qed.

Lemma verify_dirs_step p rest n m fs s r s' :
  verify_dirs (p :: rest) n m fs s = Ok r s' ->
  exists m' s1, st_data s1 = st_data s /\
    verify_dirs rest (if untracked (st_data s) p then S n else n) m' fs s1 = Ok r s'.
Proof.
  intros H. cbn [verify_dirs] in H. unfold bind at 1, get_data in H. cbv beta iota in H.
  unfold untracked. destruct (st_data s !! p) as [recorded|] eqn:Hp.
  - apply bind_keeps_Ok in H as (t & s1 & E1 & H); [|apply keeps_getitem].
    destruct (negb (value_eqb t (VStr "d"))).
    + apply bind_keeps_Ok in H as (u1 & s2 & E2 & H); [|apply keeps_print].
      apply bind_keeps_Ok in H as (u2 & s3 & E3 & H); [|apply keeps_print].
      exists (S m), s3. split; [congruence|exact H].
    + apply bind_keeps_Ok in H as (cur & s2 & E2 & H); [|apply keeps_dirdata].
      apply bind_keeps_Ok in H as ([hm mc] & s3 & E3 & H); [|apply keeps_attr_loop].
      exists mc, s3. split; [congruence|exact H].
  - apply bind_keeps_Ok in H as (u & s1 & E1 & H); [|apply keeps_print].
    exists m, s1. split; [exact E1|exact H].
Qed.

Lemma verify_files_new_count files n m h fs s r s' :
  verify_files sha256_hex files n m h fs s = Ok r s' ->
  r.1.1 = n + length (List.filter (untracked (st_data s)) files).
Proof.
  revert n m h s. induction files as [|p rest IH]; intros n m h s H.
  - simpl in H. inversion H. subst. simpl. lia.
  - destruct (verify_files_step p rest n m h fs s r s' H) as (m' & h' & s1 & E & H1).
    rewrite (IH _ _ _ _ H1), E. cbn [List.filter].
    destruct (untracked (st_data s) p); simpl; lia.
Qed.

Lemma verify_dirs_new_count dirs n m fs s r s' :
  verify_dirs dirs n m fs s = Ok r s' ->
  r.1 = n + length (List.filter (untracked (st_data s)) dirs).
Proof.
  revert n m s. induction dirs as [|p rest IH]; intros n m s H.
  - simpl in H. inversion H. subst. simpl. lia.
  - destruct (verify_dirs_step p rest n m fs s r s' H) as (m' & s1 & E & H1).
    rewrite (IH _ _ _ H1), E. cbn [List.filter].
    destruct (untracked (st_data s) p); simpl; lia.
Qed.

(** X: [verify] counts as missing each database key that is in neither
    list, and as new each occurrence of a listed path that has no entry
    (unlike [update], a path listed twice is counted twice). *)
Theorem verify_counts_missing_and_new (fs : fsys) (s s' : state) (files directories : list string)
  (c : vcounts) :
  verify_counts sha256_hex files directories fs s = Ok c s' ->
  v_missing c = size (dom (st_data s) ∖ list_to_set (files ++ directories) : gset string) /\
  v_new c = length (List.filter (untracked (st_data s)) files)
            + length (List.filter (untracked (st_data s)) directories).
Proof.
  intros H. unfold verify_counts, bind at 1, get_data in H. cbv beta iota in H.
  unfold bind at 1 in H. rewrite missing_loop_run in H.
  apply bind_Ok_inv in H as ([[n1 m1] h1] & s2 & H1 & H).
  apply bind_Ok_inv in H as ([n2 m2] & s3 & H2 & H).
  cbn [ret] in H. inversion H. subst c. cbn [v_missing v_new]. split.
  - rewrite to_remove_size. lia.
  - match type of H1 with
    | verify_files _ _ _ _ _ _ ?st = _ =>
        pose proof (keeps_verify_files sha256_hex files 0 0 0 fs st) as K1
    end.
    rewrite H1 in K1. cbn [outcome_state st_data] in K1.
    pose proof (verify_dirs_new_count _ _ _ _ _ _ _ H2) as N2.
    pose proof (verify_files_new_count _ _ _ _ _ _ _ _ H1) as N1.
    cbn [fst snd st_data] in N1, N2. rewrite K1 in N2. lia.
Qed.

(** X: [verify] returns [True] exactly when its four counters are zero;
    it then prints ["No issues found"]. Otherwise it prints an empty
    line, ["Summary of issues:"] and one line for each nonzero counter.
    The database is left as it was. *)
Theorem verify_returns_true_iff_no_issues (fs : fsys) (s s' : state) (files directories : list string)
  (b : bool) :
  verify sha256_hex files directories fs s = Ok b s' ->
  exists c s1, verify_counts sha256_hex files directories fs s = Ok c s1 /\
    (b = true <-> v_missing c = 0 /\ v_new c = 0 /\ v_mismatch c = 0 /\ v_hash_changed c = 0) /\
    st_data s' = st_data s /\
    st_out s' = (st_out s1 ++
      if b then ["No issues found"]
      else "" :: "Summary of issues:" ::
           (if Nat.ltb 0 (v_missing c)
            then [("  " ++ str_nat (v_missing c) ++ " entries missing")%string] else []) ++
           (if Nat.ltb 0 (v_new c)
            then [("  " ++ str_nat (v_new c) ++ " new entries")%string] else []) ++
           (if Nat.ltb 0 (v_mismatch c)
            then [("  " ++ str_nat (v_mismatch c) ++ " entries with attribute mismatches")%string]
            else []) ++
           (if Nat.ltb 0 (v_hash_changed c)
            then [("  " ++ str_nat (v_hash_changed c) ++ " entries with hash changes")%string]
            else []))%list.
Proof.
  intros H.
  pose proof (verify_never_mutates_store sha256_hex files directories fs s) as K.
  rewrite H in K. cbn [outcome_state] in K.
  unfold verify in H. apply bind_Ok_inv in H as (c & s1 & Hc & H).
  exists c, s1. split; [exact Hc|].
  destruct (Nat.ltb 0 (v_missing c + v_new c + v_mismatch c + v_hash_changed c)) eqn:Et.
  - apply Nat.ltb_lt in Et.
    destruct (Nat.ltb 0 (v_missing c)), (Nat.ltb 0 (v_new c)), (Nat.ltb 0 (v_mismatch c)),
      (Nat.ltb 0 (v_hash_changed c));
      unfold bind, print, ret in H; cbn [st_data st_out st_fds st_next_fd] in H;
      inversion H; subst; (split; [split; [discriminate|lia]|split; [exact K|]]);
      cbn [st_out app]; rewrite <- ?app_assoc; reflexivity.
  - apply Nat.ltb_ge in Et.
    unfold bind, print, ret in H; cbn [st_data st_out st_fds st_next_fd] in H.
    inversion H; subst. split; [split; [lia|reflexivity]|split; [exact K|reflexivity]].
Qed.

(** X: [cksum] on distinct listed files that are all in the database,
    not yet hashed and readable succeeds: each entry gets a ["hash"] key
    holding the digest of the file's content, no other entry changes, and
    it prints ["Added hashes for N files"] with [N] the number of files. *)
Theorem cksum_hashes_every_listed_file (fs : fsys) (s : state) (files directories : list string) :
  NoDup files ->
  (forall q, q ∈ files ->
     (exists e, st_data s !! q = Some e /\ dmem "hash" e = false) /\ hashable fs q) ->
  fds_fresh s ->
  exists s', cksum sha256_hex files directories fs s = Ok true s' /\
    (forall q, q ∈ files -> exists e, st_data s !! q = Some e /\
        st_data s' !! q = Some (dset e "hash" (VStr (sha256_hex (fs_bytes fs q))))) /\
    (forall q, q ∉ files -> st_data s' !! q = st_data s !! q) /\
    st_out s' = (st_out s ++ [("Added hashes for " ++ str_nat (length files) ++ " files")%string])%list.
Proof.
  intros Hnd Hpre Hfresh.
  destruct (cksum_loop_prefix sha256_hex files [] 0 fs s Hnd Hpre Hfresh)
    as (s'' & Hrun & Hin & Hout & Hso & _).
  rewrite app_nil_r in Hrun.
  eexists. split.
  - unfold cksum, bind at 1. rewrite Hrun. reflexivity.
  - cbn [st_data st_out]. split; [exact Hin|]. split; [exact Hout|]. rewrite Hso. reflexivity.
Qed.

(** On a settled database, the checks of [verify] find nothing. *)
Lemma verify_files_settled files n m h fs s :
  (forall p, p ∈ files -> file_settled fs (st_data s) p) ->
  verify_files sha256_hex files n m h fs s = Ok (n, m, h) s.
Proof.
  revert s. induction files as [|p rest IH]; intros s Hset; [reflexivity|].
  destruct (Hset p (list_elem_of_here _ _)) as (stats & e & Hs & Hreg & Hp & Hch & Hh).
  assert (Ht : dget e "type" = Some (VStr "f"))
    by (apply (proj1 (attrs_changed_false e _) Hch); left).
  destruct (attrs_agree_no_diff _ _ Hch) as [Hd Hl].
  cbn [verify_files]. unfold bind at 1, get_data. cbv beta iota. rewrite Hp.
  unfold bind at 1, getitem. rewrite Ht. cbn [ret].
  change (negb (value_eqb (VStr "f") (VStr "f"))) with false. cbv iota.
  unfold bind at 1. rewrite (filedata_run fs s p stats Hs Hreg).
  unfold bind at 1. rewrite attr_loop_run, Hd, Hl. cbv beta iota.
  rewrite Hh. cbv iota. unfold bind at 1, ret at 1.
  replace (mk_state (st_data s) (st_out s ++ (if negb false && false then _ else []) ++ [])%list
             (st_fds s) (st_next_fd s)) with s
    by (destruct s; simpl; rewrite app_nil_r; reflexivity).
  apply IH. intros q Hq. apply Hset. right. exact Hq.
Qed.

Lemma verify_dirs_settled dirs n m fs s :
  (forall p, p ∈ dirs -> dir_settled fs (st_data s) p) ->
  verify_dirs dirs n m fs s = Ok (n, m) s.
Proof.
  revert s. induction dirs as [|p rest IH]; intros s Hset; [reflexivity|].
  destruct (Hset p (list_elem_of_here _ _)) as (stats & e & Hs & Hdir & Hp & Hch).
  assert (Ht : dget e "type" = Some (VStr "d"))
    by (apply (proj1 (attrs_changed_false e _) Hch); left).
  destruct (attrs_agree_no_diff _ _ Hch) as [Hd Hl].
  cbn [verify_dirs]. unfold bind at 1, get_data. cbv beta iota. rewrite Hp.
  unfold bind at 1, getitem. rewrite Ht. cbn [ret].
  change (negb (value_eqb (VStr "d") (VStr "d"))) with false. cbv iota.
  unfold bind at 1. rewrite (dirdata_run fs s p stats Hs Hdir).
  unfold bind at 1. rewrite attr_loop_run, Hd, Hl. cbv beta iota.
  replace (mk_state (st_data s) (st_out s ++ (if negb false && false then _ else []) ++ [])%list
             (st_fds s) (st_next_fd s)) with s
    by (destruct s; simpl; rewrite app_nil_r; reflexivity).
  apply IH. intros q Hq. apply Hset. right. exact Hq.
Qed.

(** X: right after a successful [update], [verify] with the same lists on
    the same file system finds no issue: it returns [True], prints only
    ["No issues found"] and changes nothing else. *)
Theorem verify_after_update_finds_no_issues (fs : fsys) (s s1 : state) (files directories : list string)
  (b : bool) :
  store_ok (st_data s) -> update files directories fs s = Ok b s1 ->
  verify sha256_hex files directories fs s1 =
    Ok true (mk_state (st_data s1) (st_out s1 ++ ["No issues found"]) (st_fds s1) (st_next_fd s1)).
Proof.
  intros Hok H.
  destruct (update_inv _ _ _ _ _ _ H) as (c & s2 & Hc & _ & Hs1).
  destruct (update_counts_post _ _ _ _ _ _ Hok Hc) as (Fset & Dset & Keys & _).
  assert (Ed : st_data s1 = st_data s2) by (rewrite Hs1; reflexivity).
  rewrite <- Ed in Fset, Dset, Keys.
  assert (Hv : verify_counts sha256_hex files directories fs s1 = Ok (mk_vcounts 0 0 0 0) s1).
  2: unfold verify, bind at 1; rewrite Hv; reflexivity.
  unfold verify_counts, bind at 1, get_data. cbv beta iota.
  unfold bind at 1. rewrite missing_loop_run.
  assert (E0 : filter (fun entry => negb (py_in entry files) && negb (py_in entry directories))
                 (map fst (map_to_list (st_data s1))) = []).
  { apply length_zero_iff_nil. rewrite to_remove_size.
    replace (dom (st_data s1) ∖ list_to_set (files ++ directories)) with (∅ : gset string);
      [apply size_empty|].
    apply set_eq. intros p. rewrite elem_of_difference, elem_of_dom, elem_of_list_to_set, elem_of_app.
    split; [set_solver|]. intros [[e He] Hn]. rewrite Keys in He; [discriminate| |];
      intros Hx; apply Hn; auto. }
  rewrite E0. cbn [length map]. rewrite app_nil_r.
  unfold bind at 1. rewrite verify_files_settled by (destruct s1; exact Fset).
  unfold bind at 1. rewrite verify_dirs_settled by (destruct s1; exact Dset).
  destruct s1. reflexivity.
Qed.

End Further2.

(** ** [read_db] and [main] *)

Lemma load_data_out h db fs s :
  st_out (outcome_state (load_data h db fs s)) = st_out s.
Proof.
  unfold load_data, read_db, bind, os_path_isfile, open_rb, file_length, f_read, json_loads,
    f_close, ret.
  destruct db; cbn; repeat (case_match; simplify_eq/=; try reflexivity); reflexivity.
Qed.

Lemma load_data_some h db fs s data s' :
  load_data h (Some db) fs s = Ok data s' -> exists d, data = Some d.
Proof.
  unfold load_data, read_db, bind, os_path_isfile, open_rb, file_length, f_read, json_loads,
    f_close, ret.
  intros HL; cbn in HL; repeat (case_match; simplify_eq/=); eauto.
Qed.

Lemma walk_lists_grows fs w fl dl fl' dl' :
  walk_lists fs w fl dl = (fl', dl') ->
  (exists r, dl' = (dl ++ r)%list) /\
  ((forall q, q ∈ fl -> isfile fs q = true) -> forall q, q ∈ fl' -> isfile fs q = true).
Proof.
  revert fl dl. induction w as [|[[root dirs] files] w IH]; intros fl dl H; cbn in H.
  - simplify_eq. split; [exists []; rewrite app_nil_r; reflexivity|auto].
  - destruct (IH _ _ H) as [[r Er] F]. split.
    + exists (map (path_join root) dirs ++ r)%list. rewrite Er, app_assoc. reflexivity.
    + intros Hfl. apply F. intros q Hq. apply elem_of_app in Hq as [Hq|Hq]; [auto|].
      apply list_elem_of_In, filter_In in Hq as [_ Hq]. exact Hq.
Qed.

Lemma setup_lists_not_needs_path h fs p : setup_lists h fs false p <> NeedsPath.
Proof.
  unfold setup_lists. destruct p as [p|]; [|discriminate].
  destruct (negb (isdir fs p) && negb (isfile fs p)); [discriminate|].
  destruct (isfile fs (h_abspath h p)); [discriminate|].
  destruct (walk_lists _ _ _ _); discriminate.
Qed.

Lemma isfile_filedata fs s q :
  isfile fs q = true -> exists e, filedata q fs s = Ok e s.
Proof.
  intros Hf. unfold filedata, bind, os_path_isfile. rewrite Hf. cbn.
  unfold isfile in Hf. unfold os_stat. destruct (fs_stat fs q); [|discriminate].
  eexists; reflexivity.
Qed.

Section FurtherMain.

Variable sha256_hex : list Byte.byte -> string.

#[local] Hint Resolve keeps_verify_files keeps_verify_dirs keeps_count keeps_missing_loop : keeps.

Lemma keeps_run_action_read_only a b fl dl :
  a = ACount \/ a = ACheck \/ a = AVerify ->
  keeps_data (run_action sha256_hex a b fl dl).
Proof.
  intros Ha. destruct a; try (destruct Ha as [?|[?|?]]; discriminate); unfold run_action.
  - destruct b; [apply keeps_count|unfold count_without_db; keeps_steps].
  - unfold verify, verify_counts. keeps_steps.
  - unfold verify, verify_counts. keeps_steps.
Qed.

(** X: [main] writes the database only after the action succeeded, and
    a failing save is not silent: when it has written the [-d] file it
    returns 0; when it returns 0 with [-d] given it has written that file;
    when it returns 1 it has not touched the file; and when [open(db, "w")]
    truncated the file but writing it failed, [main] raises [OSError]. *)
Theorem main_saves_database_only_on_success h fs a :
  (forall db d, mr_write (main sha256_hex h fs a) = Written db d ->
     mr_result (main sha256_hex h fs a) = Returned 0 /\ a_database a = Some db) /\
  (forall db, a_database a = Some db -> mr_result (main sha256_hex h fs a) = Returned 0 ->
     exists d, mr_write (main sha256_hex h fs a) = Written db d) /\
  (mr_result (main sha256_hex h fs a) = Returned 1 -> mr_write (main sha256_hex h fs a) = NoWrite) /\
  (forall db, mr_write (main sha256_hex h fs a) = Clobbered db ->
     mr_result (main sha256_hex h fs a) = Raised (PyError OSError) /\ a_database a = Some db).
Proof.
  unfold main. cbv zeta.
  destruct (_ && _); [cbn; repeat split; intros; simplify_eq; eauto|].
  destruct (load_data h (a_database a) fs _) as [data s1|e s1] eqn:HL;
    [|cbn; repeat split; intros; simplify_eq; eauto].
  destruct (setup_lists _ _ _ _) as [fl dl| |]; [|cbn; repeat split; intros; simplify_eq; eauto..].
  destruct (run_action _ _ _ _ _ _ _) as [r s3|e s3]; [|cbn; repeat split; intros; simplify_eq; eauto].
  destruct r; cbn [negb]; [|cbn; repeat split; intros; simplify_eq; eauto].
  destruct data as [d0|], (a_database a) as [db0|] eqn:Hdb.
  - unfold save_db. destruct (h_can_open_w h db0), (h_can_write h db0);
      cbn; repeat split; intros; simplify_eq; eauto.
  - cbn; repeat split; intros; simplify_eq; eauto.
  - destruct (load_data_some _ _ _ _ _ _ HL) as [? E]; discriminate.
  - cbn; repeat split; intros; simplify_eq; eauto.
Qed.

(** X: every action but [count] needs both arguments: without [-d],
    [main] prints "action X needs database argument" and returns 1 before
    touching anything; with [-d] but without [-p], it reads the database
    and then either raises on reading it or prints "action X needs path
    argument" and returns 1; in both cases it writes nothing. *)
Theorem main_requires_database_and_path h fs a :
  a_action a <> ACount ->
  (a_database a = None ->
     main sha256_hex h fs a =
       mk_main_run (Returned 1) ["action " ++ action_name (a_action a) ++ " needs database argument"] NoWrite) /\
  (a_database a <> None -> a_path a = None ->
     (exists e, main sha256_hex h fs a = mk_main_run (Raised (PyError e)) [] NoWrite) \/
     main sha256_hex h fs a =
       mk_main_run (Returned 1) ["action " ++ action_name (a_action a) ++ " needs path argument"] NoWrite).
Proof.
  intros Ha.
  assert (Hn : py_in (action_name (a_action a)) ["add"; "hash"; "check"; "verify"; "update"] = true)
    by (destruct (a_action a); [congruence|reflexivity..]).
  unfold main. cbv zeta. rewrite Hn. cbn [andb]. split.
  - intros Hdb. rewrite Hdb. reflexivity.
  - intros Hdb Hp. destruct (a_database a) as [db|]; [|congruence].
    pose proof (load_data_out h (Some db) fs (mk_state ∅ [] ∅ 3)) as Ho.
    destruct (load_data h (Some db) fs _) as [data s1|e s1]; cbn in Ho; rewrite Ho.
    + right. unfold setup_lists. rewrite Hp. reflexivity.
    + left. exists e. reflexivity.
Qed.

(** X: [count] without [-d] never reads or writes a database: [main] either
    raises [ArgumentTypeError] on a [-p] that is neither a file nor a
    directory, or prints only the "path contains" line (nothing when both
    lists are empty, as without [-p]) and returns 0. *)
Theorem main_count_without_database h fs a :
  a_action a = ACount -> a_database a = None ->
  main sha256_hex h fs a = mk_main_run (Raised ArgumentTypeError) [] NoWrite \/
  exists fl dl, setup_lists h fs false (a_path a) = Lists fl dl /\
    main sha256_hex h fs a =
      mk_main_run (Returned 0)
        (match fl, dl with
         | [], [] => []
         | _, _ => ["path contains " ++ str_nat (length fl) ++ " files and "
                    ++ str_nat (length dl) ++ " directories"]
         end) NoWrite.
Proof.
  intros Ha Hdb. unfold main. cbv zeta. rewrite Ha, Hdb.
  change (py_in (action_name ACount) ["add"; "hash"; "check"; "verify"; "update"]) with false.
  cbn [andb].
  change (load_data h None fs (mk_state ∅ [] ∅ 3)) with (@Ok (option (gmap string entry)) None (mk_state ∅ [] ∅ 3)).
  cbv iota.
  destruct (setup_lists h fs false (a_path a)) as [fl dl| |] eqn:Hs.
  - right. exists fl, dl. split; [reflexivity|].
    destruct fl, dl; reflexivity.
  - exfalso. exact (setup_lists_not_needs_path h fs (a_path a) Hs).
  - left. reflexivity.
Qed.

(** X: what [count], [check] and [verify] save back is exactly the
    database [main] read: when [main] writes the file after one of them,
    the [-d] file was given and reading it produced that same dict. *)
Theorem main_read_only_actions_save_what_they_read h fs a db d :
  a_action a = ACount \/ a_action a = ACheck \/ a_action a = AVerify ->
  mr_write (main sha256_hex h fs a) = Written db d ->
  a_database a = Some db /\ exists s1, load_data h (Some db) fs (mk_state ∅ [] ∅ 3) = Ok (Some d) s1.
Proof.
  intros Ha. unfold main. cbv zeta.
  destruct (_ && _); [discriminate|].
  destruct (load_data h (a_database a) fs _) as [data s1|e s1] eqn:HL; [|discriminate].
  destruct (setup_lists _ _ _ _) as [fl dl| |]; [|discriminate..].
  destruct (run_action _ _ _ _ _ _ _) as [r s3|e s3] eqn:HR; [|discriminate].
  destruct r; cbn [negb]; [|discriminate].
  destruct data as [d0|], (a_database a) as [db0|] eqn:Hdb; cbn; try discriminate.
  unfold save_db. destruct (h_can_open_w h db0), (h_can_write h db0); cbn; try discriminate.
  intros H. simplify_eq. split; [reflexivity|].
  exists s1. pose proof (keeps_run_action_read_only (a_action a) true fl dl Ha fs
    (mk_state d0 (st_out s1) (st_fds s1) (st_next_fd s1))) as K.
  rewrite HR in K. cbn in K. rewrite K. exact HL.
Qed.

End FurtherMain.

(** X: the file list [main] builds for [-p] holds only regular files, so
    [filedata] succeeds on each of them; a [-p] file gives the one-element
    file list of its absolute path and no directories, a [-p] directory
    gives a directory list that starts with its absolute path, and no
    [-p] gives two empty lists. *)
Theorem setup_lists_files_are_regular h fs needs p fl dl :
  setup_lists h fs needs p = Lists fl dl ->
  (forall q, q ∈ fl -> isfile fs q = true /\ forall s, exists e, filedata q fs s = Ok e s) /\
  (p = None -> fl = [] /\ dl = []) /\
  (forall p0, p = Some p0 ->
     (isfile fs (h_abspath h p0) = true /\ fl = [h_abspath h p0] /\ dl = []) \/
     exists rest, dl = h_abspath h p0 :: rest).
Proof.
  intros H.
  assert (Hreg : (forall q, q ∈ fl -> isfile fs q = true) ->
                 forall q, q ∈ fl -> isfile fs q = true /\ forall s, exists e, filedata q fs s = Ok e s).
  { intros F q Hq. split; [auto|]. intros s. apply isfile_filedata, F, Hq. }
  unfold setup_lists in H. destruct p as [p|].
  - destruct (negb (isdir fs p) && negb (isfile fs p)); [discriminate|].
    destruct (isfile fs (h_abspath h p)) eqn:Hf.
    + simplify_eq. split; [apply Hreg; intros q Hq; apply list_elem_of_singleton in Hq; subst; exact Hf|].
      split; [discriminate|]. intros p0 E. simplify_eq. left. auto.
    + destruct (walk_lists fs (h_walk h (h_abspath h p)) [] [h_abspath h p]) as [fl' dl'] eqn:W.
      simplify_eq. destruct (walk_lists_grows _ _ _ _ _ _ W) as [[r Er] F].
      split; [apply Hreg, F; intros q Hq; apply elem_of_nil in Hq; contradiction|].
      split; [discriminate|]. intros p0 E. injection E as <-. right. exists r. exact Er.
  - destruct needs; simplify_eq. split; [apply Hreg; intros q Hq; apply elem_of_nil in Hq; contradiction|].
    split; [auto|]. discriminate.
Qed.

(** X: how [main] loads the database: without [-d] there is none; a [-d]
    path that is not a regular file gives an empty dict; a readable file is
    read whole, its JSON object becomes the database and the document
    [null] gives an empty dict, its handle being closed again; when
    [json.loads] raises, the [ValueError] leaves with the handle still
    open. Loading prints nothing and starts from no database. *)
Theorem load_data_reads_database h fs s db :
  load_data h None fs s = Ok None s /\
  (isfile fs db = false -> load_data h (Some db) fs s = Ok (Some ∅) s) /\
  (isfile fs db = true -> fs_can_open fs db = true -> fs_fault fs db = None ->
   st_fds s !! st_next_fd s = None ->
   match h_loads h (fs_bytes fs db) with
   | Some (Some d) =>
       load_data h (Some db) fs s =
         Ok (Some d) (mk_state (st_data s) (st_out s) (st_fds s) (S (st_next_fd s)))
   | Some None =>
       load_data h (Some db) fs s =
         Ok (Some ∅) (mk_state (st_data s) (st_out s) (st_fds s) (S (st_next_fd s)))
   | None =>
       load_data h (Some db) fs s =
         Exc ValueError (mk_state (st_data s) (st_out s)
           (<[st_next_fd s := (db, length (fs_bytes fs db))]> (st_fds s)) (S (st_next_fd s)))
   end).
Proof.
  split; [reflexivity|]. split.
  - intros Hf. unfold load_data, bind, os_path_isfile. rewrite Hf. reflexivity.
  - intros Hf Ho Hfault Hfree.
    unfold load_data, read_db, bind, os_path_isfile, open_rb, file_length, f_read, json_loads,
      f_close, ret, with_fds.
    rewrite Hf, Ho. cbn [st_fds st_next_fd st_data st_out]. rewrite lookup_insert_eq.
    rewrite Hfault. cbn [read_faults Nat.add]. rewrite drop_0, firstn_all, insert_insert_eq.
    destruct (h_loads h (fs_bytes fs db)) as [[d|]|]; cbn;
      rewrite ?delete_insert_eq, ?delete_id by exact Hfree; reflexivity.
Qed.

(** ** Concrete runs of the further properties *)

Lemma sha256file_fails_before_opening_witness :
  sha256file sample_hex "/d" sample_fs empty_state = Exc AssertionError empty_state.
Proof. apply (proj1 (sha256file_fails_before_opening sample_hex sample_fs empty_state "/d")). reflexivity. Defined.

Lemma sha256file_digests_whole_content_witness :
  sha256file sample_hex "/a" sample_fs empty_state = Ok "h5" (mk_state ∅ [] ∅ 1).
Proof.
  rewrite (sha256file_digests_whole_content sample_hex sample_fs empty_state "/a").
  all: vm_compute; reflexivity.
Defined.

Lemma filedata_entry_layout_witness :
  filedata "/d" sample_fs empty_state = Exc AssertionError empty_state /\
  exists e, filedata "/a" sample_fs empty_state = Ok e empty_state /\
    dget e "size" = Some (VInt 5) /\ dmem "hash" e = false.
Proof.
  split; [apply (proj1 (filedata_entry_layout sample_fs empty_state "/d")); reflexivity|].
  destruct (proj2 (filedata_entry_layout sample_fs empty_state "/a") (mk_stat 33188 1000 1000 5))
    as (e & H & _ & _ & _ & _ & _ & Hs & Hh); [reflexivity|reflexivity|].
  exists e. split; [exact H|split; [exact Hs|exact Hh]].
Defined.

Lemma dirdata_entry_layout_witness :
  dirdata "/a" sample_fs empty_state = Exc AssertionError empty_state /\
  exists e, dirdata "/d" sample_fs empty_state = Ok e empty_state /\
    dget e "mode" = Some (VStr "0o755") /\ dmem "size" e = false.
Proof.
  split; [apply (proj1 (dirdata_entry_layout sample_fs empty_state "/a")); reflexivity|].
  destruct (proj2 (dirdata_entry_layout sample_fs empty_state "/d") (mk_stat 16877 0 0 4096))
    as (e & H & _ & _ & _ & _ & Hm & Hs & _); [reflexivity|reflexivity|].
  exists e. split; [exact H|split; [rewrite Hm; vm_compute; reflexivity|exact Hs]].
Defined.

Lemma count_reports_database_and_path_witness :
  count ["/a"] [] sample_fs (state_with {["/a" := a_file_entry]}) =
    Ok true (mk_state {["/a" := a_file_entry]}
               ["database contains 1 files and 0 directories"; "path contains 1 files and 0 directories"]
               ∅ 0).
Proof.
  rewrite (count_reports_database_and_path sample_fs (state_with {["/a" := a_file_entry]}) ["/a"] []).
  - vm_compute. reflexivity.
  - intros p e H. cbn in H. apply lookup_singleton_Some in H as [_ <-]. eexists. reflexivity.
Defined.

Lemma count_untyped_entry_raises_witness :
  count [] [] sample_fs (state_with {["/a" := [("uid", VInt 0)]]}) =
    Exc KeyError (state_with {["/a" := [("uid", VInt 0)]]}).
Proof.
  apply (count_untyped_entry_raises sample_fs _ [] [] "/a" [("uid", VInt 0)]);
    vm_compute; reflexivity.
Defined.

Lemma add_never_overwrites_existing_entries_witness :
  st_data (outcome_state (add ["/x"] ["/d"] sample_fs (state_with {["/x" := a_dir_entry]}))) !! "/x"
    = Some a_dir_entry.
Proof.
  apply (proj1 (add_never_overwrites_existing_entries sample_fs (state_with {["/x" := a_dir_entry]})
                  ["/x"] ["/d"])).
  vm_compute. reflexivity.
Defined.

Lemma update_reports_removed_entries_witness :
  exists b s', update ["/a"] [] sample_fs (state_with (<["/old" := a_dir_entry]> {["/a" := a_file_entry]}))
                 = Ok b s' /\
    exists out, st_out s' = (out ++ ["Removed 1 deleted entries"])%list.
Proof.
  destruct (update ["/a"] [] sample_fs (state_with (<["/old" := a_dir_entry]> {["/a" := a_file_entry]})))
    as [b s'|ex s'] eqn:E; [|vm_compute in E; discriminate].
  destruct (update_reports_removed_entries sample_fs _ s' ["/a"] [] b E) as [out Ho].
  exists b, s'. split; [reflexivity|]. exists out. rewrite Ho. f_equal; vm_compute; reflexivity.
Defined.

Lemma update_reports_new_entries_witness :
  exists b s' c, update ["/a"] ["/d"] sample_fs (state_with {["/a" := a_file_entry]}) = Ok b s' /\
    (exists s1, update_counts ["/a"] ["/d"] sample_fs (state_with {["/a" := a_file_entry]}) = Ok c s1) /\
    u_new c = 1.
Proof.
  destruct (update ["/a"] ["/d"] sample_fs (state_with {["/a" := a_file_entry]}))
    as [b s'|ex s'] eqn:E; [|vm_compute in E; discriminate].
  destruct (update_reports_new_entries sample_fs _ s' ["/a"] ["/d"] b E) as (c & s1 & Hc & Hn & _).
  exists b, s', c. split; [reflexivity|]. split; [exists s1; exact Hc|].
  rewrite Hn. vm_compute. reflexivity.
Defined.

Lemma update_leaves_exactly_listed_keys_witness :
  exists b s', update ["/a"] ["/d"] sample_fs (state_with (<["/old" := a_dir_entry]> {["/a" := a_file_entry]}))
                 = Ok b s' /\
    dom (st_data s') = list_to_set ["/a"; "/d"].
Proof.
  destruct (update ["/a"] ["/d"] sample_fs (state_with (<["/old" := a_dir_entry]> {["/a" := a_file_entry]})))
    as [b s'|ex s'] eqn:E; [|vm_compute in E; discriminate].
  exists b, s'. split; [reflexivity|].
  apply (update_leaves_exactly_listed_keys sample_fs
           (state_with (<["/old" := a_dir_entry]> {["/a" := a_file_entry]})) s' ["/a"] ["/d"] b);
    [|exact E].
  apply store_ok_check. vm_compute. reflexivity.
Defined.

Lemma verify_counts_missing_and_new_witness :
  exists c s', verify_counts sample_hex ["/a"] ["/d"] sample_fs (state_with {["/old" := a_dir_entry]})
                 = Ok c s' /\ v_missing c = 1 /\ v_new c = 2.
Proof.
  destruct (verify_counts sample_hex ["/a"] ["/d"] sample_fs (state_with {["/old" := a_dir_entry]}))
    as [c s'|ex s'] eqn:E; [|vm_compute in E; discriminate].
  destruct (verify_counts_missing_and_new sample_hex sample_fs _ s' ["/a"] ["/d"] c E) as [Hm Hn].
  exists c, s'. split; [reflexivity|]. rewrite Hm, Hn. split; vm_compute; reflexivity.
Defined.

Lemma verify_returns_true_iff_no_issues_witness :
  exists s', verify sample_hex ["/a"] [] sample_fs (state_with {["/a" := a_drifted_entry]}) = Ok false s' /\
    st_data s' = {["/a" := a_drifted_entry]}.
Proof.
  destruct (verify sample_hex ["/a"] [] sample_fs (state_with {["/a" := a_drifted_entry]}))
    as [b s'|ex s'] eqn:E; [|vm_compute in E; discriminate].
  destruct (verify_returns_true_iff_no_issues sample_hex sample_fs _ s' ["/a"] [] b E)
    as (c & s1 & Hc & Hiff & Hd & _).
  vm_compute in Hc. injection Hc as <- _.
  destruct b.
  - exfalso. destruct (proj1 Hiff eq_refl) as (_ & _ & Hmis & _). cbn in Hmis. discriminate Hmis.
  - exists s'. split; [reflexivity|exact Hd].
Defined.

Lemma cksum_hashes_every_listed_file_witness :
  exists s', cksum sample_hex ["/a"] [] sample_fs (state_with {["/a" := a_file_entry]}) = Ok true s' /\
    st_data s' !! "/a" = Some a_hashed_entry.
Proof.
  destruct (cksum_hashes_every_listed_file sample_hex sample_fs (state_with {["/a" := a_file_entry]})
              ["/a"] []) as (s' & H & Hq & _ & _).
  - apply NoDup_singleton.
  - by_elem (split; [exists a_file_entry; split; reflexivity | repeat split; reflexivity]).
  - intros n _. apply lookup_empty.
  - exists s'. split; [exact H|].
    destruct (Hq "/a" (list_elem_of_here _ _)) as (e & He & He'). rewrite He'.
    vm_compute in He. injection He as <-. vm_compute. reflexivity.
Defined.

Lemma verify_after_update_finds_no_issues_witness :
  exists b s1, update ["/a"] ["/d"] sample_fs (state_with {["/old" := a_dir_entry]}) = Ok b s1 /\
    verify sample_hex ["/a"] ["/d"] sample_fs s1 =
      Ok true (mk_state (st_data s1) (st_out s1 ++ ["No issues found"]) (st_fds s1) (st_next_fd s1)).
Proof.
  destruct (update ["/a"] ["/d"] sample_fs (state_with {["/old" := a_dir_entry]}))
    as [b s1|ex s1] eqn:E; [|vm_compute in E; discriminate].
  exists b, s1. split; [reflexivity|].
  apply (verify_after_update_finds_no_issues sample_hex sample_fs
           (state_with {["/old" := a_dir_entry]}) s1 ["/a"] ["/d"] b); [|exact E].
  apply store_ok_check. vm_compute. reflexivity.
Defined.

Lemma main_saves_database_only_on_success_witness :
  (exists d, mr_write (main sample_hex main_host main_fs (mk_args (Some "/db") (Some "/d") AAdd))
               = Written "/db" d) /\
  mr_write (main sample_hex full_disk_host main_fs (mk_args (Some "/db") (Some "/d") AAdd)) = Clobbered "/db" /\
  mr_result (main sample_hex full_disk_host main_fs (mk_args (Some "/db") (Some "/d") AAdd))
    = Raised (PyError OSError).
Proof.
  split.
  - apply (proj1 (proj2 (main_saves_database_only_on_success sample_hex main_host main_fs
                    (mk_args (Some "/db") (Some "/d") AAdd))) "/db");
      vm_compute; reflexivity.
  - assert (H : mr_write (main sample_hex full_disk_host main_fs (mk_args (Some "/db") (Some "/d") AAdd))
                  = Clobbered "/db") by (vm_compute; reflexivity).
    split; [exact H|].
    exact (proj1 (proj2 (proj2 (proj2 (main_saves_database_only_on_success sample_hex full_disk_host
                    main_fs (mk_args (Some "/db") (Some "/d") AAdd)))) "/db" H)).
Defined.

Lemma main_requires_database_and_path_witness :
  main sample_hex main_host main_fs (mk_args None (Some "/d") AVerify) =
    mk_main_run (Returned 1) ["action verify needs database argument"] NoWrite.
Proof.
  apply (proj1 (main_requires_database_and_path sample_hex main_host main_fs
                  (mk_args None (Some "/d") AVerify) ltac:(discriminate))).
  reflexivity.
Defined.

Lemma main_count_without_database_witness :
  main sample_hex main_host main_fs (mk_args None (Some "/d") ACount) =
    mk_main_run (Returned 0) ["path contains 1 files and 1 directories"] NoWrite.
Proof.
  destruct (main_count_without_database sample_hex main_host main_fs (mk_args None (Some "/d") ACount)
              eq_refl eq_refl) as [H|(fl & dl & Hs & H)]; [vm_compute in H; discriminate|].
  rewrite H. vm_compute in Hs. injection Hs as <- <-. reflexivity.
Defined.

Lemma main_read_only_actions_save_what_they_read_witness :
  mr_write (main sample_hex main_host main_fs (mk_args (Some "/db") (Some "/d") ACount)) = Written "/db" ∅ /\
  exists s1, load_data main_host (Some "/db") main_fs (mk_state ∅ [] ∅ 3) = Ok (Some ∅) s1.
Proof.
  assert (H : mr_write (main sample_hex main_host main_fs (mk_args (Some "/db") (Some "/d") ACount))
                = Written "/db" ∅) by (vm_compute; reflexivity).
  split; [exact H|].
  exact (proj2 (main_read_only_actions_save_what_they_read sample_hex main_host main_fs
                  (mk_args (Some "/db") (Some "/d") ACount) "/db" ∅ (or_introl eq_refl) H)).
Defined.

Lemma setup_lists_files_are_regular_witness :
  setup_lists main_host main_fs true (Some "/d") = Lists ["/d/a"] ["/d"] /\
  forall s, exists e, filedata "/d/a" main_fs s = Ok e s.
Proof.
  assert (H : setup_lists main_host main_fs true (Some "/d") = Lists ["/d/a"] ["/d"])
    by (vm_compute; reflexivity).
  split; [exact H|].
  apply (proj1 (setup_lists_files_are_regular main_host main_fs true (Some "/d") ["/d/a"] ["/d"] H) "/d/a").
  apply list_elem_of_here.
Defined.

Lemma load_data_reads_database_witness :
  load_data main_host (Some "/db") main_fs empty_state = Ok (Some ∅) (mk_state ∅ [] ∅ 1).
Proof.
  exact (proj2 (proj2 (load_data_reads_database main_host main_fs empty_state "/db"))
           eq_refl eq_refl eq_refl eq_refl).
Defined.
